(** * Villa project manager: the data engine of [app.py]

    A shallow embedding of the load / filter / mutate / save / aggregate
    paths of the Streamlit script [app.py], and the properties of its
    specification that can be settled on it.

    Conventions of the embedding
    - a Python [str] is a [string]; the character-level functions work on
      [list ascii] (ASCII text);
    - a pandas [DataFrame] is the list of its rows, in index order; a row is
      a record with one field per column;
    - the remote sheet, the Streamlit data cache and the widgets are
      explicit arguments and results: the script is a function from the
      widget state and the world to the outputs and the new world;
    - a [float64] cell is represented by the decimal digits and the
      decimal-point position of its shortest [repr] (what [dtoa] returns),
      with the three special values beside it: see [pyfloat]. *)

From Stdlib Require Import Bool List String Ascii ZArith QArith Lia.
From Stdlib Require Import DecimalString DecimalN DecimalZ.
From Stdlib Require Import Permutation Sorted.
Import ListNotations.

Local Open Scope string_scope.
Local Open Scope list_scope.
Local Open Scope Z_scope.

(** ** Characters and Python string methods *)

Module PyStr.

Definition chars (s : string) : list ascii := list_ascii_of_string s.
Definition str (l : list ascii) : string := string_of_list_ascii l.

Definition code (c : ascii) : nat := nat_of_ascii c.

Definition is_digit (c : ascii) : bool :=
  ((48 <=? code c) && (code c <=? 57))%nat.

(** [Py_ISSPACE], the white space [float()] strips from ASCII text:
    TAB..CR and the space. *)
Definition is_space (c : ascii) : bool :=
  (((9 <=? code c) && (code c <=? 13)) || (code c =? 32))%nat.

Fixpoint dropwhile {A} (p : A -> bool) (l : list A) : list A :=
  match l with
  | [] => []
  | x :: l' => if p x then dropwhile p l' else l
  end.

Fixpoint takewhile {A} (p : A -> bool) (l : list A) : list A :=
  match l with
  | [] => []
  | x :: l' => if p x then x :: takewhile p l' else []
  end.

(** [s.rstrip(c)] for a one-character argument. *)
Definition rstrip_chars (c : ascii) (l : list ascii) : list ascii :=
  rev (dropwhile (Ascii.eqb c) (rev l)).

Definition rstrip (c : ascii) (s : string) : string :=
  str (rstrip_chars c (chars s)).

(** [s.strip()] as [float()] applies it. *)
Definition strip_chars (l : list ascii) : list ascii :=
  rev (dropwhile is_space (rev (dropwhile is_space l))).

(** ASCII lower case, for the case-insensitive [inf] / [nan] literals. *)
Definition lower (c : ascii) : ascii :=
  if ((65 <=? code c) && (code c <=? 90))%nat then ascii_of_nat (code c + 32) else c.

Fixpoint chars_eqb (a b : list ascii) : bool :=
  match a, b with
  | [], [] => true
  | x :: a', y :: b' => Ascii.eqb x y && chars_eqb a' b'
  | _, _ => false
  end.

(** A character that is no white space, underscore or percent sign. *)
Definition plain (c : ascii) : bool :=
  negb (is_space c) && negb (Ascii.eqb c "_"%char) && negb (Ascii.eqb "%"%char c).

(** [str(n)] for a Python [int]. *)
Definition str_of_int (n : Z) : string := NilZero.string_of_int (Z.to_int n).

End PyStr.

(** ** [float64] cells: [float(s)], [str(x)] and the arithmetic of [mean] *)

Module PyFloat.
Import PyStr.

(** A finite non-zero double is [FNum neg ds decpt]: the value
    [(-1)^neg * 0.d1 d2 ... dn * 10^decpt], where [ds] are the digits of
    the shortest decimal that reads back as the double (first and last
    digit not [0]).  This is the pair that [repr] formats, and the
    encoding is exact for every literal of at most fifteen significant
    digits inside the double range, in particular for every percentage
    the interface can produce and for every output of [str]; binary
    rounding of longer literals and of sums is not represented. *)
Inductive pyfloat : Type :=
| FNan
| FInf (neg : bool)
| FZero (neg : bool)
| FNum (neg : bool) (ds : list ascii) (decpt : Z).

Definition zero_char : ascii := "0"%char.

Definition zeros (n : nat) : list ascii := repeat zero_char n.

Definition is_zero (c : ascii) : bool := Ascii.eqb c zero_char.

Definition wf_float (x : pyfloat) : Prop :=
  match x with
  | FNum _ ds _ =>
      forallb is_digit ds = true /\
      (exists d ds', ds = d :: ds' /\ is_zero d = false) /\
      (exists d ds', rev ds = d :: ds' /\ is_zero d = false)
  | _ => True
  end.

(** *** [str(x)]: [float_repr], format code ['r'] *)

Fixpoint chars_of_uint (u : Decimal.uint) : list ascii :=
  match u with
  | Decimal.Nil => []
  | Decimal.D0 u => "0"%char :: chars_of_uint u
  | Decimal.D1 u => "1"%char :: chars_of_uint u
  | Decimal.D2 u => "2"%char :: chars_of_uint u
  | Decimal.D3 u => "3"%char :: chars_of_uint u
  | Decimal.D4 u => "4"%char :: chars_of_uint u
  | Decimal.D5 u => "5"%char :: chars_of_uint u
  | Decimal.D6 u => "6"%char :: chars_of_uint u
  | Decimal.D7 u => "7"%char :: chars_of_uint u
  | Decimal.D8 u => "8"%char :: chars_of_uint u
  | Decimal.D9 u => "9"%char :: chars_of_uint u
  end.

(** The decimal digits of a natural number, ["0"] for zero. *)
Definition digits_of_N (n : N) : list ascii := chars_of_uint (N.to_uint n).

(** The exponent of the scientific form: sign and at least two digits. *)
Definition exp_chars (e : Z) : list ascii :=
  let ds := digits_of_N (Z.abs_N e) in
  (if e <? 0 then "-"%char else "+"%char)
    :: (if (List.length ds <? 2)%nat then zero_char :: ds else ds).

Definition sign_chars (neg : bool) : list ascii :=
  if neg then ["-"%char] else [].

Definition repr_chars (x : pyfloat) : list ascii :=
  match x with
  | FNan => chars "nan"
  | FInf neg => sign_chars neg ++ chars "inf"
  | FZero neg => sign_chars neg ++ chars "0.0"
  | FNum neg ds decpt =>
      let n := Z.of_nat (List.length ds) in
      sign_chars neg ++
      (if (decpt <=? -4) || (16 <? decpt) then
         match ds with
         | [] => []
         | d :: rest =>
             d :: (match rest with [] => [] | _ => "."%char :: rest end)
               ++ "e"%char :: exp_chars (decpt - 1)
         end
       else if decpt <=? 0 then
         chars "0." ++ zeros (Z.to_nat (- decpt)) ++ ds
       else if decpt <? n then
         firstn (Z.to_nat decpt) ds ++ "."%char :: skipn (Z.to_nat decpt) ds
       else
         ds ++ zeros (Z.to_nat (decpt - n)) ++ chars ".0")
  end.

Definition str_of_float (x : pyfloat) : string := str (repr_chars x).

(** *** [float(s)] *)

(** [_Py_string_to_number_with_underscores]: an underscore is allowed
    only between two digits, and is dropped. *)
Fixpoint drop_underscores (prev : ascii) (l : list ascii) : option (list ascii) :=
  match l with
  | [] => if Ascii.eqb prev "_"%char then None else Some []
  | c :: l' =>
      if Ascii.eqb c "_"%char then
        if is_digit prev then drop_underscores c l' else None
      else if Ascii.eqb prev "_"%char && negb (is_digit c) then None
      else option_map (cons c) (drop_underscores c l')
  end.

Definition digit_val (c : ascii) : Z := Z.of_nat (code c) - 48.

Definition digits_value (ds : list ascii) : Z :=
  fold_left (fun acc c => 10 * acc + digit_val c) ds 0.

(** Sign, then the rest. *)
Definition split_sign (l : list ascii) : bool * list ascii :=
  match l with
  | c :: l' =>
      if Ascii.eqb c "-"%char then (true, l')
      else if Ascii.eqb c "+"%char then (false, l')
      else (false, l)
  | [] => (false, [])
  end.

(** The exponent part: nothing, or [e] / [E], a sign and digits up to
    the end of the text. *)
Definition parse_exponent (l : list ascii) : option Z :=
  match l with
  | [] => Some 0
  | c :: l' =>
      if Ascii.eqb (lower c) "e"%char then
        let (neg, ds) := split_sign l' in
        match ds with
        | [] => None
        | _ => if forallb is_digit ds
               then Some (if neg then - digits_value ds else digits_value ds)
               else None
        end
      else None
  end.

(** Digits with the decimal point in front of them and a power of ten:
    leading zeros move the point, trailing zeros are dropped. *)
Definition normalize (neg : bool) (ds : list ascii) (decpt : Z) : pyfloat :=
  let lead := takewhile is_zero ds in
  let body := rev (dropwhile is_zero (rev (dropwhile is_zero ds))) in
  match body with
  | [] => FZero neg
  | _ => FNum neg body (decpt - Z.of_nat (List.length lead))
  end.

Definition parse_decimal (neg : bool) (l : list ascii) : option pyfloat :=
  let ip := takewhile is_digit l in
  let r1 := dropwhile is_digit l in
  let '(fp, r2) :=
    match r1 with
    | c :: r =>
        if Ascii.eqb c "."%char
        then (takewhile is_digit r, dropwhile is_digit r)
        else ([], r1)
    | [] => ([], [])
    end in
  match ip ++ fp with
  | [] => None
  | ds =>
      match parse_exponent r2 with
      | Some e => Some (normalize neg ds (Z.of_nat (List.length ip) + e))
      | None => None
      end
  end.

Definition parse_special (neg : bool) (l : list ascii) : option pyfloat :=
  let low := map lower l in
  if chars_eqb low (chars "inf") || chars_eqb low (chars "infinity") then Some (FInf neg)
  else if chars_eqb low (chars "nan") then Some FNan
  else None.

Definition float_of_chars (l : list ascii) : option pyfloat :=
  match drop_underscores "000"%char l with
  | None => None
  | Some l1 =>
      let (neg, body) := split_sign (strip_chars l1) in
      match parse_special neg body with
      | Some x => Some x
      | None => parse_decimal neg body
      end
  end.

(** [float(s)]: [None] stands for the [ValueError]. *)
Definition float_of_str (s : string) : option pyfloat := float_of_chars (chars s).

(** An integer stored into a [float64] column. *)
Definition float_of_int (n : Z) : pyfloat :=
  normalize (n <? 0) (digits_of_N (Z.abs_N n))
            (Z.of_nat (List.length (digits_of_N (Z.abs_N n)))).

Definition isna (x : pyfloat) : bool :=
  match x with FNan => true | _ => false end.

End PyFloat.

(** ** Extended rationals: the values [sum] and [mean] range over *)

Module Ext.
Import PyStr PyFloat.

(** Sums and quotients are taken in exact arithmetic: rounding to
    [float64] is not represented. *)
Inductive ext : Type :=
| ENan
| EInf (neg : bool)
| EFin (q : Q).

Definition to_ext (x : pyfloat) : ext :=
  match x with
  | FNan => ENan
  | FInf neg => EInf neg
  | FZero _ => EFin 0
  | FNum neg ds decpt =>
      let m := digits_value ds in
      EFin (inject_Z (if neg then - m else m)
            * Qpower (10 # 1) (decpt - Z.of_nat (List.length ds)))
  end.

Definition ext_add (a b : ext) : ext :=
  match a, b with
  | ENan, _ | _, ENan => ENan
  | EInf s, EInf t => if Bool.eqb s t then EInf s else ENan
  | EInf s, EFin _ | EFin _, EInf s => EInf s
  | EFin x, EFin y => EFin (x + y)
  end.

(** Division by a positive count; the quotient is kept in lowest terms. *)
Definition ext_div (a : ext) (n : nat) : ext :=
  match a with
  | EFin x => EFin (Qred (x / inject_Z (Z.of_nat n)))
  | _ => a
  end.

Definition ext_sum (l : list ext) : ext := fold_left ext_add l (EFin 0).

End Ext.

(** ** Dates: [pd.to_datetime(col, format='%d/%m/%Y', errors='coerce')] *)

Module Dates.
Import PyStr PyFloat.

Record date : Type := mkdate { year : Z; month : Z; day : Z }.

Fixpoint split_on (c : ascii) (l : list ascii) : list (list ascii) :=
  match l with
  | [] => [[]]
  | x :: l' =>
      if Ascii.eqb x c then [] :: split_on c l'
      else match split_on c l' with
           | seg :: segs => (x :: seg) :: segs
           | [] => [[x]]
           end
  end.

Definition in_range (lo hi : nat) (c : ascii) : bool :=
  ((lo <=? code c) && (code c <=? hi))%nat.

(** [%d]: [3[0-1]|[1-2]\d|0[1-9]|[1-9]| [1-9]]. *)
Definition parse_day (seg : list ascii) : option Z :=
  match seg with
  | [a] => if in_range 49 57 a then Some (digit_val a) else None
  | [a; b] =>
      if (Ascii.eqb a "3"%char && in_range 48 49 b)
         || (in_range 49 50 a && is_digit b)
         || (Ascii.eqb a "0"%char && in_range 49 57 b)
      then Some (10 * digit_val a + digit_val b)
      else if Ascii.eqb a " "%char && in_range 49 57 b then Some (digit_val b)
      else None
  | _ => None
  end.

(** [%m]: [1[0-2]|0[1-9]|[1-9]]. *)
Definition parse_month (seg : list ascii) : option Z :=
  match seg with
  | [a] => if in_range 49 57 a then Some (digit_val a) else None
  | [a; b] =>
      if (Ascii.eqb a "1"%char && in_range 48 50 b)
         || (Ascii.eqb a "0"%char && in_range 49 57 b)
      then Some (10 * digit_val a + digit_val b)
      else None
  | _ => None
  end.

(** [%Y]: four digits. *)
Definition parse_year (seg : list ascii) : option Z :=
  match seg with
  | [_; _; _; _] => if forallb is_digit seg then Some (digits_value seg) else None
  | _ => None
  end.

Definition is_leap (y : Z) : bool :=
  ((y mod 4 =? 0) && negb (y mod 100 =? 0)) || (y mod 400 =? 0).

Definition days_in_month (y m : Z) : Z :=
  if m =? 2 then (if is_leap y then 29 else 28)
  else if (m =? 4) || (m =? 6) || (m =? 9) || (m =? 11) then 30
  else 31.

(** One cell: the whole text must match the format and name a day of
    the calendar; anything else is [NaT] ([None]).  The nanosecond range
    of [Timestamp] is not represented. *)
Definition to_datetime (s : string) : option date :=
  match split_on "/"%char (chars s) with
  | [d; m; y] =>
      match parse_day d, parse_month m, parse_year y with
      | Some dd, Some mm, Some yy =>
          if (1 <=? yy) && (dd <=? days_in_month yy mm)
          then Some (mkdate yy mm dd) else None
      | _, _, _ => None
      end
  | _ => None
  end.

End Dates.

(** ** Rows and frames *)

Module Frame.
Import PyStr PyFloat Dates.

(** One record of [sheet.get_all_records()]: the twelve columns of the
    sheet, in sheet order.  The cells are typed as the sheet is meant to
    hold them: [PROGRESS] a text (a number and a percent sign: a column of
    bare numbers, which would come back as integers, is not represented),
    [BUDGET] and [ACTUAL_COST] whole amounts, which make [int64] columns
    (amounts with decimals are not represented). *)
Record record : Type := mkrecord {
  PROJECT : string;
  TASK_ID : string;
  TASK_NAME : string;
  TYPE : string;
  ASSIGNED_TO : string;
  START_DATE : string;
  END_DATE : string;
  PROGRESS : string;
  STATUS : string;
  PRIORITY : string;
  BUDGET : Z;
  ACTUAL_COST : Z
}.

(** One row of the cleaned frame: the sheet columns and the three
    columns [load_data] adds. *)
Record row : Type := mkrow {
  cells : record;
  PROGRESS_NUM : pyfloat;
  START : option date;
  END : option date
}.

Definition frame : Type := list row.

Definition set_PROGRESS (v : string) (c : record) : record :=
  mkrecord (PROJECT c) (TASK_ID c) (TASK_NAME c) (TYPE c) (ASSIGNED_TO c)
           (START_DATE c) (END_DATE c) v (STATUS c) (PRIORITY c)
           (BUDGET c) (ACTUAL_COST c).

Definition set_STATUS (v : string) (c : record) : record :=
  mkrecord (PROJECT c) (TASK_ID c) (TASK_NAME c) (TYPE c) (ASSIGNED_TO c)
           (START_DATE c) (END_DATE c) (PROGRESS c) v (PRIORITY c)
           (BUDGET c) (ACTUAL_COST c).

Definition set_ACTUAL_COST (v : Z) (c : record) : record :=
  mkrecord (PROJECT c) (TASK_ID c) (TASK_NAME c) (TYPE c) (ASSIGNED_TO c)
           (START_DATE c) (END_DATE c) (PROGRESS c) (STATUS c) (PRIORITY c)
           (BUDGET c) v.

Definition on_cells (f : record -> record) (r : row) : row :=
  mkrow (f (cells r)) (PROGRESS_NUM r) (START r) (END r).

Definition set_PROGRESS_NUM (v : pyfloat) (r : row) : row :=
  mkrow (cells r) v (START r) (END r).

(** *** The pandas operations the script uses *)

(** [df[name]]: one column. *)
Definition column {A B} (f : A -> B) (df : list A) : list B := map f df.

(** [col == v], [col != v], [col.isin(vs)], [a & b]. *)
Definition eq_mask (col : list string) (v : string) : list bool :=
  map (fun x => String.eqb x v) col.

Definition ne_mask (col : list string) (v : string) : list bool :=
  map (fun x => negb (String.eqb x v)) col.

Definition isin (col : list string) (vs : list string) : list bool :=
  map (fun x => existsb (String.eqb x) vs) col.

Fixpoint and_mask (a b : list bool) : list bool :=
  match a, b with
  | x :: a', y :: b' => (x && y) :: and_mask a' b'
  | _, _ => []
  end.

(** [df[mask]]: the rows whose mask entry is true, in order. *)
Fixpoint select {A} (mask : list bool) (df : list A) : list A :=
  match mask, df with
  | b :: mask', r :: df' => if b then r :: select mask' df' else select mask' df'
  | _, _ => []
  end.

(** [df.loc[mask, name] = v]: every row whose mask entry is true gets
    the cell, the others are left as they are. *)
Fixpoint loc_set {A} (mask : list bool) (f : A -> A) (df : list A) : list A :=
  match mask, df with
  | b :: mask', r :: df' => (if b then f r else r) :: loc_set mask' f df'
  | _, _ => df
  end.

(** [col.unique()]: first occurrences, in order. *)
Fixpoint unique (seen : list string) (col : list string) : list string :=
  match col with
  | [] => []
  | x :: col' =>
      if existsb (String.eqb x) seen then unique seen col'
      else x :: unique (x :: seen) col'
  end.

(** The values of [df[mask][name].values[0]]: [None] is the [IndexError]. *)
Definition values_0 {A} (l : list A) : option A := hd_error l.

End Frame.

(** ** Aggregation: [Series.mean], [sum], the group-by of the chart *)

Module Agg.
Import PyStr PyFloat Ext Dates Frame.

Definition count_true (mask : list bool) : nat :=
  List.length (filter (fun b => b) mask).

(** [Series.mean()] with [skipna=True], as [nanops.nanmean] computes it:
    the missing cells are masked and filled with [0], the sum runs over
    the filled column and is divided by the number of unmasked cells;
    with no unmasked cell the result is [NaN].  The sum and the quotient
    are exact here, where the code rounds to [float64]: what is proved of
    a mean is which of [NaN], an infinity or a number it is, and its value
    where no rounding occurs. *)
Definition nanmean (values : list pyfloat) : ext :=
  let mask := map isna values in
  let filled := map (fun x => if isna x then FZero false else x) values in
  let count := (List.length values - count_true mask)%nat in
  let the_sum := ext_sum (map to_ext filled) in
  if (0 <? count)%nat then ext_div the_sum count else ENan.

(** A sum of [int64] values wraps around. *)
Definition wrap64 (z : Z) : Z := (z + 2 ^ 63) mod 2 ^ 64 - 2 ^ 63.

(** [df[name].sum()] on an [int64] column. *)
Definition sum_Z (col : list Z) : Z := wrap64 (fold_left Z.add col 0).

Definition col_PROJECT (df : frame) := column (fun r => PROJECT (cells r)) df.
Definition col_TASK_ID (df : frame) := column (fun r => TASK_ID (cells r)) df.
Definition col_TASK_NAME (df : frame) := column (fun r => TASK_NAME (cells r)) df.
Definition col_TYPE (df : frame) := column (fun r => TYPE (cells r)) df.
Definition col_STATUS (df : frame) := column (fun r => STATUS (cells r)) df.
Definition col_PRIORITY (df : frame) := column (fun r => PRIORITY (cells r)) df.
Definition col_BUDGET (df : frame) := column (fun r => BUDGET (cells r)) df.
Definition col_ACTUAL_COST (df : frame) := column (fun r => ACTUAL_COST (cells r)) df.
Definition col_PROGRESS_NUM (df : frame) := column PROGRESS_NUM df.

(** [df[df['PROJECT'] == p]]. *)
Definition of_project (p : string) (df : frame) : frame :=
  select (eq_mask (col_PROJECT df) p) df.

(** [p['PROGRESS_NUM'].mean() if len(p) > 0 else 0], the value of the
    two progress metrics. *)
Definition metric_progress (p : frame) : ext :=
  if (0 <? List.length p)%nat then nanmean (col_PROGRESS_NUM p) else EFin 0.

(** [len(p[p['STATUS'] == s])]. *)
Definition count_status (s : string) (p : frame) : nat :=
  List.length (select (eq_mask (col_STATUS p) s) p).

Fixpoint insert_sorted (x : string) (l : list string) : list string :=
  match l with
  | [] => [x]
  | y :: l' => if String.leb x y then x :: l else y :: insert_sorted x l'
  end.

Definition sort_keys (l : list string) : list string :=
  fold_right insert_sorted [] l.

(** [create_progress_chart]: [df.groupby('PROJECT')['PROGRESS_NUM'].mean()],
    one entry per project that occurs in the frame, keys in sorted order.
    The group means stand in [nanmean], without the rounding of the
    group-by routine; the properties of the chart are about its keys. *)
Definition create_progress_chart (df : frame) : list (string * ext) :=
  map (fun p => (p, nanmean (col_PROGRESS_NUM (of_project p df))))
      (sort_keys (unique [] (col_PROJECT df))).

(** The rows the weekly report lists under "Critical Tasks". *)
Definition critical (df : frame) : frame :=
  select (and_mask (isin (col_PRIORITY df) ["Critical"; "High"])
                   (ne_mask (col_STATUS df) "Complete")) df.

End Agg.

(** ** The sheet, the data cache and the two adapters *)

Module Store.
Import PyStr PyFloat Ext Dates Frame Agg.

(** What the script hands to Streamlit for display. *)
Record section : Type := mksection {
  sec_progress : ext;
  sec_completed : nat;
  sec_in_progress : nat;
  sec_budget : Z;
  sec_spent : Z
}.

Inductive element : Type :=
| st_error (msg : string)
| st_success (msg : string)
| st_metric (label : string) (value : ext) (delta : Z)
| st_report (villa5 villa6 : section) (critical_lines : list string).

(** The failures of the remote calls during one run of the script.
    [connect_fails] says what [get_google_sheet_connection] returns in the
    run, [None] or a client.  The function is under [st.cache_resource]:
    its first result, the [None] of a failure included, is kept for the
    life of the process, and "Refresh Data" does not clear it; so the flag
    is that of the first call of the process and is the same in every
    later run of it. *)
Record faults : Type := mkfaults {
  connect_fails : bool;
  load_open_fails : bool;
  get_all_records_fails : bool;
  save_open_fails : bool;
  clear_fails : bool;
  update_fails : bool
}.

Definition no_faults : faults := mkfaults false false false false false false.

(** The remote sheet (its records, under the fixed header) and the entry
    of [st.cache_data] for [load_data]: the time it was stored, the frame
    and the elements the call displayed. *)
Record world : Type := mkworld {
  sheet : list record;
  cache : option (Z * frame * list element)
}.

Definition ttl : Z := 300.

(** [st.cache_data.clear()]. *)
Definition cache_clear (w : world) : world := mkworld (sheet w) None.

(** [get_google_sheet_connection]: the client, or [None] after the error
    has been displayed; on a later run the cached result and the cached
    error are returned again. *)
Definition get_google_sheet_connection (fl : faults) : option unit * list element :=
  if connect_fails fl then (None, [st_error "Connection error"]) else (Some tt, []).

(** The cleaning step of [load_data] on one record: [None] is the
    [ValueError] of [astype(float)]. *)
Definition clean_record (c : record) : option row :=
  match float_of_str (rstrip "%"%char (PROGRESS c)) with
  | Some x => Some (mkrow c x (to_datetime (START_DATE c)) (to_datetime (END_DATE c)))
  | None => None
  end.

Fixpoint clean (data : list record) : option frame :=
  match data with
  | [] => Some []
  | c :: data' =>
      match clean_record c, clean data' with
      | Some r, Some df => Some (r :: df)
      | _, _ => None
      end
  end.

(** The body of [load_data]. *)
Definition load_data_body (fl : faults) (sh : list record) : frame * list element :=
  match get_google_sheet_connection fl with
  | (None, es) => ([], es)
  | (Some _, es) =>
      if load_open_fails fl || get_all_records_fails fl
      then ([], es ++ [st_error "Error loading data"])
      else
        match sh with
        | [] => ([], es)
        | _ =>
            match clean sh with
            | Some df => (df, es)
            | None => ([], es ++ [st_error "Error loading data"])
            end
        end
  end.

(** [load_data] under [st.cache_data(ttl=300)], called at time [now]. *)
Definition load_data (now : Z) (fl : faults) (w : world) : frame * world * list element :=
  let miss :=
    let (df, es) := load_data_body fl (sheet w) in
    (df, mkworld (sheet w) (Some (now, df, es)), es) in
  match cache w with
  | Some (t, df, es) => if now <? t + ttl then (df, w, es) else miss
  | None => miss
  end.

(** [df_upload['PROGRESS_NUM'].astype(str) + '%'] on one cell: the text
    of the number and the sign.  A [NaN] stays the missing value through
    [astype(str)] and through the [+]; [None] stands for it. *)
Definition upload_progress (x : pyfloat) : option string :=
  if isna x then None else Some (str_of_float x ++ "%")%string.

(** One row of [df_upload.values.tolist()]: [PROGRESS] rebuilt from
    [PROGRESS_NUM], the three added columns dropped.  [None]: the row
    carries a float [NaN], which the request of [sheet.update] cannot
    encode. *)
Definition upload_record (r : row) : option record :=
  match upload_progress (PROGRESS_NUM r) with
  | Some s => Some (set_PROGRESS s (cells r))
  | None => None
  end.

(** The rows [sheet.update] sends, [None] when it raises on one of them. *)
Fixpoint upload (df : frame) : option (list record) :=
  match df with
  | [] => Some []
  | r :: df' =>
      match upload_record r, upload df' with
      | Some c, Some rows => Some (c :: rows)
      | _, _ => None
      end
  end.

(** [save_data]: the flag it returns, the sheet afterwards and what it
    displayed.  [sheet.update] runs after [sheet.clear()]: when it raises,
    for a fault of the remote call or for a [NaN] among the values, the
    sheet stays cleared. *)
Definition save_data (fl : faults) (df : frame) (sh : list record)
  : bool * list record * list element :=
  match get_google_sheet_connection fl with
  | (None, es) => (false, sh, es)
  | (Some _, es) =>
      if save_open_fails fl then (false, sh, es ++ [st_error "Error saving"])
      else
        let df_upload := upload df in
        if clear_fails fl then (false, sh, es ++ [st_error "Error saving"])
        else
          match df_upload with
          | Some rows =>
              if update_fails fl then (false, [], es ++ [st_error "Error saving"])
              else (true, rows, es)
          | None => (false, [], es ++ [st_error "Error saving"])
          end
  end.

End Store.

(** ** The script: one run of [main] *)

Module Script.
Import PyStr PyFloat Ext Dates Frame Agg Store.

(** The state of the widgets when the run starts; a button is [true]
    when the run was triggered by its click. *)
Record widgets : Type := mkwidgets {
  role : string;
  refresh : bool;
  project_filter : string;
  type_filter : list string;
  status_filter : list string;
  selected_task : string;
  new_progress : Z;
  update_progress_clicked : bool;
  cost_task : string;
  new_cost : Z;
  update_cost_clicked : bool;
  generate_report_clicked : bool
}.

(** How the run ended: to its last line, by [st.rerun()] or by [st.stop()]. *)
Inductive control : Type := Finished | Rerun | Stopped.

Record outcome : Type := mkoutcome {
  final : world;
  shown : list element;
  view : frame;
  ctrl : control
}.

(** "Apply filters": the frame named [df] from there on. *)
Definition filter_project (p : string) (df : frame) : frame :=
  select (eq_mask (col_PROJECT df) p) df.

Definition filter_type (ts : list string) (df : frame) : frame :=
  select (isin (col_TYPE df) ts) df.

Definition filter_status (ss : list string) (df : frame) : frame :=
  select (isin (col_STATUS df) ss) df.

Definition apply_filters (ui : widgets) (df : frame) : frame :=
  let df := if negb (String.eqb (project_filter ui) "All")
            then filter_project (project_filter ui) df else df in
  let df := filter_type (type_filter ui) df in
  filter_status (status_filter ui) df.

(** The label of a task in the two select boxes:
    [df[df['TASK_ID']==x]['TASK_NAME'].values[0]]. *)
Definition format_func (df : frame) (x : string) : option string :=
  match values_0 (col_TASK_NAME (select (eq_mask (col_TASK_ID df) x) df)) with
  | Some name => Some (x ++ " - " ++ name)%string
  | None => None
  end.

(** The assignments under the "Update Progress" button. *)
Definition update_progress (task : string) (p : Z) (df : frame) : frame :=
  let df := loc_set (eq_mask (col_TASK_ID df) task)
                    (set_PROGRESS_NUM (float_of_int p)) df in
  let df := loc_set (eq_mask (col_TASK_ID df) task)
                    (on_cells (set_PROGRESS (str_of_int p ++ "%")%string)) df in
  if p =? 100 then
    loc_set (eq_mask (col_TASK_ID df) task) (on_cells (set_STATUS "Complete")) df
  else if 0 <? p then
    loc_set (eq_mask (col_TASK_ID df) task) (on_cells (set_STATUS "In Progress")) df
  else df.

(** The assignment under the "Update Cost" button. *)
Definition update_cost (task : string) (c : Z) (df : frame) : frame :=
  loc_set (eq_mask (col_TASK_ID df) task) (on_cells (set_ACTUAL_COST c)) df.

Definition newline : string := String "010"%char EmptyString.

Definition critical_line (r : row) : string :=
  ("- **" ++ PROJECT (cells r) ++ ":** " ++ TASK_NAME (cells r)
     ++ " (" ++ PROGRESS (cells r) ++ ")" ++ newline)%string.

(** One project block of the weekly report; the mean is taken without
    the guard of the metrics. *)
Definition report_section (p : frame) : section :=
  mksection (nanmean (col_PROGRESS_NUM p))
            (count_status "Complete" p)
            (count_status "In Progress" p)
            (sum_Z (col_BUDGET p))
            (sum_Z (col_ACTUAL_COST p)).

Definition weekly_report (df : frame) : element :=
  st_report (report_section (of_project "Villa 5" df))
            (report_section (of_project "Villa 6" df))
            (map critical_line (critical df)).

(** The four metrics above the tabs. *)
Definition key_metrics (df : frame) : list element :=
  let villa5 := of_project "Villa 5" df in
  let villa6 := of_project "Villa 6" df in
  [ st_metric "Villa 5 Progress" (metric_progress villa5)
              (Z.of_nat (count_status "Complete" villa5));
    st_metric "Villa 6 Progress" (metric_progress villa6)
              (Z.of_nat (count_status "Complete" villa6));
    st_metric "Total Budget" (EFin (inject_Z (sum_Z (col_BUDGET df))))
              (sum_Z (col_ACTUAL_COST df));
    st_metric "Critical Tasks"
              (EFin (inject_Z (Z.of_nat
                 (List.length (select (isin (col_PRIORITY df) ["Critical"; "High"]) df)))))
              (Z.of_nat (List.length (select (ne_mask (col_STATUS df) "Complete") df))) ].

Definition may_update_progress (r : string) : bool :=
  existsb (String.eqb r) ["Project Manager"; "Site Manager"; "Assistant"].

Definition may_update_cost (r : string) : bool :=
  existsb (String.eqb r) ["Project Manager"; "Purchaser"; "Assistant"].

Definition may_report (r : string) : bool :=
  existsb (String.eqb r) ["Project Manager"; "Assistant"].

(** The "Reports" tab, the last step of a run. *)
Definition tab_reports (ui : widgets) (w : world) (es : list element) (df : frame)
  : outcome :=
  if may_report (role ui) && generate_report_clicked ui
  then mkoutcome w (es ++ [weekly_report df]) df Finished
  else mkoutcome w es df Finished.

(** The cost half of the "Update" tab. *)
Definition tab_update_cost (fl : faults) (ui : widgets) (w : world)
           (es : list element) (df : frame) : outcome :=
  if may_update_cost (role ui) && update_cost_clicked ui then
    let df := update_cost (cost_task ui) (new_cost ui) df in
    match save_data fl df (sheet w) with
    | (true, sh, es') =>
        mkoutcome (cache_clear (mkworld sh (cache w)))
                  (es ++ es' ++ [st_success ("Updated cost for " ++ cost_task ui ++ "!")%string])
                  df Rerun
    | (false, sh, es') =>
        tab_reports ui (mkworld sh (cache w)) (es ++ es') df
    end
  else tab_reports ui w es df.

(** The progress half of the "Update" tab. *)
Definition tab_update_progress (fl : faults) (ui : widgets) (w : world)
           (es : list element) (df : frame) : outcome :=
  if may_update_progress (role ui) && update_progress_clicked ui then
    let df := update_progress (selected_task ui) (new_progress ui) df in
    match save_data fl df (sheet w) with
    | (true, sh, es') =>
        mkoutcome (cache_clear (mkworld sh (cache w)))
                  (es ++ es' ++ [st_success ("Updated " ++ selected_task ui ++ " to "
                                             ++ str_of_int (new_progress ui) ++ "%!")%string])
                  df Rerun
    | (false, sh, es') =>
        tab_update_cost fl ui (mkworld sh (cache w)) (es ++ es') df
    end
  else tab_update_cost fl ui w es df.

(** One run of [main] at time [now].  The charts, the task table and the
    CSV download only display [df] and are left out. *)
Definition main (now : Z) (fl : faults) (ui : widgets) (w : world) : outcome :=
  if refresh ui then mkoutcome (cache_clear w) [] [] Rerun
  else
    let '(_, w, es1) := load_data now fl w in
    let '(df, w, es2) := load_data now fl w in
    match df with
    | [] => mkoutcome w (es1 ++ es2 ++ [st_error "No data loaded"]) [] Stopped
    | _ =>
        let df := apply_filters ui df in
        tab_update_progress fl ui w (es1 ++ es2 ++ key_metrics df) df
    end.

End Script.

(** ** The vocabulary of the specification *)

Module Spec.
Import PyStr PyFloat Ext Dates Frame Agg Store Script.

(** A critical task that is still pending: priority [Critical] or
    [High], status other than [Complete]. *)
Definition critical_pending (r : row) : bool :=
  (String.eqb (PRIORITY (cells r)) "Critical" || String.eqb (PRIORITY (cells r)) "High")
    && negb (String.eqb (STATUS (cells r)) "Complete").

Definition has_id (task : string) (r : row) : bool :=
  String.eqb (TASK_ID (cells r)) task.

(** What the "Update Progress" assignments do to one matching row. *)
Definition progress_row (p : Z) (r : row) : row :=
  let r := set_PROGRESS_NUM (float_of_int p) r in
  let r := on_cells (set_PROGRESS (str_of_int p ++ "%")%string) r in
  if p =? 100 then on_cells (set_STATUS "Complete") r
  else if 0 <? p then on_cells (set_STATUS "In Progress") r
  else r.

Definition cost_row (c : Z) (r : row) : row := on_cells (set_ACTUAL_COST c) r.

(** A mutation that works on the first row with the given identifier
    and on no other: the rows before and after it are kept. *)
Definition first_match_only (op : string -> frame -> frame) : Prop :=
  forall task pre r post,
    existsb (has_id task) pre = false ->
    has_id task r = true ->
    exists r', op task (pre ++ r :: post) = pre ++ r' :: post.

(** The frame a call of [load_data] at time [now] gets from the cache,
    when the entry is still alive. *)
Definition cached_read (now : Z) (w : world) : option frame :=
  match cache w with
  | Some (t, df, _) => if now <? t + ttl then Some df else None
  | None => None
  end.

(** A cell that holds a number, not [NaN]. *)
Definition present (x : pyfloat) : bool := negb (isna x).

(** The arithmetic mean of a list of values: their sum over their
    number. *)
Definition arithmetic_mean (l : list ext) : ext :=
  ext_div (ext_sum l) (List.length l).

(** The invariant of the frames of the script: the added columns are
    the parsed sheet columns, and the numeric progress is a value of
    [float]. *)
Definition consistent_row (r : row) : Prop :=
  wf_float (PROGRESS_NUM r)
  /\ START r = to_datetime (START_DATE (cells r))
  /\ END r = to_datetime (END_DATE (cells r)).

Definition consistent (df : frame) : Prop := Forall consistent_row df.

(** Two rows that agree on every sheet column but [PROGRESS]. *)
Definition same_but_progress (a b : record) : Prop :=
  PROJECT a = PROJECT b /\ TASK_ID a = TASK_ID b /\ TASK_NAME a = TASK_NAME b
  /\ TYPE a = TYPE b /\ ASSIGNED_TO a = ASSIGNED_TO b
  /\ START_DATE a = START_DATE b /\ END_DATE a = END_DATE b
  /\ STATUS a = STATUS b /\ PRIORITY a = PRIORITY b
  /\ BUDGET a = BUDGET b /\ ACTUAL_COST a = ACTUAL_COST b.

(** A frame with a number in every cell of [PROGRESS_NUM]. *)
Definition numeric (df : frame) : bool :=
  forallb (fun r => present (PROGRESS_NUM r)) df.

(** The record [save_data] writes for a row with a number: the progress
    text is the text of the number and the sign. *)
Definition written (r : row) : record :=
  set_PROGRESS (str_of_float (PROGRESS_NUM r) ++ "%")%string (cells r).

(** A row as it comes back from the sheet after [save_data]: the
    progress text is the one written from the numeric progress. *)
Definition reloaded (r : row) : row :=
  mkrow (written r) (PROGRESS_NUM r) (START r) (END r).

End Spec.

(** ** Sample sheets and widget states *)

Module Fixture.
Import PyStr PyFloat Ext Dates Frame Agg Store Script.

Definition rec_T1 : record :=
  mkrecord "Villa 5" "T1" "Foundation" "Build" "Ann"
           "01/02/2024" "10/02/2024" "50%" "In Progress" "High" 1000 200.

Definition rec_T2 : record :=
  mkrecord "Villa 6" "T2" "Roof" "Build" "Bob"
           "05/03/2024" "soon" "20%" "Not Started" "Low" 3000 0.

(** A second record that carries the identifier of [rec_T1]. *)
Definition rec_T1_again : record :=
  mkrecord "Villa 6" "T1" "Fence" "Build" "Bob"
           "05/03/2024" "20/03/2024" "0%" "Not Started" "Low" 500 0.

(** A record whose progress cell is not a number. *)
Definition rec_T3_bad : record :=
  mkrecord "Villa 6" "T3" "Paint" "Finish" "Cid"
           "05/04/2024" "20/04/2024" "N/A" "Not Started" "Low" 700 0.

Definition row_T1 : row :=
  mkrow rec_T1 (FNum false ["5"%char] 2)
        (Some (mkdate 2024 2 1)) (Some (mkdate 2024 2 10)).

Definition row_T2 : row :=
  mkrow rec_T2 (FNum false ["2"%char] 2) (Some (mkdate 2024 3 5)) None.

Definition row_T1_again : row :=
  mkrow rec_T1_again (FZero false)
        (Some (mkdate 2024 3 5)) (Some (mkdate 2024 3 20)).

(** A record whose progress cell reads as [NaN]. *)
Definition rec_T4_nan : record :=
  mkrecord "Villa 5" "T4" "Garden" "Finish" "Dee"
           "05/05/2024" "20/05/2024" "nan%" "Not Started" "Low" 900 0.

Definition row_T4_nan : row :=
  mkrow rec_T4_nan FNan (Some (mkdate 2024 5 5)) (Some (mkdate 2024 5 20)).

(** A project manager who looks at every row and clicks nothing. *)
Definition ui_idle : widgets :=
  mkwidgets "Project Manager" false "All" ["Build"; "Finish"]
            ["In Progress"; "Not Started"; "Complete"]
            "T1" 75 false "T1" 5000 false false.

(** The same, with "Update Progress" clicked. *)
Definition ui_progress : widgets :=
  mkwidgets "Project Manager" false "All" ["Build"; "Finish"]
            ["In Progress"; "Not Started"; "Complete"]
            "T1" 75 true "T1" 5000 false false.

(** The same, with "Update Cost" clicked. *)
Definition ui_cost : widgets :=
  mkwidgets "Project Manager" false "All" ["Build"; "Finish"]
            ["In Progress"; "Not Started"; "Complete"]
            "T1" 75 false "T1" 5000 true false.

(** "Update Progress" clicked while the project filter shows Villa 5. *)
Definition ui_progress_villa5 : widgets :=
  mkwidgets "Project Manager" false "Villa 5" ["Build"; "Finish"]
            ["In Progress"; "Not Started"; "Complete"]
            "T1" 75 true "T1" 5000 false false.

(** "Generate Report" clicked while the project filter shows Villa 5. *)
Definition ui_report_villa5 : widgets :=
  mkwidgets "Project Manager" false "Villa 5" ["Build"; "Finish"]
            ["In Progress"; "Not Started"; "Complete"]
            "T1" 75 false "T1" 5000 false true.

(** The sheet cannot be written. *)
Definition faults_on_save : faults := mkfaults false false false false false true.

End Fixture.

(** ** More of the vocabulary: filters, synchrony of the progress cells *)

Module View.
Import PyStr PyFloat Ext Dates Frame Agg Store Script.

(** The row passes the three filters of the sidebar. *)
Definition passes (ui : widgets) (r : row) : bool :=
  (String.eqb (project_filter ui) "All"
   || String.eqb (PROJECT (cells r)) (project_filter ui))
  && existsb (String.eqb (TYPE (cells r))) (type_filter ui)
  && existsb (String.eqb (STATUS (cells r))) (status_filter ui).

(** The values of the three filter widgets before the user touches them:
    ["All"], every type and every status of the loaded frame. *)
Definition default_filters (ui : widgets) (df : frame) : Prop :=
  project_filter ui = "All"
  /\ type_filter ui = unique [] (col_TYPE df)
  /\ status_filter ui = unique [] (col_STATUS df).

(** The text of the progress cell reads, as [load_data] reads it, as the
    numeric progress of the row. *)
Definition in_sync (r : row) : Prop :=
  float_of_str (rstrip "%"%char (PROGRESS (cells r))) = Some (PROGRESS_NUM r).

(** A day of the calendar. *)
Definition valid_date (d : date) : Prop :=
  1 <= year d <= 9999
  /\ 1 <= month d <= 12
  /\ 1 <= day d <= days_in_month (year d) (month d).

(** The sum of a quantity over a list. *)
Definition total {A} (f : A -> Z) (l : list A) : Z :=
  fold_right (fun x acc => f x + acc) 0 l.

(** The keys of a chart are in ascending order. *)
Definition ascending (keys : list string) : Prop :=
  Sorted (fun a b => String.leb a b = true) keys.

(** The invariant of the world between two runs: the frame in the cache,
    when there is one, has its added columns in line with its sheet
    columns. *)
Definition cache_sound (w : world) : Prop :=
  match cache w with
  | Some (_, df, _) => Forall in_sync df /\ Spec.consistent df
  | None => True
  end.

End View.

(** ** More sample data *)

Module Sample.
Import PyStr PyFloat Ext Dates Frame Agg Store Script Fixture.

(** The widgets as a project manager first sees them over the sheet
    [rec_T1; rec_T2]. *)
Definition ui_first : widgets :=
  mkwidgets "Project Manager" false "All" ["Build"]
            ["In Progress"; "Not Started"]
            "T1" 0 false "T1" 0 false false.

End Sample.

(** ** The other three charts *)

Module Charts.
Import PyStr PyFloat Ext Dates Frame Agg Store Script.

(** [create_budget_chart]: [df.groupby('PROJECT').agg({'BUDGET': 'sum',
    'ACTUAL_COST': 'sum'})], one entry per project of the frame, keys in
    sorted order; the two bars of a project are its two sums. *)
Definition create_budget_chart (df : frame) : list (string * Z * Z) :=
  map (fun p => (p, sum_Z (col_BUDGET (of_project p df)),
                    sum_Z (col_ACTUAL_COST (of_project p df))))
      (sort_keys (unique [] (col_PROJECT df))).

(** [df.groupby(['PROJECT', 'STATUS']).size().reset_index(name='count')]:
    one line per pair of a project and a status that occurs in the
    frame, with the number of its rows, the pairs in sorted order. *)
Definition status_counts (df : frame) : list (string * string * nat) :=
  flat_map
    (fun p =>
       map (fun s => (p, s, count_status s (of_project p df)))
           (sort_keys (unique [] (col_STATUS (of_project p df)))))
    (sort_keys (unique [] (col_PROJECT df))).

(** [create_status_chart]: one trace per project of [status_counts], with
    the statuses of the project and their counts. *)
Definition create_status_chart (df : frame) : list (string * list (string * nat)) :=
  let counts := status_counts df in
  let projects := column (fun t => fst (fst t)) counts in
  map (fun p =>
         (p, map (fun t => (snd (fst t), snd t))
                 (select (eq_mask projects p) counts)))
      (unique [] projects).

(** [Timestamp.strftime('%d/%m/%Y')]: day and month on two digits, the
    year in decimal without padding ([999], not [0999]), for the years 1
    to 9999 of a date. *)
Definition digit_char (n : Z) : ascii := ascii_of_nat (48 + Z.to_nat n).

Definition two_digits (n : Z) : list ascii :=
  [digit_char (n / 10); digit_char (n mod 10)].

Definition four_digits (n : Z) : list ascii :=
  [digit_char (n / 1000); digit_char ((n / 100) mod 10);
   digit_char ((n / 10) mod 10); digit_char (n mod 10)].

Definition year_digits (y : Z) : list ascii :=
  if y <? 10 then [digit_char y]
  else if y <? 100 then two_digits y
  else if y <? 1000 then digit_char (y / 100) :: two_digits (y mod 100)
  else four_digits y.

Definition strftime (d : date) : string :=
  str (two_digits (day d) ++ "/"%char :: two_digits (month d)
         ++ "/"%char :: year_digits (year d)).

(** The number of the day, counted from 1 January of year 1
    ([date.toordinal]); the difference of two is a [Timedelta] in days. *)
Definition days_before_month (y m : Z) : Z :=
  fold_left Z.add (map (days_in_month y) (map Z.of_nat (seq 1 (Z.to_nat (m - 1))))) 0.

Definition toordinal (d : date) : Z :=
  let y := year d - 1 in
  365 * y + y / 4 - y / 100 + y / 400 + days_before_month (year d) (month d) + day d.

(** One bar of the timeline. *)
Record bar : Type := mkbar {
  bar_name : string;
  bar_x : Z;
  bar_y : string;
  bar_base : date;
  bar_color : string;
  bar_text : string;
  bar_hover : string
}.

Record figure : Type := mkfigure {
  bars : list bar;
  height : Z
}.

(** [colors.get(project, '#6B7280')]. *)
Definition color_of (project : string) : string :=
  if String.eqb project "Villa 5" then "#3B82F6"
  else if String.eqb project "Villa 6" then "#10B981"
  else "#6B7280".

(** The bar of a task that has both dates. *)
Definition bar_of (r : row) (s e : date) : bar :=
  mkbar (TASK_NAME (cells r))
        (toordinal e - toordinal s)
        (PROJECT (cells r) ++ ": " ++ substring 0 40 (TASK_NAME (cells r)))%string
        s
        (color_of (PROJECT (cells r)))
        (PROGRESS (cells r))
        ("<b>" ++ TASK_NAME (cells r) ++ "</b><br>"
           ++ "Start: " ++ strftime s ++ "<br>"
           ++ "End: " ++ strftime e ++ "<br>"
           ++ "Progress: " ++ PROGRESS (cells r) ++ "<br>"
           ++ "<extra></extra>")%string.

Definition has_dates (r : row) : bool :=
  match START r, END r with
  | Some _, Some _ => true
  | _, _ => false
  end.

Definition bars_of (rows : frame) : list bar :=
  flat_map (fun r => match START r, END r with
                     | Some s, Some e => [bar_of r s e]
                     | _, _ => []
                     end) rows.

(** [df['START'].isna().all()]. *)
Definition no_start (df : frame) : bool :=
  forallb (fun r => match START r with None => true | Some _ => false end) df.

(** [create_timeline_chart]: [None] after the notice "No timeline data
    available".  [sort_values] is the sort of one project's rows by
    their start date; pandas does not fix the order of rows with equal
    dates, so the sort is an argument. *)
Definition create_timeline_chart (sort_values : frame -> frame) (df : frame)
  : option figure :=
  match df with
  | [] => None
  | _ =>
      if no_start df then None
      else
        let df_valid := select (map has_dates df) df in
        Some (mkfigure
                (flat_map (fun project => bars_of (sort_values (of_project project df_valid)))
                          (unique [] (col_PROJECT df_valid)))
                (Z.max 400 (Z.of_nat (List.length df_valid) * 30)))
  end.

(** A sort by start date that keeps rows with equal dates in their
    order. *)
Definition date_leb (a b : date) : bool :=
  (year a <? year b)
  || ((year a =? year b)
      && ((month a <? month b) || ((month a =? month b) && (day a <=? day b)))).

Definition start_leb (a b : row) : bool :=
  match START a, START b with
  | Some x, Some y => date_leb x y
  | None, _ => false
  | Some _, None => true
  end.

Fixpoint insert_by_start (r : row) (l : frame) : frame :=
  match l with
  | [] => [r]
  | x :: l' => if start_leb r x then r :: l else x :: insert_by_start r l'
  end.

Definition sort_by_start (l : frame) : frame := fold_right insert_by_start [] l.

End Charts.

(** * Properties *)

Import PyStr PyFloat Ext Dates Frame Agg Store Script Spec Fixture.

(** ** Masks, selections and assignments *)

Section Masks.
Context {A : Type}.

Lemma select_map (p : A -> bool) (df : list A) :
  select (map p df) df = filter p df.
Proof.
  induction df as [|r df IH]; simpl; [reflexivity|].
  destruct (p r); rewrite IH; reflexivity.
Qed.

Lemma loc_set_map (p : A -> bool) (f : A -> A) (df : list A) :
  loc_set (map p df) f df = map (fun r => if p r then f r else r) df.
Proof.
  induction df as [|r df IH]; simpl; [reflexivity|].
  rewrite IH; reflexivity.
Qed.

Lemma and_mask_map (p q : A -> bool) (df : list A) :
  and_mask (map p df) (map q df) = map (fun r => p r && q r) df.
Proof.
  induction df as [|r df IH]; simpl; [reflexivity|].
  rewrite IH; reflexivity.
Qed.

Lemma filter_comm (p q : A -> bool) (l : list A) :
  filter p (filter q l) = filter q (filter p l).
Proof.
  induction l as [|x l IH]; simpl; [reflexivity|].
  destruct (q x) eqn:Hq, (p x) eqn:Hp; simpl; rewrite ?Hq, ?Hp, IH; reflexivity.
Qed.

End Masks.

Lemma eq_mask_column {A} (g : A -> string) (v : string) (df : list A) :
  eq_mask (column g df) v = map (fun r => String.eqb (g r) v) df.
Proof. unfold eq_mask, column. apply map_map. Qed.

Lemma ne_mask_column {A} (g : A -> string) (v : string) (df : list A) :
  ne_mask (column g df) v = map (fun r => negb (String.eqb (g r) v)) df.
Proof. unfold ne_mask, column. apply map_map. Qed.

Lemma isin_column {A} (g : A -> string) (vs : list string) (df : list A) :
  isin (column g df) vs = map (fun r => existsb (String.eqb (g r)) vs) df.
Proof. unfold isin, column. apply map_map. Qed.

Lemma filter_project_filter p df :
  filter_project p df = filter (fun r => String.eqb (PROJECT (cells r)) p) df.
Proof.
  unfold filter_project, col_PROJECT. rewrite eq_mask_column. apply select_map.
Qed.

Lemma filter_type_filter ts df :
  filter_type ts df = filter (fun r => existsb (String.eqb (TYPE (cells r))) ts) df.
Proof.
  unfold filter_type, col_TYPE. rewrite isin_column. apply select_map.
Qed.

Lemma filter_status_filter ss df :
  filter_status ss df = filter (fun r => existsb (String.eqb (STATUS (cells r))) ss) df.
Proof.
  unfold filter_status, col_STATUS. rewrite isin_column. apply select_map.
Qed.

Lemma loc_set_task_id task (f : row -> row) df :
  loc_set (eq_mask (col_TASK_ID df) task) f df
  = map (fun r => if has_id task r then f r else r) df.
Proof.
  unfold col_TASK_ID. rewrite eq_mask_column. apply loc_set_map.
Qed.

(** The three assignments of "Update Progress" act row by row. *)
Lemma update_progress_rows task p df :
  update_progress task p df
  = map (fun r => if has_id task r then progress_row p r else r) df.
Proof.
  unfold update_progress.
  assert (E : forall (f g : row -> row) (d : frame),
             (forall r, has_id task (f r) = has_id task r) ->
             map (fun r => if has_id task r then g r else r)
                 (map (fun r => if has_id task r then f r else r) d)
             = map (fun r => if has_id task r then g (f r) else r) d).
  { intros f g d Hf. rewrite map_map. apply map_ext. intros r.
    destruct (has_id task r) eqn:Hr; [rewrite Hf, Hr|rewrite Hr]; reflexivity. }
  destruct (p =? 100) eqn:H100; [|destruct (0 <? p) eqn:H0];
    rewrite !loc_set_task_id, !E by reflexivity;
    apply map_ext; intros r; unfold progress_row; rewrite H100, ?H0; reflexivity.
Qed.

Lemma update_cost_rows task c df :
  update_cost task c df
  = map (fun r => if has_id task r then cost_row c r else r) df.
Proof. unfold update_cost. apply loc_set_task_id. Qed.

(** ** The query and mutation engines *)

(** C8: the rows listed as critical are exactly the rows of the view
    with priority Critical or High and a status other than Complete, in
    the order of the view; on the three-task fixture (High / In Progress,
    Low / Complete, Critical / Not Started) these are the first and the
    third task, in that order, whatever their other cells. *)
Theorem critical_pending_exact :
  (forall df, critical df = filter critical_pending df)
  /\ (forall t1 t2 t3,
        critical
          [ on_cells (fun c => mkrecord "P1" (TASK_ID c) (TASK_NAME c) (TYPE c)
                                 (ASSIGNED_TO c) (START_DATE c) (END_DATE c)
                                 (PROGRESS c) "In Progress" "High"
                                 (BUDGET c) (ACTUAL_COST c)) t1;
            on_cells (fun c => mkrecord "P1" (TASK_ID c) (TASK_NAME c) (TYPE c)
                                 (ASSIGNED_TO c) (START_DATE c) (END_DATE c)
                                 (PROGRESS c) "Complete" "Low"
                                 (BUDGET c) (ACTUAL_COST c)) t2;
            on_cells (fun c => mkrecord "P2" (TASK_ID c) (TASK_NAME c) (TYPE c)
                                 (ASSIGNED_TO c) (START_DATE c) (END_DATE c)
                                 (PROGRESS c) "Not Started" "Critical"
                                 (BUDGET c) (ACTUAL_COST c)) t3 ]
        = [ on_cells (fun c => mkrecord "P1" (TASK_ID c) (TASK_NAME c) (TYPE c)
                                 (ASSIGNED_TO c) (START_DATE c) (END_DATE c)
                                 (PROGRESS c) "In Progress" "High"
                                 (BUDGET c) (ACTUAL_COST c)) t1;
            on_cells (fun c => mkrecord "P2" (TASK_ID c) (TASK_NAME c) (TYPE c)
                                 (ASSIGNED_TO c) (START_DATE c) (END_DATE c)
                                 (PROGRESS c) "Not Started" "Critical"
                                 (BUDGET c) (ACTUAL_COST c)) t3 ]).
Proof.
  split.
  - intros df. unfold critical, col_PRIORITY, col_STATUS.
    rewrite isin_column, ne_mask_column, and_mask_map, select_map.
    apply filter_ext. intros r. unfold critical_pending. simpl.
    rewrite orb_false_r. reflexivity.
  - intros t1 t2 t3. reflexivity.
Qed.

(** C9: filtering by project and then by status gives the same rows, in
    the same order, as filtering by status and then by project. *)
Theorem filter_project_status_commute :
  forall (p : string) (ss : list string) (df : frame),
    filter_status ss (filter_project p df) = filter_project p (filter_status ss df).
Proof.
  intros p ss df.
  rewrite !filter_status_filter, !filter_project_filter.
  apply filter_comm.
Qed.

(** C2: for a new progress between 0 and 100, "Update Progress" gives
    every row with the selected identifier the new numeric and textual
    progress, the status Complete at 100, In Progress strictly between 0
    and 100, and its former status at 0; its other cells, and every other
    row, are left as they were. *)
Theorem update_progress_status_rule :
  forall (df : frame) (task : string) (p : Z),
    0 <= p <= 100 ->
    Forall2
      (fun old new =>
         if has_id task old then
           PROGRESS_NUM new = float_of_int p
           /\ PROGRESS (cells new) = (str_of_int p ++ "%")%string
           /\ (p = 100 -> STATUS (cells new) = "Complete")
           /\ (0 < p < 100 -> STATUS (cells new) = "In Progress")
           /\ (p = 0 -> STATUS (cells new) = STATUS (cells old))
           /\ same_but_progress (set_STATUS (STATUS (cells new)) (cells old)) (cells new)
           /\ START new = START old /\ END new = END old
         else new = old)
      df (update_progress task p df).
Proof.
  intros df task p Hp. rewrite update_progress_rows.
  induction df as [|r df IH]; simpl; constructor; [|exact IH].
  destruct (has_id task r); [|reflexivity].
  unfold progress_row.
  destruct (Z.eqb_spec p 100) as [E|E].
  - simpl. repeat split; try reflexivity; intros; lia.
  - destruct (Z.ltb_spec 0 p) as [L|L].
    + simpl. repeat split; try reflexivity; intros; lia.
    + simpl. repeat split; try reflexivity; intros; lia.
Qed.

Lemma update_progress_status_rule_witness :
  0 <= 100 <= 100
  /\ Forall2
      (fun old new =>
         if has_id "T1" old then
           PROGRESS_NUM new = float_of_int 100
           /\ PROGRESS (cells new) = (str_of_int 100 ++ "%")%string
           /\ (100 = 100 -> STATUS (cells new) = "Complete")
           /\ (0 < 100 < 100 -> STATUS (cells new) = "In Progress")
           /\ (100 = 0 -> STATUS (cells new) = STATUS (cells old))
           /\ same_but_progress (set_STATUS (STATUS (cells new)) (cells old)) (cells new)
           /\ START new = START old /\ END new = END old
         else new = old)
      [ mkrow (mkrecord "Villa 5" "T1" "Foundation" "Build" "Ann" "01/02/2024"
                        "10/02/2024" "50%" "In Progress" "High" 1000 200)
              (FNum false ["5"%char] 2)
              (Some (mkdate 2024 2 1)) (Some (mkdate 2024 2 10)) ]
      (update_progress "T1" 100
         [ mkrow (mkrecord "Villa 5" "T1" "Foundation" "Build" "Ann" "01/02/2024"
                           "10/02/2024" "50%" "In Progress" "High" 1000 200)
                 (FNum false ["5"%char] 2)
                 (Some (mkdate 2024 2 1)) (Some (mkdate 2024 2 10)) ]).
Proof.
  split; [lia|].
  apply (update_progress_status_rule
           [ mkrow (mkrecord "Villa 5" "T1" "Foundation" "Build" "Ann" "01/02/2024"
                             "10/02/2024" "50%" "In Progress" "High" 1000 200)
                   (FNum false ["5"%char] 2)
                   (Some (mkdate 2024 2 1)) (Some (mkdate 2024 2 10)) ]
           "T1" 100).
  lia.
Defined.

(** C10, as stated, fails: with two rows that carry the identifier T1,
    "Update Cost" and "Update Progress" on T1 change the second row too. *)
Lemma duplicate_ids_not_first_match_only :
  ~ first_match_only (fun task df => update_cost task 5000 df)
  /\ ~ first_match_only (fun task df => update_progress task 75 df).
Proof.
  split; intros H;
    destruct (H "T1" [] row_T1 [row_T1_again] eq_refl eq_refl) as [r' E];
    vm_compute in E; discriminate E.
Qed.

(** C10, amended: the label of a task in the select boxes is taken from
    the first row with the identifier, while "Update Progress" and
    "Update Cost" assign to every row with the selected identifier, and
    to no other row. *)
Theorem duplicate_ids_label_first_update_all :
  (forall df x,
      format_func df x
      = option_map (fun r => (x ++ " - " ++ TASK_NAME (cells r))%string)
                   (find (has_id x) df))
  /\ (forall task p df,
        update_progress task p df
        = map (fun r => if has_id task r then progress_row p r else r) df)
  /\ (forall task c df,
        update_cost task c df
        = map (fun r => if has_id task r then cost_row c r else r) df).
Proof.
  split; [|split].
  - intros df x. unfold format_func, values_0, col_TASK_ID, col_TASK_NAME, column.
    rewrite eq_mask_column, select_map.
    induction df as [|r df IH]; simpl; [reflexivity|].
    unfold has_id at 1. destruct (String.eqb (TASK_ID (cells r)) x); simpl.
    + reflexivity.
    + exact IH.
  - apply update_progress_rows.
  - apply update_cost_rows.
Qed.

(** ** Frames with a number in every progress cell *)

Section Numeric.

Lemma upload_numeric df : numeric df = true -> upload df = Some (map written df).
Proof.
  induction df as [|r df IH]; [reflexivity|].
  cbn [numeric forallb upload map]. intros H.
  apply andb_true_iff in H as [Hr H].
  rewrite (IH H). unfold upload_record, upload_progress, written.
  unfold present in Hr. destruct (isna (PROGRESS_NUM r)); [discriminate|reflexivity].
Qed.

Lemma upload_missing df : numeric df = false -> upload df = None.
Proof.
  induction df as [|r df IH]; [discriminate|].
  cbn [numeric forallb upload]. intros H.
  apply andb_false_iff in H as [Hr|H].
  - unfold upload_record, upload_progress. unfold present in Hr.
    destruct (isna (PROGRESS_NUM r)); [reflexivity|discriminate].
  - rewrite (IH H). destruct (upload_record r); reflexivity.
Qed.

Lemma float_of_int_present p : present (float_of_int p) = true.
Proof.
  unfold float_of_int, normalize.
  destruct (rev (dropwhile is_zero (rev (dropwhile is_zero (digits_of_N (Z.abs_N p))))));
    reflexivity.
Qed.

Lemma numeric_map (p : row -> bool) (f : row -> row) df :
  (forall r, present (PROGRESS_NUM r) = true -> present (PROGRESS_NUM (f r)) = true) ->
  numeric df = true ->
  numeric (map (fun r => if p r then f r else r) df) = true.
Proof.
  intros Hf. induction df as [|r df IH]; [reflexivity|].
  cbn [numeric forallb map]. intros H. apply andb_true_iff in H as [Hr H].
  apply andb_true_iff. split; [|exact (IH H)].
  destruct (p r); [apply Hf|]; exact Hr.
Qed.

Lemma update_progress_numeric task p df :
  numeric df = true -> numeric (update_progress task p df) = true.
Proof.
  rewrite update_progress_rows. apply numeric_map. intros r _.
  unfold progress_row.
  destruct (p =? 100); [|destruct (0 <? p)]; cbn; apply float_of_int_present.
Qed.

Lemma numeric_update_cost task c df :
  numeric (update_cost task c df) = numeric df.
Proof.
  rewrite update_cost_rows. unfold numeric.
  induction df as [|r df IH]; [reflexivity|].
  cbn [map forallb]. rewrite IH. destruct (has_id task r); reflexivity.
Qed.

Lemma update_cost_numeric task c df :
  numeric df = true -> numeric (update_cost task c df) = true.
Proof. rewrite numeric_update_cost. trivial. Qed.

End Numeric.

(** ** One run of the script *)

Lemma load_data_again now fl w df w1 es :
  load_data now fl w = (df, w1, es) ->
  load_data now fl w1 = (df, w1, es).
Proof.
  unfold load_data.
  assert (Hlive : (now <? now + ttl) = true) by (apply Z.ltb_lt; unfold ttl; lia).
  destruct (cache w) as [[[t df0] es0]|] eqn:Hc.
  - destruct (now <? t + ttl) eqn:Ht.
    + intros E. inversion E; subst. rewrite Hc, Ht. reflexivity.
    + destruct (load_data_body fl (sheet w)) as [df' es'].
      intros E. inversion E; subst. simpl. rewrite Hlive. reflexivity.
  - destruct (load_data_body fl (sheet w)) as [df' es'].
    intros E. inversion E; subst. simpl. rewrite Hlive. reflexivity.
Qed.

Lemma load_data_cached_read now fl w df w1 es :
  load_data now fl w = (df, w1, es) ->
  cached_read now w1 = Some df.
Proof.
  unfold load_data, cached_read.
  assert (Hlive : (now <? now + ttl) = true) by (apply Z.ltb_lt; unfold ttl; lia).
  destruct (cache w) as [[[t df0] es0]|] eqn:Hc.
  - destruct (now <? t + ttl) eqn:Ht.
    + intros E. inversion E; subst. rewrite Hc, Ht. reflexivity.
    + destruct (load_data_body fl (sheet w)) as [df' es'].
      intros E. inversion E; subst. simpl. rewrite Hlive. reflexivity.
  - destruct (load_data_body fl (sheet w)) as [df' es'].
    intros E. inversion E; subst. simpl. rewrite Hlive. reflexivity.
Qed.

(** A run that is not a refresh and loads a frame with rows goes on to
    the tabs with the filtered frame. *)
Lemma main_loaded now fl ui w df w1 es :
  refresh ui = false ->
  load_data now fl w = (df, w1, es) ->
  df <> [] ->
  main now fl ui w
  = tab_update_progress fl ui w1 (es ++ es ++ key_metrics (apply_filters ui df))
                        (apply_filters ui df).
Proof.
  intros Hr Hl Hne. unfold main. rewrite Hr, Hl.
  rewrite (load_data_again _ _ _ _ _ _ Hl).
  destruct df; [contradiction|reflexivity].
Qed.

Lemma save_data_failure_shown fl df sh :
  fst (fst (save_data fl df sh)) = false ->
  exists msg, In (st_error msg) (snd (save_data fl df sh)).
Proof.
  unfold save_data, get_google_sheet_connection.
  destruct (connect_fails fl); simpl.
  - intros _. eexists. left. reflexivity.
  - destruct (save_open_fails fl); simpl; [intros _; eexists; left; reflexivity|].
    destruct (clear_fails fl); simpl; [intros _; eexists; left; reflexivity|].
    destruct (upload df); simpl; [|intros _; eexists; left; reflexivity].
    destruct (update_fails fl); simpl; [intros _; eexists; left; reflexivity|].
    discriminate.
Qed.

Lemma tab_reports_keeps ui w es df :
  final (tab_reports ui w es df) = w
  /\ view (tab_reports ui w es df) = df
  /\ ctrl (tab_reports ui w es df) = Finished
  /\ (forall e, In e es -> In e (shown (tab_reports ui w es df))).
Proof.
  unfold tab_reports.
  destruct (may_report (role ui) && generate_report_clicked ui); simpl;
    repeat split; auto.
  intros e He. apply in_or_app. left. exact He.
Qed.

(** C4: when the save of an "Update Progress" or an "Update Cost" fails,
    the run displays an error, ends without a rerun on the frame that
    carries the assignment, and leaves the cache entry as the load left
    it, so that a cached read still returns the frame that was loaded. *)
Theorem failed_save_keeps_mutation_and_cache :
  forall now fl ui w df w1 es,
    refresh ui = false ->
    load_data now fl w = (df, w1, es) ->
    df <> [] ->
    (may_update_progress (role ui) && update_progress_clicked ui = true ->
     update_cost_clicked ui = false ->
     fst (fst (save_data fl (update_progress (selected_task ui) (new_progress ui)
                                             (apply_filters ui df)) (sheet w1))) = false ->
     (exists msg, In (st_error msg) (shown (main now fl ui w)))
     /\ view (main now fl ui w)
        = update_progress (selected_task ui) (new_progress ui) (apply_filters ui df)
     /\ ctrl (main now fl ui w) = Finished
     /\ cache (final (main now fl ui w)) = cache w1
     /\ cached_read now (final (main now fl ui w)) = Some df)
    /\
    (may_update_progress (role ui) && update_progress_clicked ui = false ->
     may_update_cost (role ui) && update_cost_clicked ui = true ->
     fst (fst (save_data fl (update_cost (cost_task ui) (new_cost ui)
                                         (apply_filters ui df)) (sheet w1))) = false ->
     (exists msg, In (st_error msg) (shown (main now fl ui w)))
     /\ view (main now fl ui w)
        = update_cost (cost_task ui) (new_cost ui) (apply_filters ui df)
     /\ ctrl (main now fl ui w) = Finished
     /\ cache (final (main now fl ui w)) = cache w1
     /\ cached_read now (final (main now fl ui w)) = Some df).
Proof.
  intros now fl ui w df w1 es Hr Hl Hne.
  pose proof (load_data_cached_read _ _ _ _ _ _ Hl) as Hread.
  rewrite (main_loaded _ _ _ _ _ _ _ Hr Hl Hne).
  split.
  - intros Hp Hc Hs. unfold tab_update_progress. rewrite Hp.
    pose proof (save_data_failure_shown _ _ _ Hs) as [msg Hmsg].
    destruct (save_data fl _ (sheet w1)) as [[ok sh] es'] eqn:Hsave.
    simpl in Hs, Hmsg. subst ok.
    unfold tab_update_cost. rewrite Hc, andb_false_r.
    destruct (tab_reports_keeps ui (mkworld sh (cache w1))
                ((es ++ es ++ key_metrics (apply_filters ui df)) ++ es')
                (update_progress (selected_task ui) (new_progress ui)
                                 (apply_filters ui df)))
      as (Hf & Hv & Hk & Hin).
    rewrite Hf, Hv, Hk. repeat split.
    + exists msg. apply Hin, in_or_app. right. exact Hmsg.
    + exact Hread.
  - intros Hp Hc Hs. unfold tab_update_progress. rewrite Hp.
    unfold tab_update_cost. rewrite Hc.
    pose proof (save_data_failure_shown _ _ _ Hs) as [msg Hmsg].
    destruct (save_data fl _ (sheet w1)) as [[ok sh] es'] eqn:Hsave.
    simpl in Hs, Hmsg. subst ok.
    destruct (tab_reports_keeps ui (mkworld sh (cache w1))
                ((es ++ es ++ key_metrics (apply_filters ui df)) ++ es')
                (update_cost (cost_task ui) (new_cost ui) (apply_filters ui df)))
      as (Hf & Hv & Hk & Hin).
    rewrite Hf, Hv, Hk. repeat split.
    + exists msg. apply Hin, in_or_app. right. exact Hmsg.
    + exact Hread.
Qed.

Lemma failed_save_keeps_mutation_and_cache_witness :
  (exists msg,
      In (st_error msg)
         (shown (main 0 faults_on_save ui_progress (mkworld [rec_T1; rec_T2] None))))
  /\ view (main 0 faults_on_save ui_progress (mkworld [rec_T1; rec_T2] None))
     = update_progress "T1" 75 (apply_filters ui_progress [row_T1; row_T2])
  /\ ctrl (main 0 faults_on_save ui_progress (mkworld [rec_T1; rec_T2] None)) = Finished
  /\ cache (final (main 0 faults_on_save ui_progress (mkworld [rec_T1; rec_T2] None)))
     = Some (0, [row_T1; row_T2], [])
  /\ cached_read 0 (final (main 0 faults_on_save ui_progress
                                (mkworld [rec_T1; rec_T2] None)))
     = Some [row_T1; row_T2].
Proof.
  refine (proj1 (failed_save_keeps_mutation_and_cache
                   0 faults_on_save ui_progress (mkworld [rec_T1; rec_T2] None)
                   [row_T1; row_T2]
                   (mkworld [rec_T1; rec_T2] (Some (0, [row_T1; row_T2], [])))
                   [] _ _ _) _ _ _).
  - reflexivity.
  - vm_compute. reflexivity.
  - discriminate.
  - reflexivity.
  - reflexivity.
  - vm_compute. reflexivity.
Defined.

(** What a successful "Update Progress" leaves in the sheet: the rows of
    the filtered frame, and nothing else. *)
Lemma update_progress_saves_view now ui w df w1 es :
  refresh ui = false ->
  load_data now no_faults w = (df, w1, es) ->
  df <> [] ->
  may_update_progress (role ui) && update_progress_clicked ui = true ->
  numeric (apply_filters ui df) = true ->
  sheet (final (main now no_faults ui w))
  = map written
        (update_progress (selected_task ui) (new_progress ui) (apply_filters ui df))
  /\ List.length (sheet (final (main now no_faults ui w)))
     = List.length (apply_filters ui df).
Proof.
  intros Hr Hl Hne Hp Hnum.
  rewrite (main_loaded _ _ _ _ _ _ _ Hr Hl Hne).
  unfold tab_update_progress. rewrite Hp.
  cbn [save_data get_google_sheet_connection no_faults connect_fails save_open_fails
         clear_fails update_fails].
  rewrite (upload_numeric _ (update_progress_numeric _ _ _ Hnum)).
  cbn [final sheet cache_clear]. split; [reflexivity|].
  rewrite length_map, update_progress_rows, length_map. reflexivity.
Qed.

(** C1, at a failing input: the sheet holds a Villa 5 task and a Villa 6
    task, the project filter shows Villa 5, and "Update Progress" is
    clicked for the Villa 5 task.  The run saves the filtered frame: the
    sheet afterwards holds the Villa 5 task alone, and the Villa 6 task,
    which the filter had excluded, is gone from the store. *)
Theorem filtered_view_overwrites_sheet :
  ctrl (main 0 no_faults ui_progress_villa5 (mkworld [rec_T1; rec_T2] None)) = Rerun
  /\ sheet (final (main 0 no_faults ui_progress_villa5 (mkworld [rec_T1; rec_T2] None)))
     = [ set_PROGRESS "75.0%" rec_T1 ]
  /\ ~ In "T2" (map TASK_ID
                  (sheet (final (main 0 no_faults ui_progress_villa5
                                      (mkworld [rec_T1; rec_T2] None))))).
Proof.
  split; [|split].
  - vm_compute. reflexivity.
  - vm_compute. reflexivity.
  - vm_compute. intros [H|[]]. discriminate H.
Qed.

(** C3, at a failing input: a sheet of two records, the second with the
    progress cell [N/A].  The conversion to [float] raises, the handler of
    [load_data] displays the error and returns the empty frame: no row is
    loaded, the well-formed one included.  A date cell that does not parse
    ([soon] in the same sheet without the bad record) is coerced to a
    missing date and the rows are kept. *)
Theorem malformed_progress_aborts_load :
  load_data_body no_faults [rec_T1; rec_T3_bad] = ([], [st_error "Error loading data"])
  /\ ctrl (main 0 no_faults ui_idle (mkworld [rec_T1; rec_T3_bad] None)) = Stopped
  /\ view (main 0 no_faults ui_idle (mkworld [rec_T1; rec_T3_bad] None)) = []
  /\ load_data_body no_faults [rec_T1; rec_T2] = ([row_T1; row_T2], [])
  /\ END row_T2 = None.
Proof.
  repeat split; vm_compute; reflexivity.
Qed.

(** Any record whose progress cell [float] rejects empties the load. *)
Lemma clean_rejects (c : record) (data : list record) :
  In c data ->
  float_of_str (rstrip "%"%char (PROGRESS c)) = None ->
  clean data = None.
Proof.
  intros Hin Hbad. induction data as [|d data IH]; [contradiction|].
  simpl. destruct Hin as [->|Hin].
  - unfold clean_record. rewrite Hbad. reflexivity.
  - rewrite (IH Hin). destruct (clean_record d); reflexivity.
Qed.

Lemma load_data_body_rejects fl (c : record) (data : list record) :
  In c data ->
  float_of_str (rstrip "%"%char (PROGRESS c)) = None ->
  fst (load_data_body fl data) = [].
Proof.
  intros Hin Hbad. unfold load_data_body.
  destruct (get_google_sheet_connection fl) as [[u|] es]; [|reflexivity].
  destruct (load_open_fails fl || get_all_records_fails fl); [reflexivity|].
  rewrite (clean_rejects c data Hin Hbad).
  destruct data; reflexivity.
Qed.

(** ** [float(str(x)) = x] *)

Section Chars.

Lemma is_digit_facts (c : ascii) :
  is_digit c = true ->
  plain c = true
  /\ lower c = c
  /\ Ascii.eqb c "-"%char = false /\ Ascii.eqb c "+"%char = false
  /\ Ascii.eqb c "."%char = false
  /\ Ascii.eqb c "i"%char = false /\ Ascii.eqb c "n"%char = false
  /\ 0 <= digit_val c <= 9.
Proof.
  destruct c as [[] [] [] [] [] [] [] []]; vm_compute; intros H;
    try discriminate H; repeat split; intros; discriminate.
Qed.

Lemma dropwhile_head {A} (p : A -> bool) (x : A) (l : list A) :
  p x = false -> dropwhile p (x :: l) = x :: l.
Proof. intros H. simpl. rewrite H. reflexivity. Qed.

Lemma dropwhile_all {A} (p : A -> bool) (l rest : list A) :
  forallb p l = true -> dropwhile p (l ++ rest) = dropwhile p rest.
Proof.
  induction l as [|x l IH]; simpl; [reflexivity|].
  intros H. apply andb_prop in H as [Hx Hl]. rewrite Hx. apply IH, Hl.
Qed.

Lemma takewhile_all {A} (p : A -> bool) (l rest : list A) :
  forallb p l = true -> takewhile p (l ++ rest) = l ++ takewhile p rest.
Proof.
  induction l as [|x l IH]; simpl; [reflexivity|].
  intros H. apply andb_prop in H as [Hx Hl]. rewrite Hx, IH by exact Hl. reflexivity.
Qed.

Lemma dropwhile_none {A} (p : A -> bool) (l : list A) :
  forallb (fun x => negb (p x)) l = true -> dropwhile p l = l.
Proof.
  destruct l as [|x l]; simpl; [reflexivity|].
  intros H. apply andb_prop in H as [Hx _].
  apply negb_true_iff in Hx. rewrite Hx. reflexivity.
Qed.

Lemma forallb_rev {A} (p : A -> bool) (l : list A) :
  forallb p (rev l) = forallb p l.
Proof.
  induction l as [|x l IH]; simpl; [reflexivity|].
  rewrite forallb_app, IH. simpl. rewrite andb_true_r. apply andb_comm.
Qed.

Lemma forallb_impl {A} (p q : A -> bool) (l : list A) :
  (forall x, p x = true -> q x = true) ->
  forallb p l = true -> forallb q l = true.
Proof.
  intros Hpq. induction l as [|x l IH]; simpl; [reflexivity|].
  intros H. apply andb_prop in H as [Hx Hl]. rewrite (Hpq _ Hx), (IH Hl). reflexivity.
Qed.

Lemma plain_not_space l :
  forallb plain l = true -> forallb (fun c => negb (is_space c)) l = true.
Proof.
  apply forallb_impl. intros c H. unfold plain in H.
  apply andb_prop in H as [H _]. apply andb_prop in H as [H _]. exact H.
Qed.

Lemma plain_not_percent l :
  forallb plain l = true -> forallb (fun c => negb (Ascii.eqb "%"%char c)) l = true.
Proof.
  apply forallb_impl. intros c H. unfold plain in H.
  apply andb_prop in H as [_ H]. exact H.
Qed.

(** Text without white space is its own [strip()]. *)
Lemma strip_chars_plain l :
  forallb plain l = true -> strip_chars l = l.
Proof.
  intros H. apply plain_not_space in H. unfold strip_chars.
  rewrite (dropwhile_none _ l H).
  rewrite dropwhile_none by (rewrite forallb_rev; exact H).
  apply rev_involutive.
Qed.

(** Text without a percent sign comes back from [(s + '%').rstrip('%')]. *)
Lemma rstrip_chars_plain l :
  forallb plain l = true -> rstrip_chars "%"%char (l ++ ["%"%char]) = l.
Proof.
  intros H. apply plain_not_percent in H. unfold rstrip_chars.
  rewrite rev_app_distr. simpl.
  rewrite dropwhile_none by (rewrite forallb_rev; exact H).
  apply rev_involutive.
Qed.

(** Text without underscores passes the underscore check unchanged. *)
Lemma drop_underscores_plain l :
  forall prev,
    Ascii.eqb prev "_"%char = false ->
    forallb plain l = true ->
    drop_underscores prev l = Some l.
Proof.
  induction l as [|c l IH]; intros prev Hprev H; simpl.
  - rewrite Hprev. reflexivity.
  - simpl in H. apply andb_prop in H as [Hc Hl].
    assert (Hu : Ascii.eqb c "_"%char = false).
    { unfold plain in Hc. apply andb_prop in Hc as [Hc _].
      apply andb_prop in Hc as [_ Hc]. apply negb_true_iff in Hc. exact Hc. }
    rewrite Hu, Hprev. simpl. rewrite (IH c Hu Hl). reflexivity.
Qed.

End Chars.

Section Digits.

Lemma chars_of_uint_digits u : forallb is_digit (chars_of_uint u) = true.
Proof. induction u; simpl; auto. Qed.

Lemma digits_value_acc u :
  forall acc : positive,
    fold_left (fun a c => 10 * a + digit_val c) (chars_of_uint u) (Z.pos acc)
    = Z.pos (Pos.of_uint_acc u acc).
Proof.
  induction u; intros acc; cbn [chars_of_uint fold_left Pos.of_uint_acc];
    [reflexivity| ..];
    rewrite <- IHu; f_equal;
    match goal with
    | |- context [digit_val ?c] =>
        let v := eval vm_compute in (digit_val c) in change (digit_val c) with v
    end; lia.
Qed.

Lemma digits_value_uint u :
  digits_value (chars_of_uint u) = Z.of_N (Pos.of_uint u).
Proof.
  unfold digits_value.
  induction u; cbn [chars_of_uint fold_left Pos.of_uint Z.of_N];
    [reflexivity|exact IHu| ..];
    rewrite <- digits_value_acc; f_equal.
Qed.

Lemma digits_value_of_N n : digits_value (digits_of_N n) = Z.of_N n.
Proof.
  unfold digits_of_N. rewrite digits_value_uint.
  f_equal. apply DecimalN.Unsigned.of_to.
Qed.

Lemma digits_of_N_digits n : forallb is_digit (digits_of_N n) = true.
Proof. apply chars_of_uint_digits. Qed.

Lemma digits_of_N_nonempty n : digits_of_N n <> [].
Proof.
  unfold digits_of_N. destruct n as [|p]; simpl; [discriminate|].
  pose proof (DecimalPos.Unsigned.to_uint_nonnil p) as H.
  destruct (Pos.to_uint p); simpl; try discriminate. congruence.
Qed.

End Digits.

Section Roundtrip.

Lemma zeros_all_zero k : forallb is_zero (zeros k) = true.
Proof. induction k; simpl; auto. Qed.

Lemma zeros_digits k : forallb is_digit (zeros k) = true.
Proof. induction k; simpl; auto. Qed.

Lemma zeros_snoc k : zeros k ++ [zero_char] = zeros (S k).
Proof.
  induction k; [reflexivity|].
  change (zeros (S k)) with (zero_char :: zeros k).
  rewrite <- app_comm_cons, IHk. reflexivity.
Qed.

Lemma rev_zeros k : rev (zeros k) = zeros k.
Proof.
  induction k; [reflexivity|].
  change (zeros (S k)) with (zero_char :: zeros k) at 1.
  cbn [rev]. rewrite IHk. apply zeros_snoc.
Qed.

Lemma digits_plain ds : forallb is_digit ds = true -> forallb plain ds = true.
Proof. apply forallb_impl. intros c H. apply is_digit_facts, H. Qed.

(** Zeros around the digits of a well-formed value only move the point. *)
Lemma normalize_padded neg ds decpt k m :
  wf_float (FNum neg ds decpt) ->
  forall p, normalize neg (zeros k ++ ds ++ zeros m) p
            = FNum neg ds (p - Z.of_nat k).
Proof.
  intros (Hd & (d & ds' & Hhd & Hnz) & (e & r & Hrev & Hez)) p.
  unfold normalize.
  rewrite takewhile_all, dropwhile_all by apply zeros_all_zero.
  assert (Htw : takewhile is_zero (ds ++ zeros m) = []).
  { rewrite Hhd. simpl. rewrite Hnz. reflexivity. }
  assert (Hdw : dropwhile is_zero (ds ++ zeros m) = ds ++ zeros m).
  { rewrite Hhd. simpl. rewrite Hnz. reflexivity. }
  rewrite Htw, Hdw, app_nil_r, rev_app_distr.
  rewrite dropwhile_all by (rewrite rev_zeros; apply zeros_all_zero).
  rewrite Hrev, (dropwhile_head _ _ _ Hez), <- Hrev, rev_involutive.
  unfold zeros. rewrite repeat_length.
  rewrite Hhd. reflexivity.
Qed.

Lemma normalize_wf neg ds decpt :
  wf_float (FNum neg ds decpt) ->
  forall p, normalize neg ds p = FNum neg ds p.
Proof.
  intros H p.
  pose proof (normalize_padded neg ds decpt 0 0 H p) as E.
  simpl in E. rewrite app_nil_r, Z.sub_0_r in E. exact E.
Qed.

(** The exponent that [str] writes reads back. *)
Lemma parse_exponent_exp_chars e :
  parse_exponent ("e"%char :: exp_chars e) = Some e.
Proof.
  unfold parse_exponent, exp_chars.
  change (Ascii.eqb (lower "e"%char) "e"%char) with true. cbv iota.
  set (ds := digits_of_N (Z.abs_N e)).
  set (pad := if (List.length ds <? 2)%nat then zero_char :: ds else ds).
  assert (Hpad_digits : forallb is_digit pad = true).
  { unfold pad. destruct (List.length ds <? 2)%nat; simpl;
      apply digits_of_N_digits. }
  assert (Hpad_val : digits_value pad = Z.of_N (Z.abs_N e)).
  { unfold pad. destruct (List.length ds <? 2)%nat;
      [change (digits_value (zero_char :: ds)) with (digits_value ds)|];
      apply digits_value_of_N. }
  assert (Hpad_ne : pad <> []).
  { unfold pad. destruct (List.length ds <? 2)%nat; [discriminate|].
    apply digits_of_N_nonempty. }
  assert (Hsplit : split_sign ((if e <? 0 then "-"%char else "+"%char) :: pad)
                   = (e <? 0, pad)).
  { destruct (e <? 0); reflexivity. }
  rewrite Hsplit.
  destruct pad as [|c pad']; [congruence|].
  rewrite Hpad_digits, Hpad_val.
  f_equal. destruct (Z.ltb_spec e 0); lia.
Qed.

Lemma parse_decimal_point neg ip fp r2 :
  forallb is_digit ip = true ->
  forallb is_digit fp = true ->
  ip ++ fp <> [] ->
  (r2 = [] \/ exists c r, r2 = c :: r /\ is_digit c = false) ->
  parse_decimal neg (ip ++ "."%char :: fp ++ r2)
  = option_map (fun e => normalize neg (ip ++ fp) (Z.of_nat (List.length ip) + e))
               (parse_exponent r2).
Proof.
  intros Hip Hfp Hne Hr2. unfold parse_decimal.
  rewrite (takewhile_all _ _ _ Hip), (dropwhile_all _ _ _ Hip).
  cbn [takewhile dropwhile]. change (is_digit "."%char) with false. cbv iota.
  change (Ascii.eqb "."%char "."%char) with true. cbv iota.
  rewrite (takewhile_all _ _ _ Hfp), (dropwhile_all _ _ _ Hfp), app_nil_r.
  assert (Htw : takewhile is_digit r2 = [] /\ dropwhile is_digit r2 = r2).
  { destruct Hr2 as [->|(c & r & -> & Hc)]; simpl; [|rewrite Hc]; split; reflexivity. }
  destruct Htw as [-> ->]. rewrite app_nil_r.
  destruct (ip ++ fp) eqn:E; [contradiction|].
  destruct (parse_exponent r2); reflexivity.
Qed.

Lemma parse_decimal_nopoint neg ip c r :
  forallb is_digit ip = true ->
  ip <> [] ->
  is_digit c = false ->
  Ascii.eqb c "."%char = false ->
  parse_decimal neg (ip ++ c :: r)
  = option_map (fun e => normalize neg ip (Z.of_nat (List.length ip) + e))
               (parse_exponent (c :: r)).
Proof.
  intros Hip Hne Hc Hdot. unfold parse_decimal.
  rewrite (takewhile_all _ _ _ Hip), (dropwhile_all _ _ _ Hip).
  cbn [takewhile dropwhile]. rewrite Hc, Hdot, !app_nil_r.
  destruct ip eqn:E; [contradiction|].
  destruct (parse_exponent (c :: r)); reflexivity.
Qed.

(** A text that starts with a digit, after an optional minus sign, is
    read as a decimal literal. *)
Lemma float_of_chars_numeric neg c rest :
  is_digit c = true ->
  forallb plain (c :: rest) = true ->
  float_of_chars (sign_chars neg ++ c :: rest) = parse_decimal neg (c :: rest).
Proof.
  intros Hc Hplain.
  destruct (is_digit_facts c Hc) as (_ & Hlow & Hminus & Hplus & _ & Hi & Hn & _).
  assert (Hall : forallb plain (sign_chars neg ++ c :: rest) = true).
  { rewrite forallb_app, Hplain. destruct neg; reflexivity. }
  unfold float_of_chars.
  rewrite (drop_underscores_plain _ "000"%char eq_refl Hall), (strip_chars_plain _ Hall).
  assert (Hsplit : split_sign (sign_chars neg ++ c :: rest) = (neg, c :: rest)).
  { destruct neg; simpl; [reflexivity|]. rewrite Hminus, Hplus. reflexivity. }
  rewrite Hsplit.
  unfold parse_special. cbn [map chars_eqb chars list_ascii_of_string].
  rewrite Hlow, Hi, Hn. reflexivity.
Qed.

Lemma exp_chars_plain e : forallb plain (exp_chars e) = true.
Proof.
  unfold exp_chars. cbn [forallb].
  apply andb_true_intro. split; [destruct (e <? 0); reflexivity|].
  destruct (List.length (digits_of_N (Z.abs_N e)) <? 2)%nat; cbn [forallb];
    rewrite (digits_plain _ (digits_of_N_digits _)); reflexivity.
Qed.

Lemma forallb_firstn_skipn {A} (p : A -> bool) (k : nat) (l : list A) :
  forallb p l = true ->
  forallb p (firstn k l) = true /\ forallb p (skipn k l) = true.
Proof.
  intros H. rewrite <- (firstn_skipn k l), forallb_app in H.
  apply andb_prop in H. exact H.
Qed.

(** The scientific form. *)
Lemma float_of_chars_scientific neg d ds' decpt :
  wf_float (FNum neg (d :: ds') decpt) ->
  float_of_chars
    (sign_chars neg ++
       d :: (match ds' with [] => [] | _ => "."%char :: ds' end)
         ++ "e"%char :: exp_chars (decpt - 1))
  = Some (FNum neg (d :: ds') decpt)
  /\ forallb plain
       (d :: (match ds' with [] => [] | _ => "."%char :: ds' end)
          ++ "e"%char :: exp_chars (decpt - 1)) = true.
Proof.
  intros Hwf. pose proof Hwf as (Hd & _ & _).
  cbn [forallb] in Hd. apply andb_prop in Hd as [Hd Hds'].
  assert (Hplain : forallb plain
       (d :: (match ds' with [] => [] | _ => "."%char :: ds' end)
          ++ "e"%char :: exp_chars (decpt - 1)) = true).
  { cbn [forallb]. rewrite (proj1 (is_digit_facts d Hd)). cbn [andb].
    rewrite forallb_app. cbn [forallb]. rewrite exp_chars_plain.
    destruct ds' as [|d' ds'']; [reflexivity|].
    change (forallb plain ("."%char :: d' :: ds''))
      with (forallb plain (d' :: ds'')).
    rewrite (digits_plain _ Hds'). reflexivity. }
  split; [|exact Hplain].
  rewrite (float_of_chars_numeric neg d _ Hd Hplain).
  destruct ds' as [|d' ds''].
  - change (d :: [] ++ "e"%char :: exp_chars (decpt - 1))
      with ([d] ++ "e"%char :: exp_chars (decpt - 1)).
    rewrite parse_decimal_nopoint; try reflexivity; try discriminate.
    + rewrite parse_exponent_exp_chars. cbn [option_map].
      rewrite (normalize_wf neg [d] decpt Hwf). f_equal. f_equal.
      cbn [List.length]. lia.
    + cbn [forallb]. rewrite Hd. reflexivity.
  - change (d :: ("."%char :: d' :: ds'') ++ "e"%char :: exp_chars (decpt - 1))
      with ([d] ++ "."%char :: (d' :: ds'') ++ "e"%char :: exp_chars (decpt - 1)).
    rewrite parse_decimal_point; try discriminate.
    + rewrite parse_exponent_exp_chars. cbn [option_map].
      change ([d] ++ d' :: ds'') with (d :: d' :: ds'').
      rewrite (normalize_wf neg _ decpt Hwf). f_equal. f_equal.
      cbn [List.length]. lia.
    + cbn [forallb]. rewrite Hd. reflexivity.
    + exact Hds'.
    + right. eexists _, _. split; reflexivity.
Qed.

(** The fixed form of a value below one: [0.000ddd]. *)
Lemma float_of_chars_small neg ds decpt :
  wf_float (FNum neg ds decpt) ->
  decpt <= 0 ->
  float_of_chars (sign_chars neg ++ chars "0." ++ zeros (Z.to_nat (- decpt)) ++ ds)
  = Some (FNum neg ds decpt)
  /\ forallb plain (chars "0." ++ zeros (Z.to_nat (- decpt)) ++ ds) = true.
Proof.
  intros Hwf Hle. pose proof Hwf as (Hd & _ & _).
  set (k := Z.to_nat (- decpt)).
  assert (Hfp : forallb is_digit (zeros k ++ ds) = true).
  { rewrite forallb_app, zeros_digits, Hd. reflexivity. }
  assert (Hplain : forallb plain (chars "0." ++ zeros k ++ ds) = true).
  { change (chars "0." ++ zeros k ++ ds)
      with ("0"%char :: "."%char :: zeros k ++ ds).
    cbn [forallb]. rewrite (digits_plain _ Hfp). reflexivity. }
  split; [|exact Hplain].
  change (chars "0." ++ zeros k ++ ds) with ("0"%char :: "."%char :: zeros k ++ ds)
    in *.
  rewrite (float_of_chars_numeric neg "0"%char _ eq_refl Hplain).
  change ("0"%char :: "."%char :: zeros k ++ ds)
    with (["0"%char] ++ "."%char :: zeros k ++ ds).
  rewrite <- (app_nil_r (zeros k ++ ds)) at 1.
  rewrite parse_decimal_point; try discriminate; try reflexivity.
  - cbn [parse_exponent option_map].
    change (["0"%char] ++ zeros k ++ ds) with (zeros (S k) ++ ds).
    rewrite <- (app_nil_r ds) at 1. change (@nil ascii) with (zeros 0) at 1.
    rewrite (normalize_padded neg ds decpt (S k) 0 Hwf).
    f_equal. f_equal. cbn [List.length]. unfold k. lia.
  - exact Hfp.
  - left. reflexivity.
Qed.

(** The fixed form with the point inside the digits: [dd.ddd]. *)
Lemma float_of_chars_inner neg ds decpt :
  wf_float (FNum neg ds decpt) ->
  0 < decpt < Z.of_nat (List.length ds) ->
  float_of_chars
    (sign_chars neg ++ firstn (Z.to_nat decpt) ds ++ "."%char :: skipn (Z.to_nat decpt) ds)
  = Some (FNum neg ds decpt)
  /\ forallb plain (firstn (Z.to_nat decpt) ds ++ "."%char :: skipn (Z.to_nat decpt) ds)
     = true.
Proof.
  intros Hwf Hlt. pose proof Hwf as (Hd & (d & ds' & Hhd & _) & _).
  set (q := Z.to_nat decpt).
  destruct (forallb_firstn_skipn is_digit q ds Hd) as [Hip Hfp].
  assert (Hplain : forallb plain (firstn q ds ++ "."%char :: skipn q ds) = true).
  { rewrite forallb_app. cbn [forallb].
    rewrite (digits_plain _ Hip), (digits_plain _ Hfp). reflexivity. }
  split; [|exact Hplain].
  assert (Hq : exists q', q = S q') by (exists (Nat.pred q); unfold q; lia).
  destruct Hq as [q' Hq].
  assert (Hhead : firstn q ds = d :: firstn q' ds').
  { rewrite Hq, Hhd. reflexivity. }
  assert (Hdd : is_digit d = true).
  { rewrite Hhd in Hd. cbn [forallb] in Hd. apply andb_prop in Hd. apply Hd. }
  rewrite Hhead in Hplain |- *. rewrite <- app_comm_cons in Hplain |- *.
  rewrite (float_of_chars_numeric neg d _ Hdd Hplain).
  rewrite app_comm_cons, <- Hhead.
  rewrite <- (app_nil_r (skipn q ds)) at 1.
  rewrite parse_decimal_point.
  - cbn [parse_exponent option_map]. rewrite firstn_skipn.
    rewrite (normalize_wf neg ds decpt Hwf). f_equal. f_equal.
    rewrite length_firstn. unfold q. lia.
  - exact Hip.
  - exact Hfp.
  - rewrite firstn_skipn, Hhd. discriminate.
  - left. reflexivity.
Qed.

(** The fixed form of a whole number: [ddd000.0]. *)
Lemma float_of_chars_whole neg ds decpt :
  wf_float (FNum neg ds decpt) ->
  Z.of_nat (List.length ds) <= decpt ->
  float_of_chars
    (sign_chars neg ++ ds ++ zeros (Z.to_nat (decpt - Z.of_nat (List.length ds)))
       ++ chars ".0")
  = Some (FNum neg ds decpt)
  /\ forallb plain (ds ++ zeros (Z.to_nat (decpt - Z.of_nat (List.length ds)))
                       ++ chars ".0") = true.
Proof.
  intros Hwf Hle. pose proof Hwf as (Hd & (d & ds' & Hhd & _) & _).
  set (m := Z.to_nat (decpt - Z.of_nat (List.length ds))).
  assert (Hip : forallb is_digit (ds ++ zeros m) = true).
  { rewrite forallb_app, zeros_digits, Hd. reflexivity. }
  assert (Hplain : forallb plain (ds ++ zeros m ++ chars ".0") = true).
  { rewrite app_assoc, forallb_app, (digits_plain _ Hip). reflexivity. }
  split; [|exact Hplain].
  assert (Hdd : is_digit d = true).
  { rewrite Hhd in Hd. cbn [forallb] in Hd. apply andb_prop in Hd. apply Hd. }
  assert (Hshape : ds ++ zeros m ++ chars ".0"
                   = d :: ds' ++ zeros m ++ chars ".0").
  { rewrite Hhd. reflexivity. }
  rewrite Hshape in Hplain |- *.
  rewrite (float_of_chars_numeric neg d _ Hdd Hplain).
  rewrite <- Hshape, app_assoc.
  change (chars ".0") with ("."%char :: [zero_char] ++ []).
  rewrite parse_decimal_point.
  - cbn [parse_exponent option_map].
    rewrite <- app_assoc, zeros_snoc.
    change (ds ++ zeros (S m)) with (zeros 0 ++ ds ++ zeros (S m)).
    rewrite (normalize_padded neg ds decpt 0 (S m) Hwf). f_equal. f_equal.
    rewrite length_app. unfold zeros. rewrite repeat_length. unfold m. lia.
  - exact Hip.
  - reflexivity.
  - rewrite Hhd. discriminate.
  - left. reflexivity.
Qed.

(** [float(str(x))] is [x], and [str(x)] holds no white space,
    underscore or percent sign. *)
Lemma float_of_chars_repr x :
  wf_float x ->
  float_of_chars (repr_chars x) = Some x /\ forallb plain (repr_chars x) = true.
Proof.
  destruct x as [|neg|neg|neg ds decpt]; intros Hwf;
    try (destruct neg; split; reflexivity); [split; reflexivity|].
  assert (Hsign : forall body, forallb plain body = true ->
                               forallb plain (sign_chars neg ++ body) = true).
  { intros body Hb. rewrite forallb_app, Hb. destruct neg; reflexivity. }
  unfold repr_chars.
  destruct ((decpt <=? -4) || (16 <? decpt)) eqn:Hexp.
  - pose proof Hwf as (_ & (d & ds' & -> & _) & _).
    destruct (float_of_chars_scientific neg d ds' decpt Hwf) as [E P].
    split; [exact E|apply Hsign, P].
  - destruct (Z.leb_spec decpt 0) as [Hle|Hgt].
    + destruct (float_of_chars_small neg ds decpt Hwf Hle) as [E P].
      split; [exact E|apply Hsign, P].
    + destruct (Z.ltb_spec decpt (Z.of_nat (List.length ds))) as [Hlt|Hge].
      * destruct (float_of_chars_inner neg ds decpt Hwf (conj Hgt Hlt)) as [E P].
        split; [exact E|apply Hsign, P].
      * destruct (float_of_chars_whole neg ds decpt Hwf Hge) as [E P].
        split; [exact E|apply Hsign, P].
Qed.

End Roundtrip.

(** ** The values [float] returns *)

Section WellFormed.

Lemma takewhile_forallb {A} (p : A -> bool) (l : list A) :
  forallb p (takewhile p l) = true.
Proof.
  induction l as [|x l IH]; simpl; [reflexivity|].
  destruct (p x) eqn:Hx; simpl; [rewrite Hx, IH|]; reflexivity.
Qed.

Lemma dropwhile_split {A} (p : A -> bool) (l : list A) :
  exists pre, l = pre ++ dropwhile p l.
Proof.
  induction l as [|x l [pre IH]]; simpl; [exists []; reflexivity|].
  destruct (p x); [exists (x :: pre); simpl; f_equal; exact IH|exists []; reflexivity].
Qed.

Lemma dropwhile_stops {A} (p : A -> bool) (l : list A) :
  dropwhile p l = [] \/ exists x r, dropwhile p l = x :: r /\ p x = false.
Proof.
  induction l as [|x l IH]; simpl; [left; reflexivity|].
  destruct (p x) eqn:Hx; [exact IH|right; eauto].
Qed.

Lemma forallb_suffix {A} (p : A -> bool) (pre l : list A) :
  forallb p (pre ++ l) = true -> forallb p l = true.
Proof. rewrite forallb_app. intros H. apply andb_prop in H. apply H. Qed.

Lemma normalize_is_wf neg ds p :
  forallb is_digit ds = true -> wf_float (normalize neg ds p).
Proof.
  intros Hd. unfold normalize.
  set (a := dropwhile is_zero ds).
  set (b := dropwhile is_zero (rev a)).
  destruct (dropwhile_split is_zero ds) as [pre Hpre]. fold a in Hpre.
  destruct (dropwhile_split is_zero (rev a)) as [pre' Hpre']. fold b in Hpre'.
  assert (Ha : forallb is_digit a = true).
  { rewrite Hpre in Hd. exact (forallb_suffix _ _ _ Hd). }
  assert (Hb : forallb is_digit (rev b) = true).
  { rewrite forallb_rev. rewrite <- forallb_rev, Hpre' in Ha.
    exact (forallb_suffix _ _ _ Ha). }
  assert (Hab : a = rev b ++ rev pre').
  { rewrite <- rev_app_distr, <- Hpre'. symmetry. apply rev_involutive. }
  destruct (rev b) as [|x body] eqn:Hbody; [exact I|].
  cbn [wf_float]. split; [exact Hb|]. split.
  - exists x, body. split; [reflexivity|].
    destruct (dropwhile_stops is_zero ds) as [E|(y & r & E & Hy)]; fold a in E.
    + rewrite E in Hab. discriminate Hab.
    + rewrite E in Hab. injection Hab as Hyx _. rewrite <- Hyx. exact Hy.
  - rewrite <- Hbody, rev_involutive.
    destruct (dropwhile_stops is_zero (rev a)) as [E|(y & r & E & Hy)]; fold b in E.
    + rewrite E in Hbody. discriminate Hbody.
    + exists y, r. split; assumption.
Qed.

Lemma parse_decimal_wf neg l x :
  parse_decimal neg l = Some x -> wf_float x.
Proof.
  unfold parse_decimal.
  set (ip := takewhile is_digit l).
  destruct (match dropwhile is_digit l with
            | [] => ([], [])
            | c :: r =>
                if Ascii.eqb c "."%char
                then (takewhile is_digit r, dropwhile is_digit r)
                else ([], dropwhile is_digit l)
            end) as [fp r2] eqn:E.
  assert (Hfp : forallb is_digit fp = true).
  { destruct (dropwhile is_digit l) as [|c r]; [inversion E; reflexivity|].
    destruct (Ascii.eqb c "."%char); inversion E;
      [apply takewhile_forallb|reflexivity]. }
  assert (Hall : forallb is_digit (ip ++ fp) = true).
  { rewrite forallb_app, Hfp. unfold ip. rewrite takewhile_forallb. reflexivity. }
  destruct (ip ++ fp) as [|d ds] eqn:Hds; [discriminate|].
  destruct (parse_exponent r2); [|discriminate].
  intros H. inversion H. apply normalize_is_wf, Hall.
Qed.

Lemma float_of_chars_wf l x : float_of_chars l = Some x -> wf_float x.
Proof.
  unfold float_of_chars.
  destruct (drop_underscores "000"%char l) as [l1|]; [|discriminate].
  destruct (split_sign (strip_chars l1)) as [neg body].
  unfold parse_special.
  destruct (chars_eqb (map lower body) (chars "inf")
            || chars_eqb (map lower body) (chars "infinity")).
  - intros H. inversion H. exact I.
  - destruct (chars_eqb (map lower body) (chars "nan")).
    + intros H. inversion H. exact I.
    + apply parse_decimal_wf.
Qed.

Lemma float_of_str_wf s x : float_of_str s = Some x -> wf_float x.
Proof. apply float_of_chars_wf. Qed.

Lemma float_of_int_wf n : wf_float (float_of_int n).
Proof. apply normalize_is_wf, digits_of_N_digits. Qed.

End WellFormed.

(** ** The progress cell through [save_data] and [load_data] *)

Section Cells.

Lemma chars_append s1 s2 : chars (s1 ++ s2)%string = chars s1 ++ chars s2.
Proof.
  unfold chars. induction s1 as [|c s1 IH]; simpl; [reflexivity|].
  rewrite IH. reflexivity.
Qed.

Lemma chars_str l : chars (str l) = l.
Proof. apply list_ascii_of_string_of_list_ascii. Qed.

(** The number behind the progress text that [save_data] writes. *)
Lemma progress_text_reads_back x :
  wf_float x ->
  float_of_str (rstrip "%"%char (str_of_float x ++ "%")%string) = Some x.
Proof.
  intros Hwf. destruct (float_of_chars_repr x Hwf) as [E P].
  unfold float_of_str, rstrip, str_of_float.
  rewrite chars_str, chars_append, chars_str.
  change (chars "%") with ["%"%char].
  rewrite (rstrip_chars_plain _ P). exact E.
Qed.

End Cells.

(** ** The invariant of the frames *)

Section Consistency.

Lemma clean_record_consistent c r :
  clean_record c = Some r -> consistent_row r /\ cells r = c.
Proof.
  unfold clean_record.
  destruct (float_of_str (rstrip "%"%char (PROGRESS c))) as [x|] eqn:E; [|discriminate].
  intros H. inversion H; subst. unfold consistent_row. simpl.
  repeat split. exact (float_of_str_wf _ _ E).
Qed.

Lemma clean_consistent data df :
  clean data = Some df -> consistent df /\ map cells df = data.
Proof.
  revert df. induction data as [|c data IH]; simpl; intros df H.
  - inversion H. split; [constructor|reflexivity].
  - destruct (clean_record c) as [r|] eqn:Hr; [|discriminate].
    destruct (clean data) as [df'|]; [|discriminate].
    inversion H; subst. destruct (IH df' eq_refl) as [Hc Hm].
    destruct (clean_record_consistent c r Hr) as [Hcr Hcell].
    split; [constructor; assumption|]. simpl. rewrite Hcell, Hm. reflexivity.
Qed.

Lemma load_data_body_consistent fl sh :
  consistent (fst (load_data_body fl sh)).
Proof.
  unfold load_data_body.
  destruct (get_google_sheet_connection fl) as [[u|] es]; [|constructor].
  destruct (load_open_fails fl || get_all_records_fails fl); [constructor|].
  destruct sh as [|c sh]; [constructor|].
  destruct (clean (c :: sh)) as [df|] eqn:E; [|constructor].
  apply (clean_consistent _ _ E).
Qed.

Lemma select_consistent mask df : consistent df -> consistent (select mask df).
Proof.
  intros H. revert mask. induction H as [|r df Hr Hdf IH]; intros mask.
  - destruct mask; constructor.
  - destruct mask as [|b mask]; [constructor|]. simpl.
    destruct b; [constructor; [exact Hr|]|]; apply IH.
Qed.

Lemma apply_filters_consistent ui df :
  consistent df -> consistent (apply_filters ui df).
Proof.
  intros H. unfold apply_filters, filter_status, filter_type, filter_project.
  apply select_consistent, select_consistent.
  destruct (negb (String.eqb (project_filter ui) "All"));
    [apply select_consistent|]; exact H.
Qed.

Lemma update_progress_consistent task p df :
  consistent df -> consistent (update_progress task p df).
Proof.
  intros H. rewrite update_progress_rows. unfold consistent.
  rewrite Forall_map. apply (Forall_impl _ (P := consistent_row)); [|exact H].
  intros r (Hwf & Hs & He). destruct (has_id task r); [|repeat split; assumption].
  unfold progress_row.
  destruct (p =? 100); [|destruct (0 <? p)];
    (split; [apply float_of_int_wf|split; assumption]).
Qed.

Lemma update_cost_consistent task c df :
  consistent df -> consistent (update_cost task c df).
Proof.
  intros H. rewrite update_cost_rows. unfold consistent.
  rewrite Forall_map. apply (Forall_impl _ (P := consistent_row)); [|exact H].
  intros r Hr. destruct (has_id task r); exact Hr.
Qed.

Lemma clean_written_record r :
  consistent_row r -> clean_record (written r) = Some (reloaded r).
Proof.
  intros (Hwf & Hs & He). unfold clean_record, reloaded, written.
  cbn [PROGRESS START_DATE END_DATE set_PROGRESS].
  rewrite (progress_text_reads_back _ Hwf), <- Hs, <- He. reflexivity.
Qed.

Lemma clean_written df :
  consistent df -> clean (map written df) = Some (map reloaded df).
Proof.
  induction 1 as [|r df Hr Hdf IH]; simpl; [reflexivity|].
  rewrite (clean_written_record r Hr), IH. reflexivity.
Qed.

(** With no fault and a number in every progress cell, [save_data]
    succeeds and the sheet is the written frame. *)
Lemma save_data_numeric df sh :
  numeric df = true -> save_data no_faults df sh = (true, map written df, []).
Proof.
  intros H. unfold save_data.
  cbn [get_google_sheet_connection no_faults connect_fails save_open_fails
         clear_fails update_fails].
  rewrite (upload_numeric df H). reflexivity.
Qed.

(** With no fault and a [NaN] in a progress cell, [save_data] fails on a
    cleared sheet. *)
Lemma save_data_missing df sh :
  numeric df = false ->
  save_data no_faults df sh = (false, [], [st_error "Error saving"]).
Proof.
  intros H. unfold save_data.
  cbn [get_google_sheet_connection no_faults connect_fails save_open_fails
         clear_fails update_fails].
  rewrite (upload_missing df H). reflexivity.
Qed.

Lemma load_data_body_clean sh :
  load_data_body no_faults sh
  = match clean sh with
    | Some df => (df, [])
    | None => ([], [st_error "Error loading data"])
    end.
Proof. destruct sh; reflexivity. Qed.

Lemma Forall2_map_r {A B} (P : A -> Prop) (R : A -> B -> Prop) (f : A -> B) l :
  (forall x, P x -> R x (f x)) -> Forall P l -> Forall2 R l (map f l).
Proof.
  intros HR. induction 1; simpl; constructor; auto.
Qed.

End Consistency.




(** ** A cost update, its save and the next load *)

(** C5, as stated, fails: a sheet with the single task T1 and the
    progress text [50%], every filter open.  After "Update Cost" with 5000,
    the successful save and a fresh load, the cost of T1 is 5000 and its
    numeric progress is unchanged, but its progress text is [50.0%]. *)
Lemma update_cost_rewrites_progress_text :
  let run := main 0 no_faults ui_cost (mkworld [rec_T1] None) in
  let fresh := fst (fst (load_data 1 no_faults (final run))) in
  ctrl run = Rerun
  /\ cache (final run) = None
  /\ map (fun r => ACTUAL_COST (cells r)) fresh = [5000]
  /\ map PROGRESS_NUM fresh = [PROGRESS_NUM row_T1]
  /\ map (fun r => PROGRESS (cells r)) fresh = ["50.0%"]
  /\ PROGRESS rec_T1 = "50%"
  /\ map (fun r => PROGRESS (cells r)) fresh <> [PROGRESS rec_T1].
Proof.
  vm_compute. repeat split. discriminate.
Qed.

(** C5, amended: the frame was loaded, satisfies the invariant of the
    script, has a number in every cell of the numeric progress and passes
    the filters whole; "Update Cost" is the button of the run, for T1 and
    5000, and no remote call fails.  Then the run saves and
    clears the cache, and the next load returns, row by row, the same
    task with the cost 5000 where the identifier is T1 and the former cost
    elsewhere, every other sheet cell but the progress text unchanged, the
    progress text written anew from the numeric progress, and the numeric
    progress and the two dates unchanged. *)
Theorem update_cost_persists :
  forall now later ui w df w1 es,
    refresh ui = false ->
    load_data now no_faults w = (df, w1, es) ->
    df <> [] ->
    consistent df ->
    numeric df = true ->
    apply_filters ui df = df ->
    may_update_progress (role ui) && update_progress_clicked ui = false ->
    may_update_cost (role ui) && update_cost_clicked ui = true ->
    cost_task ui = "T1" ->
    new_cost ui = 5000 ->
    ctrl (main now no_faults ui w) = Rerun
    /\ cache (final (main now no_faults ui w)) = None
    /\ exists fresh w2,
        load_data later no_faults (final (main now no_faults ui w)) = (fresh, w2, [])
        /\ Forall2
             (fun old new =>
                ACTUAL_COST (cells new)
                = (if has_id "T1" old then 5000 else ACTUAL_COST (cells old))
                /\ same_but_progress (set_ACTUAL_COST (ACTUAL_COST (cells new)) (cells old))
                                     (cells new)
                /\ PROGRESS (cells new) = (str_of_float (PROGRESS_NUM old) ++ "%")%string
                /\ PROGRESS_NUM new = PROGRESS_NUM old
                /\ START new = START old /\ END new = END old)
             df fresh.
Proof.
  intros now later ui w df w1 es Hr Hl Hne Hcons Hnum Hall Hp Hc Htask Hcost.
  rewrite (main_loaded _ _ _ _ _ _ _ Hr Hl Hne), Hall.
  unfold tab_update_progress. rewrite Hp.
  unfold tab_update_cost. rewrite Hc, Htask, Hcost.
  rewrite (save_data_numeric _ _ (update_cost_numeric "T1" 5000 df Hnum)).
  cbn [app ctrl final cache cache_clear].
  split; [reflexivity|]. split; [reflexivity|].
  unfold load_data, cache_clear. cbn [cache sheet].
  rewrite load_data_body_clean.
  rewrite (clean_written _ (update_cost_consistent "T1" 5000 df Hcons)).
  eexists _, _. split; [reflexivity|].
  rewrite update_cost_rows, map_map.
  apply (Forall2_map_r (fun _ => True)); [|apply Forall_forall; trivial].
  intros r _. unfold same_but_progress, cost_row.
  destruct (has_id "T1" r); simpl; repeat split.
Qed.

Lemma update_cost_persists_witness :
  ctrl (main 0 no_faults ui_cost (mkworld [rec_T1; rec_T2] None)) = Rerun
  /\ cache (final (main 0 no_faults ui_cost (mkworld [rec_T1; rec_T2] None))) = None
  /\ exists fresh w2,
      load_data 1 no_faults (final (main 0 no_faults ui_cost (mkworld [rec_T1; rec_T2] None)))
      = (fresh, w2, [])
      /\ Forall2
           (fun old new =>
              ACTUAL_COST (cells new)
              = (if has_id "T1" old then 5000 else ACTUAL_COST (cells old))
              /\ same_but_progress (set_ACTUAL_COST (ACTUAL_COST (cells new)) (cells old))
                                   (cells new)
              /\ PROGRESS (cells new) = (str_of_float (PROGRESS_NUM old) ++ "%")%string
              /\ PROGRESS_NUM new = PROGRESS_NUM old
              /\ START new = START old /\ END new = END old)
           [row_T1; row_T2] fresh.
Proof.
  apply (update_cost_persists 0 1 ui_cost (mkworld [rec_T1; rec_T2] None)
           [row_T1; row_T2]
           (mkworld [rec_T1; rec_T2] (Some (0, [row_T1; row_T2], []))) []).
  - reflexivity.
  - vm_compute. reflexivity.
  - discriminate.
  - repeat constructor; simpl; eexists _, _; split; reflexivity.
  - reflexivity.
  - vm_compute. reflexivity.
  - reflexivity.
  - reflexivity.
  - reflexivity.
  - reflexivity.
Defined.

(** ** Mean progress *)

Section Mean.

Lemma ext_add_zero a : ext_add a (EFin 0) = a.
Proof.
  destruct a as [| |[n d]]; try reflexivity.
  unfold ext_add, Qplus. cbn [Qnum Qden].
  rewrite Z.mul_1_r, Z.mul_0_l, Z.add_0_r, Pos.mul_1_r. reflexivity.
Qed.

Lemma count_present values :
  (List.length values - count_true (map isna values))%nat
  = List.length (filter present values).
Proof.
  unfold count_true, present.
  assert (H : (List.length (filter (fun b : bool => b) (map isna values))
               + List.length (filter (fun x => negb (isna x)) values)
               = List.length values)%nat).
  { induction values as [|x values IH]; simpl; [reflexivity|].
    destruct (isna x); simpl; lia. }
  lia.
Qed.

Lemma sum_filled values :
  forall acc,
    fold_left ext_add
      (map to_ext (map (fun x => if isna x then FZero false else x) values)) acc
    = fold_left ext_add (map to_ext (filter present values)) acc.
Proof.
  induction values as [|x values IH]; intros acc; simpl; [reflexivity|].
  unfold present at 1. destruct (isna x) eqn:Hx; simpl.
  - rewrite ext_add_zero. apply IH.
  - apply IH.
Qed.

(** [Series.mean()] is the arithmetic mean of the cells that are not
    [NaN], and [NaN] when there is no such cell. *)
Lemma nanmean_present values :
  nanmean values
  = match filter present values with
    | [] => ENan
    | xs => arithmetic_mean (map to_ext xs)
    end.
Proof.
  unfold nanmean, arithmetic_mean, ext_sum.
  rewrite count_present, sum_filled.
  destruct (filter present values) as [|x xs]; [reflexivity|].
  rewrite length_map. reflexivity.
Qed.

(** The two progress metrics: the mean of the present cells of the
    project, [0] for a project without rows. *)
Lemma metric_progress_mean (p : frame) :
  metric_progress p
  = match p with
    | [] => EFin 0
    | _ => match filter present (col_PROGRESS_NUM p) with
           | [] => ENan
           | xs => arithmetic_mean (map to_ext xs)
           end
    end.
Proof.
  unfold metric_progress. destruct p as [|r p]; [reflexivity|].
  cbn [List.length Nat.ltb Nat.leb]. apply nanmean_present.
Qed.

(** The weekly report takes the same mean without the guard. *)
Lemma report_progress_mean (p : frame) :
  sec_progress (report_section p)
  = match filter present (col_PROGRESS_NUM p) with
    | [] => ENan
    | xs => arithmetic_mean (map to_ext xs)
    end.
Proof. apply nanmean_present. Qed.

End Mean.

(** C6, at a failing input: the sheet holds a Villa 5 task and a Villa 6
    task, the project filter shows Villa 5 and "Generate Report" is
    clicked.  The view has no Villa 6 row.  The metric "Villa 6 Progress"
    of the same run is 0, by the guard on the length of the group; the
    Villa 6 block of the weekly report takes the mean without that guard,
    and its progress is NaN. *)
Theorem report_mean_of_empty_group_is_nan :
  of_project "Villa 6"
     (view (main 0 no_faults ui_report_villa5 (mkworld [rec_T1; rec_T2] None))) = []
  /\ In (st_metric "Villa 6 Progress" (EFin 0) 0)
        (shown (main 0 no_faults ui_report_villa5 (mkworld [rec_T1; rec_T2] None)))
  /\ In (st_report (mksection (EFin 50) 0 1 1000 200) (mksection ENan 0 0 0 0)
                   [critical_line row_T1])
        (shown (main 0 no_faults ui_report_villa5 (mkworld [rec_T1; rec_T2] None)))
  /\ metric_progress [] = EFin 0
  /\ sec_progress (report_section []) = ENan.
Proof.
  repeat split; vm_compute; auto 10.
Qed.

(** * Further properties of the script *)

Import View Sample.

(** ** The filters of the sidebar *)

Lemma filter_filter {A} (p q : A -> bool) (l : list A) :
  filter p (filter q l) = filter (fun x => q x && p x) l.
Proof.
  induction l as [|x l IH]; simpl; [reflexivity|].
  destruct (q x); simpl; [destruct (p x)|]; rewrite IH; reflexivity.
Qed.

Lemma apply_filters_filter (ui : widgets) (df : frame) :
  apply_filters ui df = filter (passes ui) df.
Proof.
  unfold apply_filters.
  rewrite filter_status_filter, filter_type_filter.
  destruct (String.eqb (project_filter ui) "All") eqn:Hall; cbn [negb].
  - rewrite filter_filter. apply filter_ext. intros r.
    unfold passes. rewrite Hall. reflexivity.
  - rewrite filter_project_filter, !filter_filter. apply filter_ext. intros r.
    unfold passes. rewrite Hall. cbn [orb]. rewrite andb_assoc. reflexivity.
Qed.

(** X1: the view is the frame filtered by the conjunction of the three
    sidebar conditions: the rows that pass, in the order of the frame;
    with the project filter on "All" the project of a row is not looked
    at. *)
Theorem apply_filters_passes :
  forall (ui : widgets) (df : frame),
    apply_filters ui df = filter (passes ui) df
    /\ (forall r, In r (apply_filters ui df) <-> In r df /\ passes ui r = true).
Proof.
  intros ui df. split; [apply apply_filters_filter|].
  intros r. rewrite apply_filters_filter. apply filter_In.
Qed.

(** X2: filtering a view again with the same widgets changes nothing. *)
Theorem apply_filters_idempotent :
  forall (ui : widgets) (df : frame),
    apply_filters ui (apply_filters ui df) = apply_filters ui df.
Proof.
  intros ui df. rewrite !apply_filters_filter, filter_filter.
  apply filter_ext. intros r. apply andb_diag.
Qed.

Lemma unique_covers (col seen : list string) (x : string) :
  In x col -> existsb (String.eqb x) seen = true \/ In x (unique seen col).
Proof.
  revert seen. induction col as [|y col IH]; intros seen Hin; [contradiction|].
  simpl. destruct (existsb (String.eqb y) seen) eqn:Hy.
  - destruct Hin as [->|Hin]; [left; exact Hy|apply IH, Hin].
  - destruct Hin as [->|Hin]; [right; left; reflexivity|].
    destruct (IH (y :: seen) Hin) as [H|H]; [|right; right; exact H].
    simpl in H. apply orb_prop in H as [H|H]; [|left; exact H].
    apply String.eqb_eq in H. subst. right. left. reflexivity.
Qed.

Lemma existsb_unique (col : list string) (x : string) :
  In x col -> existsb (String.eqb x) (unique [] col) = true.
Proof.
  intros Hin. destruct (unique_covers col [] x Hin) as [H|H]; [discriminate H|].
  apply existsb_exists. exists x. split; [exact H|apply String.eqb_refl].
Qed.

(** X3: with the widgets as the sidebar first shows them (project "All",
    every type and every status of the frame selected) the view is the
    whole frame. *)
Theorem default_filters_show_all :
  forall (ui : widgets) (df : frame),
    default_filters ui df -> apply_filters ui df = df.
Proof.
  intros ui df (Hp & Ht & Hs). rewrite apply_filters_filter.
  apply forallb_filter_id. apply forallb_forall. intros r Hr.
  unfold passes. rewrite Hp, Ht, Hs. cbn [String.eqb orb andb].
  rewrite !existsb_unique; [reflexivity| |].
  - unfold col_STATUS, column. apply in_map_iff. exists r. split; [reflexivity|exact Hr].
  - unfold col_TYPE, column. apply in_map_iff. exists r. split; [reflexivity|exact Hr].
Qed.

Lemma default_filters_show_all_witness :
  apply_filters ui_first [row_T1; row_T2] = [row_T1; row_T2].
Proof.
  apply (default_filters_show_all ui_first [row_T1; row_T2]).
  unfold default_filters. simpl. repeat split.
Defined.

(** ** The two assignments *)

Lemma has_id_progress_row task p r : has_id task (progress_row p r) = has_id task r.
Proof.
  unfold progress_row. destruct (p =? 100); [|destruct (0 <? p)]; reflexivity.
Qed.

Lemma has_id_cost_row task c r : has_id task (cost_row c r) = has_id task r.
Proof. reflexivity. Qed.

(** X5: the last write wins.  A second "Update Cost" for the same task
    overrides the first, and so does a second "Update Progress" with a
    positive value.  A second "Update Progress" with 0 sets the progress
    of the matching rows to 0 and keeps the status the first update left,
    Complete included. *)
Theorem update_twice :
  forall (task : string) (p1 p2 c1 c2 : Z) (df : frame),
    0 < p2 ->
    update_cost task c2 (update_cost task c1 df) = update_cost task c2 df
    /\ update_progress task p2 (update_progress task p1 df)
       = update_progress task p2 df
    /\ Forall2
         (fun first twice =>
            STATUS (cells twice) = STATUS (cells first)
            /\ (has_id task first = true ->
                PROGRESS_NUM twice = float_of_int 0
                /\ PROGRESS (cells twice) = "0%"))
         (update_progress task p1 df)
         (update_progress task 0 (update_progress task p1 df)).
Proof.
  intros task p1 p2 c1 c2 df Hp2.
  rewrite !update_cost_rows, !update_progress_rows, !map_map.
  split; [|split].
  - apply map_ext. intros r. destruct (has_id task r) eqn:H.
    + rewrite has_id_cost_row, H. reflexivity.
    + rewrite H. reflexivity.
  - apply map_ext. intros r. destruct (has_id task r) eqn:H.
    + rewrite has_id_progress_row, H. unfold progress_row.
      apply Z.ltb_lt in Hp2. rewrite Hp2.
      destruct (p2 =? 100);
        (destruct (p1 =? 100); [|destruct (0 <? p1)]); reflexivity.
    + rewrite H. reflexivity.
  - induction df as [|r df IH]; simpl; constructor; [|exact IH].
    destruct (has_id task r) eqn:H.
    + rewrite has_id_progress_row, H. split; [|intros _; split]; reflexivity.
    + rewrite H. split; [reflexivity|]. intros E. unfold has_id in *. congruence.
Qed.

Lemma update_twice_witness :
  update_cost "T1" 900 (update_cost "T1" 100 [row_T1; row_T2])
  = update_cost "T1" 900 [row_T1; row_T2]
  /\ update_progress "T1" 50 (update_progress "T1" 100 [row_T1; row_T2])
     = update_progress "T1" 50 [row_T1; row_T2]
  /\ Forall2
       (fun first twice =>
          STATUS (cells twice) = STATUS (cells first)
          /\ (has_id "T1" first = true ->
              PROGRESS_NUM twice = float_of_int 0
              /\ PROGRESS (cells twice) = "0%"))
       (update_progress "T1" 100 [row_T1; row_T2])
       (update_progress "T1" 0 (update_progress "T1" 100 [row_T1; row_T2])).
Proof.
  apply (update_twice "T1" 100 50 100 900 [row_T1; row_T2]). lia.
Defined.

(** X6: "Update Progress" and "Update Cost" touch different cells: in
    either order, for the same task or for two tasks, the frame is the
    same. *)
Theorem update_progress_cost_commute :
  forall (t1 t2 : string) (p c : Z) (df : frame),
    update_cost t2 c (update_progress t1 p df)
    = update_progress t1 p (update_cost t2 c df).
Proof.
  intros t1 t2 p c df.
  rewrite !update_cost_rows, !update_progress_rows, !map_map.
  apply map_ext. intros r.
  destruct (has_id t1 r) eqn:H1, (has_id t2 r) eqn:H2;
    rewrite ?has_id_progress_row, ?has_id_cost_row, ?H1, ?H2; try reflexivity.
  unfold progress_row, cost_row.
  destruct (p =? 100); [|destruct (0 <? p)]; reflexivity.
Qed.

(** ** The progress text and the numeric progress stay in line *)

Section Sync.

Lemma chars_string_of_uint u :
  chars (NilEmpty.string_of_uint u) = chars_of_uint u.
Proof. unfold chars. induction u; simpl; rewrite ?IHu; reflexivity. Qed.

Lemma chars_str_of_int p :
  chars (str_of_int p) = sign_chars (p <? 0) ++ digits_of_N (Z.abs_N p).
Proof.
  unfold str_of_int, digits_of_N.
  destruct p as [|q|q]; [reflexivity| |].
  - cbn [Z.to_int NilZero.string_of_int Z.ltb Z.compare sign_chars app Z.abs_N N.to_uint].
    unfold NilZero.string_of_uint.
    pose proof (DecimalPos.Unsigned.to_uint_nonnil q) as Hnn.
    destruct (Pos.to_uint q) eqn:E; try contradiction; rewrite <- E;
      apply chars_string_of_uint.
  - cbn [Z.to_int NilZero.string_of_int Z.ltb Z.compare sign_chars app Z.abs_N N.to_uint].
    unfold NilZero.string_of_uint.
    pose proof (DecimalPos.Unsigned.to_uint_nonnil q) as Hnn.
    destruct (Pos.to_uint q) eqn:E; try contradiction; rewrite <- E;
      change (chars (String "-" ?s)) with ("-"%char :: chars s);
      cbn [chars list_ascii_of_string]; f_equal; apply chars_string_of_uint.
Qed.

Lemma parse_decimal_digits neg ip :
  forallb is_digit ip = true ->
  ip <> [] ->
  parse_decimal neg ip = Some (normalize neg ip (Z.of_nat (List.length ip))).
Proof.
  intros Hip Hne. unfold parse_decimal.
  pose proof (takewhile_all is_digit ip [] Hip) as Ht.
  pose proof (dropwhile_all is_digit ip [] Hip) as Hd.
  rewrite app_nil_r in Ht, Hd. cbn [takewhile dropwhile] in Ht, Hd.
  rewrite app_nil_r in Ht. rewrite Ht, Hd, app_nil_r.
  destruct ip; [contradiction|].
  cbn [parse_exponent]. rewrite Z.add_0_r. reflexivity.
Qed.

(** [float(str(p))] for an integer [p] is [p] as a float. *)
Lemma float_of_chars_int p :
  float_of_chars (chars (str_of_int p)) = Some (float_of_int p)
  /\ forallb plain (chars (str_of_int p)) = true.
Proof.
  rewrite chars_str_of_int.
  pose proof (digits_of_N_digits (Z.abs_N p)) as Hd.
  pose proof (digits_of_N_nonempty (Z.abs_N p)) as Hne.
  assert (Hp : forallb plain (digits_of_N (Z.abs_N p)) = true)
    by exact (digits_plain _ Hd).
  split.
  - destruct (digits_of_N (Z.abs_N p)) as [|c rest] eqn:E; [contradiction|].
    assert (Hc : is_digit c = true).
    { cbn [forallb] in Hd. apply andb_prop in Hd. apply Hd. }
    rewrite (float_of_chars_numeric _ c rest Hc Hp).
    rewrite (parse_decimal_digits _ _ Hd) by discriminate.
    unfold float_of_int. rewrite E. reflexivity.
  - rewrite forallb_app, Hp. destruct (p <? 0); reflexivity.
Qed.

Lemma progress_text_of_int p :
  float_of_str (rstrip "%"%char (str_of_int p ++ "%")%string) = Some (float_of_int p).
Proof.
  destruct (float_of_chars_int p) as [E P].
  unfold float_of_str, rstrip.
  rewrite chars_str, chars_append.
  change (chars "%") with ["%"%char].
  rewrite (rstrip_chars_plain _ P). exact E.
Qed.

Lemma clean_in_sync data df : clean data = Some df -> Forall in_sync df.
Proof.
  revert df. induction data as [|c data IH]; simpl; intros df H.
  - inversion H. constructor.
  - unfold clean_record in H.
    destruct (float_of_str (rstrip "%"%char (PROGRESS c))) as [x|] eqn:E; [|discriminate].
    destruct (clean data) as [df'|]; [|discriminate].
    inversion H; subst. constructor; [exact E|apply IH; reflexivity].
Qed.

Lemma load_data_body_in_sync fl sh : Forall in_sync (fst (load_data_body fl sh)).
Proof.
  unfold load_data_body.
  destruct (get_google_sheet_connection fl) as [[u|] es]; [|constructor].
  destruct (load_open_fails fl || get_all_records_fails fl); [constructor|].
  destruct sh as [|c sh]; [constructor|].
  destruct (clean (c :: sh)) as [df|] eqn:E; [|constructor].
  apply (clean_in_sync _ _ E).
Qed.

Lemma select_Forall {A} (P : A -> Prop) mask (df : list A) :
  Forall P df -> Forall P (select mask df).
Proof.
  intros H. revert mask. induction H as [|r df Hr Hdf IH]; intros mask.
  - destruct mask; constructor.
  - destruct mask as [|b mask]; [constructor|]. simpl.
    destruct b; [constructor; [exact Hr|]|]; apply IH.
Qed.

Lemma apply_filters_Forall (P : row -> Prop) ui df :
  Forall P df -> Forall P (apply_filters ui df).
Proof.
  intros H. unfold apply_filters, filter_status, filter_type, filter_project.
  apply select_Forall, select_Forall.
  destruct (negb (String.eqb (project_filter ui) "All"));
    [apply select_Forall|]; exact H.
Qed.

Lemma update_progress_in_sync task p df :
  Forall in_sync df -> Forall in_sync (update_progress task p df).
Proof.
  intros H. rewrite update_progress_rows, Forall_map.
  apply (Forall_impl _ (P := in_sync)); [|exact H].
  intros r Hr. destruct (has_id task r); [|exact Hr].
  unfold in_sync, progress_row.
  destruct (p =? 100); [|destruct (0 <? p)]; apply progress_text_of_int.
Qed.

Lemma update_cost_in_sync task c df :
  Forall in_sync df -> Forall in_sync (update_cost task c df).
Proof.
  intros H. rewrite update_cost_rows, Forall_map.
  apply (Forall_impl _ (P := in_sync)); [|exact H].
  intros r Hr. destruct (has_id task r); exact Hr.
Qed.

End Sync.

Section RunInvariant.

Variable P : frame -> Prop.
Hypothesis P_progress : forall task p df, P df -> P (update_progress task p df).
Hypothesis P_cost : forall task c df, P df -> P (update_cost task c df).

Lemma tab_update_cost_inv fl ui w es df :
  P df ->
  P (view (tab_update_cost fl ui w es df))
  /\ (cache (final (tab_update_cost fl ui w es df)) = None
      \/ cache (final (tab_update_cost fl ui w es df)) = cache w).
Proof.
  intros HP. unfold tab_update_cost.
  destruct (may_update_cost (role ui) && update_cost_clicked ui).
  - destruct (save_data fl _ (sheet w)) as [[[|] sh] es'].
    + simpl. split; [apply P_cost, HP|left; reflexivity].
    + destruct (tab_reports_keeps ui (mkworld sh (cache w)) (es ++ es')
                  (update_cost (cost_task ui) (new_cost ui) df)) as (Hf & Hv & _).
      rewrite Hf, Hv. split; [apply P_cost, HP|right; reflexivity].
  - destruct (tab_reports_keeps ui w es df) as (Hf & Hv & _).
    rewrite Hf, Hv. split; [exact HP|right; reflexivity].
Qed.

Lemma tab_update_progress_inv fl ui w es df :
  P df ->
  P (view (tab_update_progress fl ui w es df))
  /\ (cache (final (tab_update_progress fl ui w es df)) = None
      \/ cache (final (tab_update_progress fl ui w es df)) = cache w).
Proof.
  intros HP. unfold tab_update_progress.
  destruct (may_update_progress (role ui) && update_progress_clicked ui).
  - destruct (save_data fl _ (sheet w)) as [[[|] sh] es'].
    + simpl. split; [apply P_progress, HP|left; reflexivity].
    + apply (tab_update_cost_inv fl ui (mkworld sh (cache w))). apply P_progress, HP.
  - apply tab_update_cost_inv, HP.
Qed.

End RunInvariant.

Lemma load_data_sound now fl w df w1 es :
  cache_sound w ->
  load_data now fl w = (df, w1, es) ->
  cache_sound w1 /\ Forall in_sync df /\ consistent df.
Proof.
  unfold load_data, cache_sound. intros Hw.
  pose proof (load_data_body_in_sync fl (sheet w)) as Hs.
  pose proof (load_data_body_consistent fl (sheet w)) as Hc.
  destruct (load_data_body fl (sheet w)) as [df' es'].
  destruct (cache w) as [[[t df0] es0]|] eqn:E.
  - destruct (now <? t + ttl).
    + intros H. inversion H; subst. rewrite E. destruct Hw. repeat split; assumption.
    + intros H. inversion H; subst. simpl. repeat split; assumption.
  - intros H. inversion H; subst. simpl. repeat split; assumption.
Qed.

(** X7: the frames of the script keep their added columns in line with
    their sheet columns.  If the cached frame, when there is one, has in
    every row a progress text that reads as the numeric progress, and
    dates that are the parsed date texts, then after any run, whatever
    the widgets and the remote failures, the same holds of the frame the
    run ends with and of the frame it leaves in the cache. *)
Theorem run_keeps_columns_in_line :
  forall now fl ui w,
    cache_sound w ->
    cache_sound (final (main now fl ui w))
    /\ Forall in_sync (view (main now fl ui w))
    /\ consistent (view (main now fl ui w)).
Proof.
  intros now fl ui w Hw. unfold main.
  destruct (refresh ui); [simpl; repeat split; constructor|].
  destruct (load_data now fl w) as [[df0 w1] es1] eqn:H1.
  destruct (load_data now fl w1) as [[df w2] es2] eqn:H2.
  destruct (load_data_sound _ _ _ _ _ _ Hw H1) as (Hw1 & _ & _).
  destruct (load_data_sound _ _ _ _ _ _ Hw1 H2) as (Hw2 & Hs & Hc).
  destruct df as [|r df]; [simpl; repeat split; [exact Hw2|constructor|constructor]|].
  set (v := apply_filters ui (r :: df)).
  assert (Hv : Forall in_sync v /\ consistent v).
  { split; [apply apply_filters_Forall, Hs|apply apply_filters_consistent, Hc]. }
  destruct (tab_update_progress_inv (fun d => Forall in_sync d /\ consistent d)
              (fun task p d H => conj (update_progress_in_sync task p d (proj1 H))
                                      (update_progress_consistent task p d (proj2 H)))
              (fun task c d H => conj (update_cost_in_sync task c d (proj1 H))
                                      (update_cost_consistent task c d (proj2 H)))
              fl ui w2 (es1 ++ es2 ++ key_metrics v) v Hv) as [[Hvs Hvc] Hcache].
  repeat split; [|exact Hvs|exact Hvc].
  unfold cache_sound. destruct Hcache as [-> | ->]; [exact I|exact Hw2].
Qed.

Lemma run_keeps_columns_in_line_witness :
  cache_sound (final (main 0 no_faults ui_progress (mkworld [rec_T1; rec_T2] None)))
  /\ Forall in_sync (view (main 0 no_faults ui_progress (mkworld [rec_T1; rec_T2] None)))
  /\ consistent (view (main 0 no_faults ui_progress (mkworld [rec_T1; rec_T2] None))).
Proof.
  apply (run_keeps_columns_in_line 0 no_faults ui_progress (mkworld [rec_T1; rec_T2] None)).
  exact I.
Defined.

(** ** What a run does to the sheet *)

Lemma load_data_sheet now fl w :
  sheet (snd (fst (load_data now fl w))) = sheet w.
Proof.
  unfold load_data. destruct (load_data_body fl (sheet w)) as [df es].
  destruct (cache w) as [[[t df0] es0]|]; [destruct (now <? t + ttl)|]; reflexivity.
Qed.

(** X8: a run writes the sheet only through an update button that the
    role may use.  When neither "Update Progress" nor "Update Cost" is
    both permitted and clicked, the sheet after the run is the sheet
    before it, whatever else happens; in particular nothing a client
    does changes the sheet. *)
Theorem run_without_update_keeps_sheet :
  forall now fl ui w,
    (may_update_progress (role ui) && update_progress_clicked ui = false ->
     may_update_cost (role ui) && update_cost_clicked ui = false ->
     sheet (final (main now fl ui w)) = sheet w)
    /\ (role ui = "Client" -> sheet (final (main now fl ui w)) = sheet w).
Proof.
  intros now fl ui w.
  assert (H : may_update_progress (role ui) && update_progress_clicked ui = false ->
              may_update_cost (role ui) && update_cost_clicked ui = false ->
              sheet (final (main now fl ui w)) = sheet w).
  { intros Hp Hc. unfold main.
    destruct (refresh ui); [reflexivity|].
    pose proof (load_data_sheet now fl w) as S1.
    destruct (load_data now fl w) as [[df0 w1] es1]. simpl in S1.
    pose proof (load_data_sheet now fl w1) as S2.
    destruct (load_data now fl w1) as [[df w2] es2]. simpl in S2.
    destruct df as [|r df]; [simpl; congruence|].
    unfold tab_update_progress. rewrite Hp.
    unfold tab_update_cost. rewrite Hc.
    rewrite (proj1 (tab_reports_keeps _ _ _ _)). congruence. }
  split; [exact H|].
  intros Hrole. apply H; unfold may_update_progress, may_update_cost;
    rewrite Hrole; reflexivity.
Qed.

Lemma run_without_update_keeps_sheet_witness :
  sheet (final (main 0 no_faults ui_idle (mkworld [rec_T1; rec_T2] None)))
  = [rec_T1; rec_T2].
Proof.
  apply (proj1 (run_without_update_keeps_sheet
                  0 no_faults ui_idle (mkworld [rec_T1; rec_T2] None)));
    reflexivity.
Defined.

Lemma main_stops_on_empty now fl ui w w1 es :
  refresh ui = false ->
  load_data now fl w = ([], w1, es) ->
  main now fl ui w = mkoutcome w1 (es ++ es ++ [st_error "No data loaded"]) [] Stopped.
Proof.
  intros Hr Hl. unfold main. rewrite Hr, Hl, (load_data_again _ _ _ _ _ _ Hl).
  reflexivity.
Qed.

(** X9: a load that returns no rows is cached like any other.  After a
    first run on an empty cache whose load came back empty (no
    connection, a failed read, an empty sheet or a progress cell that is
    no number), every run within the next 300 seconds that is not a
    refresh stops with "No data loaded" and an empty view and leaves the
    sheet alone, whatever the sheet holds by then and whether or not the
    remote calls would succeed. *)
Theorem empty_load_is_cached :
  forall now later fl fl2 ui ui2 sh sh2,
    refresh ui = false ->
    refresh ui2 = false ->
    fst (load_data_body fl sh) = [] ->
    later < now + ttl ->
    ctrl (main now fl ui (mkworld sh None)) = Stopped
    /\ ctrl (main later fl2 ui2
                  (mkworld sh2 (cache (final (main now fl ui (mkworld sh None)))))) = Stopped
    /\ view (main later fl2 ui2
                  (mkworld sh2 (cache (final (main now fl ui (mkworld sh None)))))) = []
    /\ sheet (final (main later fl2 ui2
                  (mkworld sh2 (cache (final (main now fl ui (mkworld sh None))))))) = sh2
    /\ In (st_error "No data loaded")
          (shown (main later fl2 ui2
                  (mkworld sh2 (cache (final (main now fl ui (mkworld sh None))))))).
Proof.
  intros now later fl fl2 ui ui2 sh sh2 Hr Hr2 Hempty Hlater.
  assert (H1 : load_data now fl (mkworld sh None)
               = ([], mkworld sh (Some (now, [], snd (load_data_body fl sh))),
                  snd (load_data_body fl sh))).
  { unfold load_data. cbn [cache sheet].
    destruct (load_data_body fl sh) as [df es]. simpl in Hempty. subst df. reflexivity. }
  rewrite (main_stops_on_empty _ _ _ _ _ _ Hr H1). cbn [ctrl final cache].
  split; [reflexivity|].
  assert (H2 : load_data later fl2
                 (mkworld sh2 (Some (now, [], snd (load_data_body fl sh))))
               = ([], mkworld sh2 (Some (now, [], snd (load_data_body fl sh))),
                  snd (load_data_body fl sh))).
  { unfold load_data. cbn [cache sheet].
    apply Z.ltb_lt in Hlater. rewrite Hlater. reflexivity. }
  rewrite (main_stops_on_empty _ _ _ _ _ _ Hr2 H2). cbn [ctrl view final sheet shown].
  repeat split. apply in_or_app. right. apply in_or_app. right. left. reflexivity.
Qed.

Lemma empty_load_is_cached_witness :
  ctrl (main 0 no_faults ui_idle (mkworld [rec_T1; rec_T3_bad] None)) = Stopped
  /\ ctrl (main 10 no_faults ui_idle
             (mkworld [rec_T1; rec_T2]
                (cache (final (main 0 no_faults ui_idle
                                 (mkworld [rec_T1; rec_T3_bad] None)))))) = Stopped
  /\ view (main 10 no_faults ui_idle
             (mkworld [rec_T1; rec_T2]
                (cache (final (main 0 no_faults ui_idle
                                 (mkworld [rec_T1; rec_T3_bad] None)))))) = []
  /\ sheet (final (main 10 no_faults ui_idle
             (mkworld [rec_T1; rec_T2]
                (cache (final (main 0 no_faults ui_idle
                                 (mkworld [rec_T1; rec_T3_bad] None)))))))
     = [rec_T1; rec_T2]
  /\ In (st_error "No data loaded")
        (shown (main 10 no_faults ui_idle
             (mkworld [rec_T1; rec_T2]
                (cache (final (main 0 no_faults ui_idle
                                 (mkworld [rec_T1; rec_T3_bad] None))))))).
Proof.
  apply (empty_load_is_cached 0 10 no_faults no_faults ui_idle ui_idle
           [rec_T1; rec_T3_bad] [rec_T1; rec_T2]).
  - reflexivity.
  - reflexivity.
  - vm_compute. reflexivity.
  - unfold ttl. lia.
Defined.

Lemma load_data_hit now fl w df :
  cached_read now w = Some df ->
  exists es, load_data now fl w = (df, w, es).
Proof.
  unfold cached_read, load_data.
  destruct (cache w) as [[[t df0] es0]|]; [|discriminate].
  destruct (now <? t + ttl); [|discriminate].
  intros H. inversion H; subst. exists es0. reflexivity.
Qed.

Lemma load_data_miss now fl w :
  cached_read now w = None ->
  fst (fst (load_data now fl w)) = fst (load_data_body fl (sheet w)).
Proof.
  unfold cached_read, load_data.
  destruct (load_data_body fl (sheet w)) as [df es].
  destruct (cache w) as [[[t df0] es0]|]; [|reflexivity].
  destruct (now <? t + ttl); [discriminate|reflexivity].
Qed.

(** X10: [save_data] clears the sheet before it writes.  When the write
    of an "Update Progress" fails after the clear went through, the run
    leaves the sheet empty and the cache as it was.  A retry with the
    same widgets while the cache entry is alive writes the updated view,
    provided every progress cell of the view holds a number; a run after
    the entry has expired finds no rows and stops. *)
Theorem failed_write_empties_sheet :
  forall now later fl ui w df w1 es,
    refresh ui = false ->
    load_data now fl w = (df, w1, es) ->
    df <> [] ->
    may_update_progress (role ui) && update_progress_clicked ui = true ->
    update_cost_clicked ui = false ->
    connect_fails fl = false ->
    save_open_fails fl = false ->
    clear_fails fl = false ->
    update_fails fl = true ->
    sheet (final (main now fl ui w)) = []
    /\ cache (final (main now fl ui w)) = cache w1
    /\ (cached_read later w1 = Some df ->
        numeric (apply_filters ui df) = true ->
        sheet (final (main later no_faults ui (final (main now fl ui w))))
        = map written
              (update_progress (selected_task ui) (new_progress ui) (apply_filters ui df)))
    /\ (cached_read later w1 = None ->
        ctrl (main later no_faults ui (final (main now fl ui w))) = Stopped).
Proof.
  intros now later fl ui w df w1 es Hr Hl Hne Hp Hc F1 F2 F3 F4.
  rewrite (main_loaded _ _ _ _ _ _ _ Hr Hl Hne).
  set (df' := update_progress (selected_task ui) (new_progress ui) (apply_filters ui df)).
  assert (E : save_data fl df' (sheet w1) = (false, [], [st_error "Error saving"])).
  { unfold save_data, get_google_sheet_connection. rewrite F1, F2, F3, F4.
    destruct (upload df'); reflexivity. }
  unfold tab_update_progress at 1 2 3 4. rewrite Hp. fold df'. rewrite E.
  unfold tab_update_cost at 1 2 3 4. rewrite Hc, andb_false_r.
  set (es' := (es ++ es ++ key_metrics (apply_filters ui df)) ++ [st_error "Error saving"]).
  destruct (tab_reports_keeps ui (mkworld [] (cache w1)) es' df') as (Hf & _).
  rewrite Hf. cbn [sheet cache].
  split; [reflexivity|]. split; [reflexivity|]. split.
  - intros Hread Hnum.
    destruct (load_data_hit later no_faults (mkworld [] (cache w1)) df Hread) as [es2 Hl2].
    exact (proj1 (update_progress_saves_view later ui _ df _ es2 Hr Hl2 Hne Hp Hnum)).
  - intros Hread.
    pose proof (load_data_miss later no_faults (mkworld [] (cache w1)) Hread) as Hm.
    cbn in Hm.
    destruct (load_data later no_faults (mkworld [] (cache w1))) as [[d w2] es2] eqn:Hl2.
    simpl in Hm. subst d.
    rewrite (main_stops_on_empty _ _ _ _ _ _ Hr Hl2). reflexivity.
Qed.

Lemma failed_write_empties_sheet_witness :
  sheet (final (main 0 faults_on_save ui_progress (mkworld [rec_T1; rec_T2] None))) = []
  /\ cache (final (main 0 faults_on_save ui_progress (mkworld [rec_T1; rec_T2] None)))
     = Some (0, [row_T1; row_T2], [])
  /\ sheet (final (main 10 no_faults ui_progress
                     (final (main 0 faults_on_save ui_progress
                               (mkworld [rec_T1; rec_T2] None)))))
     = map written (update_progress "T1" 75 (apply_filters ui_progress [row_T1; row_T2])).
Proof.
  destruct (failed_write_empties_sheet 0 10 faults_on_save ui_progress
              (mkworld [rec_T1; rec_T2] None) [row_T1; row_T2]
              (mkworld [rec_T1; rec_T2] (Some (0, [row_T1; row_T2], []))) []
              eq_refl eq_refl ltac:(discriminate) eq_refl eq_refl eq_refl eq_refl
              eq_refl eq_refl)
    as (Hsheet & Hcache & Hretry & _).
  exact (conj Hsheet (conj Hcache (Hretry eq_refl eq_refl))).
Defined.

(** X11: an update writes the frame of the cache, not the sheet.  While
    the cache entry is alive, a successful "Update Progress" on a view with
    a number in every progress cell leaves in the sheet the updated view of
    the cached frame, whatever the sheet held before the run: rows that
    reached the sheet after the entry was stored are overwritten. *)
Theorem update_overwrites_from_cache :
  forall now ui sh c df,
    refresh ui = false ->
    cached_read now (mkworld sh c) = Some df ->
    df <> [] ->
    may_update_progress (role ui) && update_progress_clicked ui = true ->
    numeric (apply_filters ui df) = true ->
    sheet (final (main now no_faults ui (mkworld sh c)))
    = map written
          (update_progress (selected_task ui) (new_progress ui) (apply_filters ui df)).
Proof.
  intros now ui sh c df Hr Hread Hne Hp Hnum.
  destruct (load_data_hit now no_faults _ df Hread) as [es Hl].
  exact (proj1 (update_progress_saves_view now ui _ df _ es Hr Hl Hne Hp Hnum)).
Qed.

Lemma update_overwrites_from_cache_witness :
  sheet (final (main 10 no_faults ui_progress
                  (mkworld [rec_T1; rec_T2; rec_T1_again] (Some (0, [row_T1; row_T2], [])))))
  = map written
        (update_progress "T1" 75 (apply_filters ui_progress [row_T1; row_T2])).
Proof.
  apply (update_overwrites_from_cache 10 ui_progress [rec_T1; rec_T2; rec_T1_again]
           (Some (0, [row_T1; row_T2], [])) [row_T1; row_T2]).
  - reflexivity.
  - reflexivity.
  - discriminate.
  - reflexivity.
  - reflexivity.
Defined.

Lemma numeric_reloaded df : numeric (map reloaded df) = numeric df.
Proof.
  unfold numeric. induction df as [|r df IH]; [reflexivity|].
  cbn [map forallb]. rewrite IH. reflexivity.
Qed.

(** X12: one cycle of save and load brings the sheet to a fixed point.
    For a frame that satisfies the invariant of the script and has a
    number in every progress cell, [save_data] succeeds, loading what it
    wrote and saving the loaded frame writes the same sheet again, and
    loading that returns the same frame again. *)
Theorem save_load_fixed_point :
  forall (df : frame) (sh : list record),
    consistent df ->
    numeric df = true ->
    fst (fst (save_data no_faults df sh)) = true
    /\ exists df1,
      load_data_body no_faults (snd (fst (save_data no_faults df sh))) = (df1, [])
      /\ fst (fst (save_data no_faults df1 (snd (fst (save_data no_faults df sh))))) = true
      /\ snd (fst (save_data no_faults df1 (snd (fst (save_data no_faults df sh)))))
         = snd (fst (save_data no_faults df sh))
      /\ load_data_body no_faults
           (snd (fst (save_data no_faults df1 (snd (fst (save_data no_faults df sh))))))
         = (df1, []).
Proof.
  intros df sh H Hnum. rewrite (save_data_numeric df sh Hnum). cbn [fst snd].
  split; [reflexivity|]. exists (map reloaded df).
  assert (Hnum1 : numeric (map reloaded df) = true)
    by (rewrite numeric_reloaded; exact Hnum).
  rewrite (save_data_numeric _ (map written df) Hnum1). cbn [fst snd].
  assert (E : map written (map reloaded df) = map written df).
  { rewrite map_map. apply map_ext. intros r. reflexivity. }
  rewrite E, load_data_body_clean, (clean_written df H). repeat split.
Qed.

Lemma save_load_fixed_point_witness :
  fst (fst (save_data no_faults [row_T1; row_T2] [])) = true
  /\ exists df1,
    load_data_body no_faults (snd (fst (save_data no_faults [row_T1; row_T2] []))) = (df1, [])
    /\ fst (fst (save_data no_faults df1
                   (snd (fst (save_data no_faults [row_T1; row_T2] []))))) = true
    /\ snd (fst (save_data no_faults df1
                   (snd (fst (save_data no_faults [row_T1; row_T2] [])))))
       = snd (fst (save_data no_faults [row_T1; row_T2] []))
    /\ load_data_body no_faults
         (snd (fst (save_data no_faults df1
                      (snd (fst (save_data no_faults [row_T1; row_T2] []))))))
       = (df1, []).
Proof.
  apply (save_load_fixed_point [row_T1; row_T2] []).
  - repeat constructor; simpl; eexists _, _; split; reflexivity.
  - reflexivity.
Defined.

Lemma rstrip_chars_snoc c l : rstrip_chars c (l ++ [c]) = rstrip_chars c l.
Proof.
  unfold rstrip_chars. rewrite rev_app_distr. simpl.
  rewrite Ascii.eqb_refl. reflexivity.
Qed.

(** X13: [load_data] strips every trailing percent sign before it reads
    the number, so a progress cell reads the same with one more percent
    sign at its end: a cell without the sign, like [50], and a cell with
    two, like [50%%], load as the cell [50%] does. *)
Theorem progress_cell_percent_signs :
  forall (c : record) (s : string),
    option_map PROGRESS_NUM (clean_record (set_PROGRESS (s ++ "%")%string c))
    = option_map PROGRESS_NUM (clean_record (set_PROGRESS s c)).
Proof.
  intros c s. unfold clean_record. cbn [PROGRESS set_PROGRESS].
  assert (E : rstrip "%"%char (s ++ "%")%string = rstrip "%"%char s).
  { unfold rstrip. rewrite chars_append. change (chars "%") with ["%"%char].
    rewrite rstrip_chars_snoc. reflexivity. }
  rewrite E.
  destruct (float_of_str (rstrip "%"%char s)); reflexivity.
Qed.

(** ** Groups: distinct keys, sorted keys, sums over groups *)

Import Charts.

Section Groups.

Lemma unique_In (col seen : list string) (x : string) :
  In x (unique seen col) <-> In x col /\ existsb (String.eqb x) seen = false.
Proof.
  revert seen. induction col as [|y col IH]; intros seen; simpl.
  - split; [contradiction|intros [[] _]].
  - destruct (existsb (String.eqb y) seen) eqn:Hy.
    + rewrite IH. split.
      * intros [H1 H2]. split; [right; exact H1|exact H2].
      * intros [[->|H1] H2]; [congruence|split; assumption].
    + simpl. rewrite IH. simpl. split.
      * intros [->|[H1 H2]]; [split; [left; reflexivity|exact Hy]|].
        apply orb_false_elim in H2 as [_ H2]. split; [right; exact H1|exact H2].
      * intros [[->|H1] H2]; [left; reflexivity|].
        destruct (String.eqb_spec x y) as [->|Hne]; [left; reflexivity|].
        right. split; [exact H1|]. rewrite H2. reflexivity.
Qed.

Lemma unique_NoDup (col seen : list string) : NoDup (unique seen col).
Proof.
  revert seen. induction col as [|y col IH]; intros seen; simpl; [constructor|].
  destruct (existsb (String.eqb y) seen); [apply IH|].
  constructor; [|apply IH].
  rewrite unique_In. intros [_ H]. simpl in H. rewrite String.eqb_refl in H.
  discriminate H.
Qed.

Lemma unique_nil_In (col : list string) (x : string) :
  In x (unique [] col) <-> In x col.
Proof. rewrite unique_In. simpl. tauto. Qed.

Lemma insert_sorted_perm x l : Permutation (insert_sorted x l) (x :: l).
Proof.
  induction l as [|y l IH]; simpl; [reflexivity|].
  destruct (String.leb x y); [reflexivity|].
  rewrite IH. apply perm_swap.
Qed.

Lemma sort_keys_perm l : Permutation (sort_keys l) l.
Proof.
  unfold sort_keys. induction l as [|x l IH]; simpl; [reflexivity|].
  rewrite insert_sorted_perm. constructor. exact IH.
Qed.

Lemma insert_sorted_ascending x l : ascending l -> ascending (insert_sorted x l).
Proof.
  unfold ascending. intros H. induction H as [|y l Hl IH Hhd]; simpl.
  - repeat constructor.
  - destruct (String.leb x y) eqn:E.
    + constructor; [constructor; assumption|constructor; exact E].
    + constructor; [exact IH|].
      destruct (String.leb_total x y) as [H|H]; [congruence|].
      destruct l as [|z l]; simpl; [constructor; exact H|].
      destruct (String.leb x z); constructor; [exact H|].
      inversion Hhd; assumption.
Qed.

Lemma sort_keys_ascending l : ascending (sort_keys l).
Proof.
  unfold sort_keys. induction l as [|x l IH]; simpl; [constructor|].
  apply insert_sorted_ascending, IH.
Qed.

Context {A : Type}.

Lemma total_perm (f : A -> Z) (l l' : list A) :
  Permutation l l' -> total f l = total f l'.
Proof. unfold total. induction 1; simpl; lia. Qed.

Lemma total_add {B} (a b : B -> Z) (K : list B) :
  total (fun k => a k + b k) K = total a K + total b K.
Proof. unfold total. induction K; simpl; lia. Qed.

Lemma total_ext_in {B} (a b : B -> Z) (K : list B) :
  (forall k, In k K -> a k = b k) -> total a K = total b K.
Proof.
  unfold total. induction K as [|k K IH]; intros H; simpl; [reflexivity|].
  rewrite (H k (or_introl eq_refl)), IH; [reflexivity|].
  intros k' Hk'. apply H. right. exact Hk'.
Qed.

Lemma total_indicator (x : string) (v : Z) (K : list string) :
  NoDup K -> In x K ->
  total (fun k => if String.eqb x k then v else 0) K = v.
Proof.
  unfold total. induction 1 as [|k K Hk Hnd IH]; intros Hin; [contradiction|].
  simpl. destruct (String.eqb_spec x k) as [->|Hne].
  - assert (E : fold_right (fun y acc => (if String.eqb k y then v else 0) + acc) 0 K = 0).
    { clear IH Hin Hnd. induction K as [|y K IH]; simpl; [reflexivity|].
      destruct (String.eqb_spec k y) as [->|_]; [exfalso; apply Hk; left; reflexivity|].
      rewrite IH; [reflexivity|]. intros H. apply Hk. right. exact H. }
    rewrite E. lia.
  - destruct Hin as [->|Hin]; [congruence|]. rewrite (IH Hin). lia.
Qed.

(** Summing group by group, over distinct keys that cover the list, is
    summing over the list. *)
Lemma total_by_groups (key : A -> string) (f : A -> Z) (K : list string) (l : list A) :
  NoDup K ->
  (forall x, In x l -> In (key x) K) ->
  total (fun k => total f (filter (fun x => String.eqb (key x) k) l)) K = total f l.
Proof.
  intros Hnd. induction l as [|x l IH]; intros Hcov.
  - clear Hnd Hcov. unfold total.
    induction K as [|k K IHK]; simpl; [reflexivity|exact IHK].
  - rewrite (total_ext_in _
               (fun k => (if String.eqb (key x) k then f x else 0)
                         + total f (filter (fun y => String.eqb (key y) k) l))).
    + rewrite total_add, (total_indicator _ _ _ Hnd (Hcov x (or_introl eq_refl))).
      rewrite IH; [reflexivity|]. intros y Hy. apply Hcov. right. exact Hy.
    + intros k _. simpl. destruct (String.eqb (key x) k); reflexivity.
Qed.

Lemma total_by_unique (key : A -> string) (f : A -> Z) (l : list A) :
  total (fun k => total f (filter (fun x => String.eqb (key x) k) l))
        (unique [] (map key l))
  = total f l.
Proof.
  apply total_by_groups; [apply unique_NoDup|].
  intros x Hx. apply unique_nil_In, in_map, Hx.
Qed.

Lemma sum_Z_total (f : A -> Z) (l : list A) : sum_Z (map f l) = wrap64 (total f l).
Proof.
  unfold sum_Z, total.
  assert (H : forall a, fold_left Z.add (map f l) a
                        = a + fold_right (fun x acc => f x + acc) 0 l).
  { induction l as [|x l IH]; intros a; simpl; [lia|]. rewrite IH. lia. }
  rewrite H. f_equal.
Qed.

Lemma wrap64_add_r (a b : Z) : wrap64 (a + wrap64 b) = wrap64 (a + b).
Proof.
  unfold wrap64. f_equal.
  replace (a + ((b + 2 ^ 63) mod 2 ^ 64 - 2 ^ 63) + 2 ^ 63)
    with (a + (b + 2 ^ 63) mod 2 ^ 64) by lia.
  rewrite Z.add_mod_idemp_r by lia. f_equal. lia.
Qed.

Lemma wrap64_add_l (a b : Z) : wrap64 (wrap64 a + b) = wrap64 (a + b).
Proof. rewrite Z.add_comm, wrap64_add_r. f_equal. lia. Qed.

Lemma wrap64_small (z : Z) : - 2 ^ 63 <= z < 2 ^ 63 -> wrap64 z = z.
Proof. intros H. unfold wrap64. rewrite Z.mod_small; lia. Qed.

(** Adding wrapped terms and adding the terms agree after a last wrap. *)
Lemma wrap64_total {B} (g : B -> Z) (K : list B) :
  wrap64 (total (fun k => wrap64 (g k)) K) = wrap64 (total g K).
Proof.
  unfold total. induction K as [|k K IH]; [reflexivity|].
  cbn [fold_right]. rewrite wrap64_add_l, <- wrap64_add_r, IH, wrap64_add_r.
  reflexivity.
Qed.

Lemma total_filter_bounds (f : A -> Z) (p : A -> bool) (l : list A) :
  Forall (fun x => 0 <= f x) l -> 0 <= total f (filter p l) <= total f l.
Proof.
  unfold total. induction 1 as [|x l Hx Hl IH]; [simpl; lia|].
  cbn [filter]. destruct (p x); cbn [fold_right]; lia.
Qed.

Lemma length_total (l : list A) : Z.of_nat (List.length l) = total (fun _ => 1) l.
Proof.
  unfold total. induction l as [|x l IH]; [reflexivity|].
  cbn [List.length fold_right]. rewrite Nat2Z.inj_succ, IH. lia.
Qed.

End Groups.

Lemma of_project_filter p df :
  of_project p df = filter (fun r => String.eqb (PROJECT (cells r)) p) df.
Proof. apply filter_project_filter. Qed.

(** ** The figures of the dashboard *)

Lemma nanmean_without_numbers (values : list pyfloat) :
  existsb present values = false -> nanmean values = ENan.
Proof.
  intros H. unfold nanmean.
  assert (E : count_true (map isna values) = List.length values).
  { unfold count_true. induction values as [|x values IH]; [reflexivity|].
    cbn [existsb] in H. apply orb_false_elim in H as [Hx H].
    unfold present in Hx. apply negb_false_iff in Hx.
    cbn [map filter]. rewrite Hx. cbn [List.length]. rewrite (IH H). reflexivity. }
  rewrite E, Nat.sub_diag. reflexivity.
Qed.

(** X14: the value of a progress metric when no progress cell of the
    project holds a number: 0 for a project without rows in the view, by
    the guard of the metric, and NaN for a project whose rows all have a
    missing progress. *)
Theorem progress_metric_without_numbers :
  forall (df : frame) (project : string),
    existsb present (col_PROGRESS_NUM (of_project project df)) = false ->
    metric_progress (of_project project df)
    = match of_project project df with
      | [] => EFin 0
      | _ => ENan
      end.
Proof.
  intros df project H. unfold metric_progress.
  destruct (of_project project df) as [|r p] eqn:E; [reflexivity|].
  cbn [List.length Nat.ltb Nat.leb]. apply nanmean_without_numbers, H.
Qed.

Lemma progress_metric_without_numbers_witness :
  metric_progress (of_project "Villa 5" [row_T4_nan; row_T2]) = ENan
  /\ metric_progress (of_project "Villa 7" [row_T4_nan; row_T2]) = EFin 0.
Proof.
  split.
  - apply (progress_metric_without_numbers [row_T4_nan; row_T2] "Villa 5"). reflexivity.
  - apply (progress_metric_without_numbers [row_T4_nan; row_T2] "Villa 7"). reflexivity.
Defined.

Lemma chart_keys df :
  let keys := sort_keys (unique [] (col_PROJECT df)) in
  ascending keys /\ NoDup keys /\ (forall p, In p keys <-> In p (col_PROJECT df)).
Proof.
  cbv zeta. split; [apply sort_keys_ascending|]. split.
  - apply (Permutation_NoDup (Permutation_sym (sort_keys_perm _))), unique_NoDup.
  - intros p. split; intros H.
    + apply unique_nil_In. exact (Permutation_in _ (sort_keys_perm _) H).
    + apply unique_nil_In in H.
      exact (Permutation_in _ (Permutation_sym (sort_keys_perm _)) H).
Qed.

(** X15: the progress chart has one bar for each project that has a row
    in the view and no other bar, the projects in ascending order. *)
Theorem progress_chart_bars :
  forall (df : frame),
    ascending (map fst (create_progress_chart df))
    /\ NoDup (map fst (create_progress_chart df))
    /\ (forall p, In p (map fst (create_progress_chart df)) <-> In p (col_PROJECT df)).
Proof.
  intros df. unfold create_progress_chart. rewrite map_map. cbn [fst].
  rewrite map_id. exact (chart_keys df).
Qed.

Lemma total_map {A B} (g : B -> Z) (h : A -> B) (l : list A) :
  total g (map h l) = total (fun x => g (h x)) l.
Proof. unfold total. induction l; simpl; congruence. Qed.

(** The bars of one column of the budget chart and the sum of the column
    over the view, before the wrap of either. *)
Lemma budget_bars (f : row -> Z) (df : frame) :
  total (fun p => total f (of_project p df)) (sort_keys (unique [] (col_PROJECT df)))
  = total f df.
Proof.
  rewrite (total_perm _ _ _ (sort_keys_perm _)).
  rewrite <- (total_by_unique (fun r => PROJECT (cells r)) f df).
  apply total_ext_in. intros p _. rewrite of_project_filter. reflexivity.
Qed.

(** X16: the budget chart and the "Total Budget" metric.  Each bar is the
    [int64] sum of its project, the metric the [int64] sum of the view:
    the budget bars add up to the total budget of the metric, and the
    spent bars to its "spent" figure, up to the wrap-around of 64-bit
    integers. *)
Theorem budget_chart_totals :
  forall (df : frame),
    wrap64 (total (fun e => snd (fst e)) (create_budget_chart df)) = sum_Z (col_BUDGET df)
    /\ wrap64 (total snd (create_budget_chart df)) = sum_Z (col_ACTUAL_COST df).
Proof.
  intros df. unfold create_budget_chart.
  assert (H : forall f : row -> Z,
             wrap64 (total (fun p => sum_Z (column f (of_project p df)))
                           (sort_keys (unique [] (col_PROJECT df))))
             = sum_Z (column f df)).
  { intros f. unfold column. rewrite (sum_Z_total f df), <- (budget_bars f df).
    rewrite <- (wrap64_total (fun p => total f (of_project p df))).
    f_equal. apply total_ext_in. intros p _. apply sum_Z_total. }
  split; rewrite total_map; cbn [fst snd]; apply H.
Qed.

(** X24: when no amount of the view is negative and the amounts of the
    view add up to less than [2 ^ 63], nothing wraps: the budget bars add
    up exactly to the total budget of the metric, which is the sum of the
    budgets of the view, and the spent bars to the sum of the costs. *)
Theorem budget_chart_exact_totals :
  forall (df : frame),
    Forall (fun r => 0 <= BUDGET (cells r)) df ->
    Forall (fun r => 0 <= ACTUAL_COST (cells r)) df ->
    total (fun r => BUDGET (cells r)) df < 2 ^ 63 ->
    total (fun r => ACTUAL_COST (cells r)) df < 2 ^ 63 ->
    total (fun e => snd (fst e)) (create_budget_chart df) = sum_Z (col_BUDGET df)
    /\ sum_Z (col_BUDGET df) = total (fun r => BUDGET (cells r)) df
    /\ total snd (create_budget_chart df) = sum_Z (col_ACTUAL_COST df)
    /\ sum_Z (col_ACTUAL_COST df) = total (fun r => ACTUAL_COST (cells r)) df.
Proof.
  intros df Hb Hc Tb Tc. unfold create_budget_chart.
  assert (H : forall f : row -> Z,
             Forall (fun r => 0 <= f r) df -> total f df < 2 ^ 63 ->
             total (fun p => sum_Z (column f (of_project p df)))
                   (sort_keys (unique [] (col_PROJECT df)))
             = sum_Z (column f df)
             /\ sum_Z (column f df) = total f df).
  { intros f Hf Tf.
    pose proof (total_filter_bounds f (fun _ => true) df Hf) as Hall.
    assert (E : sum_Z (column f df) = total f df).
    { unfold column. rewrite sum_Z_total. apply wrap64_small. lia. }
    split; [|exact E]. rewrite E, <- (budget_bars f df).
    apply total_ext_in. intros p _. unfold column. rewrite sum_Z_total.
    apply wrap64_small. rewrite of_project_filter.
    pose proof (total_filter_bounds f (fun r => String.eqb (PROJECT (cells r)) p) df Hf).
    lia. }
  destruct (H _ Hb Tb) as [B1 B2]. destruct (H _ Hc Tc) as [C1 C2].
  rewrite !total_map. cbn [fst snd]. auto.
Qed.

Lemma budget_chart_exact_totals_witness :
  total (fun e => snd (fst e)) (create_budget_chart [row_T1; row_T2; row_T1_again])
  = sum_Z (col_BUDGET [row_T1; row_T2; row_T1_again])
  /\ sum_Z (col_BUDGET [row_T1; row_T2; row_T1_again]) = 4500
  /\ total snd (create_budget_chart [row_T1; row_T2; row_T1_again])
     = sum_Z (col_ACTUAL_COST [row_T1; row_T2; row_T1_again])
  /\ sum_Z (col_ACTUAL_COST [row_T1; row_T2; row_T1_again]) = 200.
Proof.
  apply (budget_chart_exact_totals [row_T1; row_T2; row_T1_again]).
  - repeat constructor; discriminate.
  - repeat constructor; discriminate.
  - reflexivity.
  - reflexivity.
Defined.

Lemma total_flat_map {A B} (f : B -> Z) (g : A -> list B) (l : list A) :
  total f (flat_map g l) = total (fun x => total f (g x)) l.
Proof.
  unfold total. induction l as [|x l IH]; simpl; [reflexivity|].
  rewrite fold_right_app, <- IH.
  generalize (fold_right (fun y acc => f y + acc) 0 (flat_map g l)). intros z.
  induction (g x) as [|y ys IHy]; simpl; lia.
Qed.

Lemma count_status_total s (p : frame) :
  Z.of_nat (count_status s p)
  = total (fun _ => 1) (filter (fun r => String.eqb (STATUS (cells r)) s) p).
Proof.
  unfold count_status, col_STATUS. rewrite eq_mask_column, select_map.
  apply length_total.
Qed.

(** Over the statuses of a frame, the counts add up to its length. *)
Lemma status_counts_of_group (p : frame) :
  total (fun s => Z.of_nat (count_status s p)) (sort_keys (unique [] (col_STATUS p)))
  = Z.of_nat (List.length p).
Proof.
  rewrite (total_perm _ _ _ (sort_keys_perm _)), length_total.
  rewrite <- (total_by_unique (fun r => STATUS (cells r)) (fun _ => 1) p).
  apply total_ext_in. intros s _. apply count_status_total.
Qed.

Lemma status_counts_total df :
  total (fun t => Z.of_nat (snd t)) (status_counts df) = Z.of_nat (List.length df).
Proof.
  unfold status_counts. rewrite total_flat_map.
  rewrite (total_ext_in _ (fun p => Z.of_nat (List.length (of_project p df)))).
  - rewrite (total_perm _ _ _ (sort_keys_perm _)), (length_total df).
    rewrite <- (total_by_unique (fun r => PROJECT (cells r)) (fun _ => 1) df).
    apply total_ext_in. intros p _. rewrite of_project_filter. apply length_total.
  - intros p _. rewrite total_map. cbn [snd]. apply status_counts_of_group.
Qed.

Lemma status_counts_In df p s n :
  In (p, s, n) (status_counts df) ->
  In p (col_PROJECT df)
  /\ n = count_status s (of_project p df)
  /\ (1 <= n)%nat.
Proof.
  unfold status_counts. rewrite in_flat_map. intros (q & Hq & Hin).
  apply in_map_iff in Hin as (s' & E & Hs). inversion E; subst.
  split; [apply (chart_keys df), Hq|]. split; [reflexivity|].
  pose proof (Permutation_in _ (sort_keys_perm _) Hs) as Hs1.
  apply (proj1 (unique_nil_In _ _)) in Hs1.
  unfold col_STATUS, column in Hs1. apply in_map_iff in Hs1 as (r & Hr & Hin).
  unfold count_status, col_STATUS. rewrite eq_mask_column, select_map.
  assert (H : In r (filter (fun r => String.eqb (STATUS (cells r)) s) (of_project p df))).
  { apply filter_In. split; [exact Hin|]. rewrite Hr. apply String.eqb_refl. }
  destruct (filter _ (of_project p df)); [contradiction|simpl; lia].
Qed.

(** X17: the status chart counts every row of the view once: the bars of
    all its traces add up to the number of rows.  A bar stands for a
    project and a status that occur together in the view, and its height
    is the number of rows of that project with that status, at least 1. *)
Theorem status_chart_counts :
  forall (df : frame),
    total (fun trace => total (fun b => Z.of_nat (snd b)) (snd trace))
          (create_status_chart df)
    = Z.of_nat (List.length df)
    /\ (forall p trace s n,
          In (p, trace) (create_status_chart df) ->
          In (s, n) trace ->
          In p (col_PROJECT df)
          /\ n = count_status s (of_project p df)
          /\ (1 <= n)%nat).
Proof.
  intros df. unfold create_status_chart. cbv zeta. split.
  - rewrite total_map. cbn [snd].
    rewrite <- (status_counts_total df).
    rewrite <- (total_by_unique (fun t => fst (fst t)) (fun t => Z.of_nat (snd t))
                                (status_counts df)).
    apply total_ext_in. intros p _.
    rewrite total_map, eq_mask_column, select_map. reflexivity.
  - intros p trace s n Hin Hs.
    apply in_map_iff in Hin as (q & E & _). inversion E; subst. clear E.
    apply in_map_iff in Hs as ([[p' s'] n'] & E & Hin). inversion E; subst. clear E.
    rewrite eq_mask_column, select_map in Hin. apply filter_In in Hin as [Hin Hp].
    cbn [fst] in Hp. apply String.eqb_eq in Hp. subst p'.
    apply status_counts_In, Hin.
Qed.

(** ** The timeline *)

Lemma insert_by_start_perm r l : Permutation (insert_by_start r l) (r :: l).
Proof.
  induction l as [|x l IH]; simpl; [reflexivity|].
  destruct (start_leb r x); [reflexivity|].
  rewrite IH. apply perm_swap.
Qed.

Lemma sort_by_start_perm l : Permutation (sort_by_start l) l.
Proof.
  unfold sort_by_start. induction l as [|x l IH]; simpl; [reflexivity|].
  rewrite insert_by_start_perm. constructor. exact IH.
Qed.

Lemma bars_of_In b rows :
  In b (bars_of rows)
  <-> exists r s e, In r rows /\ START r = Some s /\ END r = Some e /\ b = bar_of r s e.
Proof.
  unfold bars_of. rewrite in_flat_map. split.
  - intros (r & Hr & Hb). destruct (START r) as [s|] eqn:Hs; [|contradiction].
    destruct (END r) as [e|] eqn:He; [|contradiction].
    destruct Hb as [<-|[]]. exists r, s, e. auto.
  - intros (r & s & e & Hr & Hs & He & ->). exists r. split; [exact Hr|].
    rewrite Hs, He. left. reflexivity.
Qed.

Lemma bars_of_length rows :
  Z.of_nat (List.length (bars_of rows))
  = total (fun r => if has_dates r then 1 else 0) rows.
Proof.
  unfold bars_of, total, has_dates. induction rows as [|r rows IH]; [reflexivity|].
  cbn [flat_map fold_right]. rewrite length_app, Nat2Z.inj_add, IH.
  destruct (START r); [destruct (END r)|]; simpl; lia.
Qed.

(** X18: the timeline.  There is no figure exactly when no row of the
    view has a start date, an empty view included.  Otherwise the figure
    has one bar for each row that has both a start and an end date, and
    for no other row, grouped by project; its height is 30 per bar and at
    least 400.  So a view in which some row has a start date and no row
    has both dates gives a figure without bars, not the notice. *)
Theorem timeline_chart_bars :
  forall (sort_values : frame -> frame) (df : frame),
    (forall l, Permutation (sort_values l) l) ->
    (create_timeline_chart sort_values df = None <-> no_start df = true)
    /\ (forall fig,
          create_timeline_chart sort_values df = Some fig ->
          List.length (bars fig) = List.length (filter has_dates df)
          /\ height fig = Z.max 400 (Z.of_nat (List.length (filter has_dates df)) * 30)
          /\ (forall b,
                In b (bars fig)
                <-> exists r s e,
                    In r df /\ START r = Some s /\ END r = Some e /\ b = bar_of r s e)).
Proof.
  intros sort_values df Hperm.
  assert (E : create_timeline_chart sort_values df
              = if no_start df then None
                else Some (mkfigure
                             (flat_map
                                (fun project =>
                                   bars_of (sort_values
                                              (of_project project (filter has_dates df))))
                                (unique [] (col_PROJECT (filter has_dates df))))
                             (Z.max 400 (Z.of_nat (List.length (filter has_dates df)) * 30)))).
  { unfold create_timeline_chart. rewrite select_map. destruct df; reflexivity. }
  rewrite E. clear E.
  destruct (no_start df) eqn:Hno; [split; [split; reflexivity|discriminate]|].
  split; [split; discriminate|].
  intros fig H. injection H as <-. cbn [bars height].
  set (V := filter has_dates df).
  split; [|split; [reflexivity|]].
  - apply Nat2Z.inj. rewrite (length_total V).
    rewrite (length_total (flat_map _ _)), total_flat_map.
    rewrite (total_ext_in _
               (fun p => total (fun r => if has_dates r then 1 else 0)
                               (filter (fun r => String.eqb (PROJECT (cells r)) p) V))).
    + unfold col_PROJECT, column. rewrite total_by_unique.
      apply total_ext_in. intros r Hr. unfold V in Hr.
      apply filter_In in Hr as [_ Hr]. rewrite Hr. reflexivity.
    + intros p _. rewrite <- length_total, bars_of_length.
      rewrite (total_perm _ _ _ (Hperm _)), of_project_filter. reflexivity.
  - intros b. rewrite in_flat_map. split.
    + intros (p & _ & Hb). apply bars_of_In in Hb as (r & s & e & Hr & Hs & He & ->).
      apply (Permutation_in _ (Hperm _)) in Hr.
      rewrite of_project_filter in Hr. apply filter_In in Hr as [Hr _].
      unfold V in Hr. apply filter_In in Hr as [Hr _]. exists r, s, e. auto.
    + intros (r & s & e & Hr & Hs & He & ->).
      assert (HV : In r V).
      { apply filter_In. split; [exact Hr|]. unfold has_dates. rewrite Hs, He. reflexivity. }
      exists (PROJECT (cells r)). split.
      * apply unique_nil_In. unfold col_PROJECT, column. apply in_map_iff.
        exists r. split; [reflexivity|exact HV].
      * apply bars_of_In. exists r, s, e. repeat split; try assumption.
        apply (Permutation_in _ (Permutation_sym (Hperm _))).
        rewrite of_project_filter. apply filter_In. split; [exact HV|].
        apply String.eqb_refl.
Qed.

Lemma timeline_chart_bars_witness :
  (create_timeline_chart sort_by_start [row_T1; row_T2] = None
   <-> no_start [row_T1; row_T2] = true)
  /\ (forall fig,
        create_timeline_chart sort_by_start [row_T1; row_T2] = Some fig ->
        List.length (bars fig) = List.length (filter has_dates [row_T1; row_T2])
        /\ height fig
           = Z.max 400 (Z.of_nat (List.length (filter has_dates [row_T1; row_T2])) * 30)
        /\ (forall b,
              In b (bars fig)
              <-> exists r s e,
                  In r [row_T1; row_T2] /\ START r = Some s /\ END r = Some e
                  /\ b = bar_of r s e)).
Proof.
  apply (timeline_chart_bars sort_by_start [row_T1; row_T2]).
  exact sort_by_start_perm.
Defined.

(** ** Dates *)

Section DateFacts.

Lemma in_range_code lo hi a :
  in_range lo hi a = true -> Z.of_nat lo <= Z.of_nat (code a) <= Z.of_nat hi.
Proof.
  unfold in_range. intros H. apply andb_prop in H as [H1 H2].
  apply Nat.leb_le in H1, H2. generalize dependent (code a). intros n H1 H2. lia.
Qed.

Lemma is_digit_code a : is_digit a = true -> 48 <= Z.of_nat (code a) <= 57.
Proof. apply (in_range_code 48 57). Qed.

Lemma eqb_code a c : Ascii.eqb a c = true -> Z.of_nat (code a) = Z.of_nat (code c).
Proof. intros H. apply Ascii.eqb_eq in H. subst a. reflexivity. Qed.

Lemma parse_day_bounds seg d : parse_day seg = Some d -> 1 <= d <= 39.
Proof.
  unfold parse_day. destruct seg as [|a [|b [|c seg]]]; try discriminate.
  - destruct (in_range 49 57 a) eqn:Ha; [|discriminate].
    intros H. assert (Hval : d = digit_val a) by congruence. clear H.
    apply in_range_code in Ha. unfold digit_val in Hval. lia.
  - destruct ((Ascii.eqb a "3"%char && in_range 48 49 b)
              || (in_range 49 50 a && is_digit b)
              || (Ascii.eqb a "0"%char && in_range 49 57 b)) eqn:E.
    + intros H. assert (Hval : d = 10 * digit_val a + digit_val b) by congruence.
      clear H. unfold digit_val in Hval.
      apply orb_prop in E as [E|E]; [apply orb_prop in E as [E|E]|];
        apply andb_prop in E as [Ea Eb].
      * apply eqb_code in Ea. change (Z.of_nat (code "3"%char)) with 51 in Ea.
        apply in_range_code in Eb. lia.
      * apply in_range_code in Ea. apply is_digit_code in Eb. lia.
      * apply eqb_code in Ea. change (Z.of_nat (code "0"%char)) with 48 in Ea.
        apply in_range_code in Eb. lia.
    + destruct (Ascii.eqb a " "%char && in_range 49 57 b) eqn:E2; [|discriminate].
      intros H. assert (Hval : d = digit_val b) by congruence. clear H.
      apply andb_prop in E2 as [_ Eb].
      apply in_range_code in Eb. unfold digit_val in Hval. lia.
Qed.

Lemma parse_month_bounds seg m : parse_month seg = Some m -> 1 <= m <= 12.
Proof.
  unfold parse_month. destruct seg as [|a [|b [|c seg]]]; try discriminate.
  - destruct (in_range 49 57 a) eqn:Ha; [|discriminate].
    intros H. assert (Hval : m = digit_val a) by congruence. clear H.
    apply in_range_code in Ha. unfold digit_val in Hval. lia.
  - destruct ((Ascii.eqb a "1"%char && in_range 48 50 b)
              || (Ascii.eqb a "0"%char && in_range 49 57 b)) eqn:E; [|discriminate].
    intros H. assert (Hval : m = 10 * digit_val a + digit_val b) by congruence.
    clear H. unfold digit_val in Hval.
    apply orb_prop in E as [E|E]; apply andb_prop in E as [Ea Eb];
      apply eqb_code in Ea; apply in_range_code in Eb.
    + change (Z.of_nat (code "1"%char)) with 49 in Ea. lia.
    + change (Z.of_nat (code "0"%char)) with 48 in Ea. lia.
Qed.

Lemma parse_year_bounds seg y : parse_year seg = Some y -> 0 <= y <= 9999.
Proof.
  unfold parse_year.
  destruct seg as [|a [|b [|c [|d [|e seg]]]]]; try discriminate.
  destruct (forallb is_digit [a; b; c; d]) eqn:E; [|discriminate].
  intros H. assert (Hval : y = digits_value [a; b; c; d]) by congruence. clear H.
  cbn [forallb] in E.
  repeat (apply andb_prop in E as [?Ha E]).
  repeat match goal with
         | H : is_digit _ = true |- _ => apply is_digit_code in H
         end.
  unfold digits_value, digit_val in Hval. cbn [fold_left] in Hval. lia.
Qed.

Lemma days_in_month_bounds y m : 28 <= days_in_month y m <= 31.
Proof.
  unfold days_in_month.
  destruct (m =? 2); [destruct (is_leap y); lia|].
  destruct ((m =? 4) || (m =? 6) || (m =? 9) || (m =? 11)); lia.
Qed.

End DateFacts.

(** X19: a date cell either becomes a missing date or a day of the
    calendar: the month is between 1 and 12, the day between 1 and the
    length of that month in that year (29 February only in leap years),
    the year between 1 and 9999. *)
Theorem to_datetime_valid :
  forall (s : string) (d : date), to_datetime s = Some d -> valid_date d.
Proof.
  intros s d. unfold to_datetime.
  destruct (split_on "/"%char (chars s)) as [|sd [|sm [|sy [|x segs]]]]; try discriminate.
  destruct (parse_day sd) as [dd|] eqn:Hd; [|discriminate].
  destruct (parse_month sm) as [mm|] eqn:Hm; [|discriminate].
  destruct (parse_year sy) as [yy|] eqn:Hy; [|discriminate].
  destruct ((1 <=? yy) && (dd <=? days_in_month yy mm)) eqn:E; [|discriminate].
  intros H. inversion H; subst. clear H.
  apply andb_prop in E as [E1 E2]. apply Z.leb_le in E1, E2.
  apply parse_day_bounds in Hd. apply parse_month_bounds in Hm.
  apply parse_year_bounds in Hy.
  unfold valid_date. cbn [year month day]. lia.
Qed.

Lemma to_datetime_valid_witness : valid_date (mkdate 2024 2 29).
Proof.
  apply (to_datetime_valid "29/02/2024" (mkdate 2024 2 29)). reflexivity.
Defined.

Section Strftime.

(** A check that holds on each number from [lo] on, [len] of them, holds
    on every number in that range. *)
Lemma checked_range (P : Z -> bool) (lo len : nat) :
  forallb P (map Z.of_nat (seq lo len)) = true ->
  forall d, Z.of_nat lo <= d < Z.of_nat (lo + len) -> P d = true.
Proof.
  intros H d Hd. rewrite forallb_forall in H. apply H.
  apply in_map_iff. exists (Z.to_nat d). split; [lia|].
  apply in_seq. lia.
Qed.

Lemma digit_char_facts n :
  0 <= n <= 9 ->
  is_digit (digit_char n) = true
  /\ digit_val (digit_char n) = n
  /\ Ascii.eqb (digit_char n) "/"%char = false.
Proof.
  intros H.
  pose proof (checked_range
                (fun k => is_digit (digit_char k)
                          && (digit_val (digit_char k) =? k)
                          && negb (Ascii.eqb (digit_char k) "/"%char))
                0 10 eq_refl n) as C.
  cbv beta in C. assert (Hn : Z.of_nat 0 <= n < Z.of_nat (0 + 10)) by lia.
  apply C in Hn. apply andb_prop in Hn as [Hn H3]. apply andb_prop in Hn as [H1 H2].
  apply Z.eqb_eq in H2. apply negb_true_iff in H3. auto.
Qed.

Lemma parse_day_two_digits d :
  1 <= d <= 31 -> parse_day (two_digits d) = Some d.
Proof.
  intros H.
  pose proof (checked_range
                (fun d => match parse_day (two_digits d) with
                          | Some v => v =? d
                          | None => false
                          end) 1 31 eq_refl d) as C.
  cbv beta in C. destruct (parse_day (two_digits d)) as [v|].
  - f_equal. apply Z.eqb_eq, C. lia.
  - discriminate C. lia.
Qed.

Lemma parse_month_two_digits m :
  1 <= m <= 12 -> parse_month (two_digits m) = Some m.
Proof.
  intros H.
  pose proof (checked_range
                (fun m => match parse_month (two_digits m) with
                          | Some v => v =? m
                          | None => false
                          end) 1 12 eq_refl m) as C.
  cbv beta in C. destruct (parse_month (two_digits m)) as [v|].
  - f_equal. apply Z.eqb_eq, C. lia.
  - discriminate C. lia.
Qed.

Lemma parse_year_four_digits y :
  1000 <= y <= 9999 -> parse_year (four_digits y) = Some y.
Proof.
  intros H. unfold parse_year, four_digits.
  assert (H3 : 0 <= y / 1000 <= 9) by (Z.div_mod_to_equations; lia).
  assert (H2 : 0 <= (y / 100) mod 10 <= 9) by (Z.div_mod_to_equations; lia).
  assert (H1 : 0 <= (y / 10) mod 10 <= 9) by (Z.div_mod_to_equations; lia).
  assert (H0 : 0 <= y mod 10 <= 9) by (Z.div_mod_to_equations; lia).
  destruct (digit_char_facts _ H3) as (D3 & V3 & _).
  destruct (digit_char_facts _ H2) as (D2 & V2 & _).
  destruct (digit_char_facts _ H1) as (D1 & V1 & _).
  destruct (digit_char_facts _ H0) as (D0 & V0 & _).
  cbn [forallb]. rewrite D3, D2, D1, D0. cbn [andb].
  unfold digits_value. cbn [fold_left]. rewrite V3, V2, V1, V0.
  f_equal. Z.div_mod_to_equations. lia.
Qed.

Lemma split_on_last c l :
  forallb (fun x => negb (Ascii.eqb x c)) l = true -> split_on c l = [l].
Proof.
  induction l as [|x l IH]; simpl; [reflexivity|].
  intros H. apply andb_prop in H as [Hx Hl]. apply negb_true_iff in Hx.
  rewrite Hx, (IH Hl). reflexivity.
Qed.

Lemma split_on_first c l rest :
  forallb (fun x => negb (Ascii.eqb x c)) l = true ->
  split_on c (l ++ c :: rest) = l :: split_on c rest.
Proof.
  induction l as [|x l IH]; simpl.
  - intros _. rewrite Ascii.eqb_refl. reflexivity.
  - intros H. apply andb_prop in H as [Hx Hl]. apply negb_true_iff in Hx.
    rewrite Hx, (IH Hl). reflexivity.
Qed.

Lemma two_digits_no_slash n :
  0 <= n <= 99 ->
  forallb (fun x => negb (Ascii.eqb x "/"%char)) (two_digits n) = true.
Proof.
  intros H. unfold two_digits. cbn [forallb].
  assert (H1 : 0 <= n / 10 <= 9) by (Z.div_mod_to_equations; lia).
  assert (H0 : 0 <= n mod 10 <= 9) by (Z.div_mod_to_equations; lia).
  rewrite (proj2 (proj2 (digit_char_facts _ H1))), (proj2 (proj2 (digit_char_facts _ H0))).
  reflexivity.
Qed.

Lemma four_digits_no_slash n :
  1000 <= n <= 9999 ->
  forallb (fun x => negb (Ascii.eqb x "/"%char)) (four_digits n) = true.
Proof.
  intros H. unfold four_digits. cbn [forallb].
  assert (H3 : 0 <= n / 1000 <= 9) by (Z.div_mod_to_equations; lia).
  assert (H2 : 0 <= (n / 100) mod 10 <= 9) by (Z.div_mod_to_equations; lia).
  assert (H1 : 0 <= (n / 10) mod 10 <= 9) by (Z.div_mod_to_equations; lia).
  assert (H0 : 0 <= n mod 10 <= 9) by (Z.div_mod_to_equations; lia).
  rewrite (proj2 (proj2 (digit_char_facts _ H3))), (proj2 (proj2 (digit_char_facts _ H2))),
    (proj2 (proj2 (digit_char_facts _ H1))), (proj2 (proj2 (digit_char_facts _ H0))).
  reflexivity.
Qed.

Lemma year_digits_four y : 1000 <= y -> year_digits y = four_digits y.
Proof.
  intros H. unfold year_digits.
  destruct (Z.ltb_spec y 10); [lia|].
  destruct (Z.ltb_spec y 100); [lia|].
  destruct (Z.ltb_spec y 1000); [lia|reflexivity].
Qed.

End Strftime.

(** X20: the start and end dates in the hover text of a bar read back.
    Formatting a day of the calendar with a four-digit year as
    [%d/%m/%Y] and parsing the text as [load_data] parses a date cell
    gives the same day. *)
Theorem strftime_reads_back :
  forall (d : date),
    valid_date d -> 1000 <= year d ->
    to_datetime (strftime d) = Some d.
Proof.
  intros [y m dd] (Hy & Hm & Hd) Hy4. cbn [year month day] in *.
  pose proof (days_in_month_bounds y m) as Hb.
  unfold to_datetime, strftime. cbn [year month day].
  rewrite chars_str, (year_digits_four y Hy4).
  rewrite split_on_first by (apply two_digits_no_slash; lia).
  rewrite split_on_first by (apply two_digits_no_slash; lia).
  rewrite split_on_last by (apply four_digits_no_slash; lia).
  rewrite parse_day_two_digits, parse_month_two_digits, parse_year_four_digits by lia.
  assert (E1 : (1 <=? y) = true) by (apply Z.leb_le; lia).
  assert (E2 : (dd <=? days_in_month y m) = true) by (apply Z.leb_le; lia).
  rewrite E1, E2. reflexivity.
Qed.

Lemma strftime_reads_back_witness :
  to_datetime (strftime (mkdate 2024 2 29)) = Some (mkdate 2024 2 29).
Proof.
  apply (strftime_reads_back (mkdate 2024 2 29)).
  - unfold valid_date. repeat split; vm_compute; discriminate.
  - vm_compute. discriminate.
Defined.

(** ** Runs that follow one another *)

(** X21: a successful "Update Progress" and the next load.  The run
    displays "Updated <task> to <p>%!", clears the cache and asks for a
    rerun; the next load returns the rows of the updated view, and only
    those, each with its numeric progress, its dates and its sheet cells
    as the run left them, except that the progress text is the one
    [save_data] wrote from the number: for an updated row it is
    [str(float(p)) + '%'], as in [75.0%], not the [75%] of the message.
    This is for a view with a number in every progress cell; with a
    missing progress among the rows that are not updated the save fails. *)
Theorem update_progress_persists :
  forall now later ui w df w1 es,
    refresh ui = false ->
    load_data now no_faults w = (df, w1, es) ->
    df <> [] ->
    consistent df ->
    numeric (apply_filters ui df) = true ->
    may_update_progress (role ui) && update_progress_clicked ui = true ->
    ctrl (main now no_faults ui w) = Rerun
    /\ cache (final (main now no_faults ui w)) = None
    /\ In (st_success ("Updated " ++ selected_task ui ++ " to "
                         ++ str_of_int (new_progress ui) ++ "%!")%string)
          (shown (main now no_faults ui w))
    /\ exists fresh w2,
        load_data later no_faults (final (main now no_faults ui w)) = (fresh, w2, [])
        /\ Forall2
             (fun v new =>
                PROGRESS_NUM new = PROGRESS_NUM v
                /\ START new = START v /\ END new = END v
                /\ same_but_progress (cells v) (cells new)
                /\ PROGRESS (cells new) = (str_of_float (PROGRESS_NUM v) ++ "%")%string
                /\ (has_id (selected_task ui) v = true ->
                    PROGRESS (cells new)
                    = (str_of_float (float_of_int (new_progress ui)) ++ "%")%string))
             (update_progress (selected_task ui) (new_progress ui) (apply_filters ui df))
             fresh.
Proof.
  intros now later ui w df w1 es Hr Hl Hne Hcons Hnum Hp.
  rewrite (main_loaded _ _ _ _ _ _ _ Hr Hl Hne).
  unfold tab_update_progress. rewrite Hp.
  rewrite (save_data_numeric _ _ (update_progress_numeric _ _ _ Hnum)).
  cbn [app ctrl final cache shown].
  split; [reflexivity|]. split; [reflexivity|]. split.
  { apply in_or_app. right. left. reflexivity. }
  unfold load_data, cache_clear. cbn [cache sheet].
  rewrite load_data_body_clean.
  set (v := apply_filters ui df).
  assert (Hv : consistent v) by apply apply_filters_consistent, Hcons.
  rewrite (clean_written _ (update_progress_consistent _ _ _ Hv)).
  eexists _, _. split; [reflexivity|].
  apply (Forall2_map_r
           (fun r => has_id (selected_task ui) r = true ->
                     PROGRESS_NUM r = float_of_int (new_progress ui))).
  - intros r Hset. unfold same_but_progress, reloaded, written.
    cbn [cells PROGRESS_NUM START END PROGRESS set_PROGRESS PROJECT TASK_ID TASK_NAME
         TYPE ASSIGNED_TO START_DATE END_DATE STATUS PRIORITY BUDGET ACTUAL_COST].
    repeat split. intros Hid. rewrite (Hset Hid). reflexivity.
  - rewrite update_progress_rows, Forall_map. apply Forall_forall. intros r _.
    destruct (has_id (selected_task ui) r) eqn:Hid.
    + intros _. unfold progress_row.
      destruct (new_progress ui =? 100); [|destruct (0 <? new_progress ui)]; reflexivity.
    + intros H. unfold has_id in *. congruence.
Qed.

Lemma update_progress_persists_witness :
  ctrl (main 0 no_faults ui_progress (mkworld [rec_T1; rec_T2] None)) = Rerun
  /\ cache (final (main 0 no_faults ui_progress (mkworld [rec_T1; rec_T2] None))) = None
  /\ In (st_success ("Updated " ++ "T1" ++ " to " ++ str_of_int 75 ++ "%!")%string)
        (shown (main 0 no_faults ui_progress (mkworld [rec_T1; rec_T2] None)))
  /\ exists fresh w2,
      load_data 1 no_faults
                (final (main 0 no_faults ui_progress (mkworld [rec_T1; rec_T2] None)))
      = (fresh, w2, [])
      /\ Forall2
           (fun v new =>
              PROGRESS_NUM new = PROGRESS_NUM v
              /\ START new = START v /\ END new = END v
              /\ same_but_progress (cells v) (cells new)
              /\ PROGRESS (cells new) = (str_of_float (PROGRESS_NUM v) ++ "%")%string
              /\ (has_id "T1" v = true ->
                  PROGRESS (cells new)
                  = (str_of_float (float_of_int 75) ++ "%")%string))
           (update_progress "T1" 75 (apply_filters ui_progress [row_T1; row_T2]))
           fresh.
Proof.
  apply (update_progress_persists 0 1 ui_progress (mkworld [rec_T1; rec_T2] None)
           [row_T1; row_T2]
           (mkworld [rec_T1; rec_T2] (Some (0, [row_T1; row_T2], []))) []).
  - reflexivity.
  - reflexivity.
  - discriminate.
  - repeat constructor; simpl; eexists _, _; split; reflexivity.
  - reflexivity.
  - reflexivity.
Defined.






(** X25: a missing progress in the view makes the save fail after the
    sheet was cleared.  With no fault of the remote calls, an "Update
    Cost" on a view that has a row without a number in its progress cell
    displays the error of the save, ends without a rerun, keeps the cache
    entry and leaves the sheet without a row. *)
Theorem nan_progress_empties_sheet :
  forall now ui w df w1 es,
    refresh ui = false ->
    load_data now no_faults w = (df, w1, es) ->
    df <> [] ->
    may_update_progress (role ui) && update_progress_clicked ui = false ->
    may_update_cost (role ui) && update_cost_clicked ui = true ->
    numeric (apply_filters ui df) = false ->
    sheet (final (main now no_faults ui w)) = []
    /\ ctrl (main now no_faults ui w) = Finished
    /\ In (st_error "Error saving") (shown (main now no_faults ui w))
    /\ cache (final (main now no_faults ui w)) = cache w1.
Proof.
  intros now ui w df w1 es Hr Hl Hne Hp Hc Hnan.
  rewrite (main_loaded _ _ _ _ _ _ _ Hr Hl Hne).
  unfold tab_update_progress. rewrite Hp. unfold tab_update_cost. rewrite Hc.
  assert (Hnan' : numeric (update_cost (cost_task ui) (new_cost ui) (apply_filters ui df))
                  = false) by (rewrite numeric_update_cost; exact Hnan).
  rewrite (save_data_missing _ (sheet w1) Hnan').
  destruct (tab_reports_keeps ui (mkworld [] (cache w1))
              ((es ++ es ++ key_metrics (apply_filters ui df)) ++ [st_error "Error saving"])
              (update_cost (cost_task ui) (new_cost ui) (apply_filters ui df)))
    as (Hf & _ & Hk & Hin).
  rewrite Hf, Hk. repeat split.
  apply Hin, in_or_app. right. left. reflexivity.
Qed.

Lemma nan_progress_empties_sheet_witness :
  sheet (final (main 0 no_faults ui_cost (mkworld [rec_T1; rec_T4_nan] None))) = []
  /\ ctrl (main 0 no_faults ui_cost (mkworld [rec_T1; rec_T4_nan] None)) = Finished
  /\ In (st_error "Error saving")
        (shown (main 0 no_faults ui_cost (mkworld [rec_T1; rec_T4_nan] None)))
  /\ cache (final (main 0 no_faults ui_cost (mkworld [rec_T1; rec_T4_nan] None)))
     = Some (0, [row_T1; row_T4_nan], []).
Proof.
  apply (nan_progress_empties_sheet 0 ui_cost (mkworld [rec_T1; rec_T4_nan] None)
           [row_T1; row_T4_nan]
           (mkworld [rec_T1; rec_T4_nan] (Some (0, [row_T1; row_T4_nan], []))) []).
  - reflexivity.
  - vm_compute. reflexivity.
  - discriminate.
  - reflexivity.
  - reflexivity.
  - reflexivity.
Defined.

(** X23: the label of a select-box entry.  [format_func] finds a label
    for every identifier that occurs in the view, and fails (the
    [IndexError] of [values[0]]) exactly for an identifier that does not
    occur in it. *)
Theorem format_func_defined :
  forall (df : frame) (x : string),
    format_func df x = None <-> ~ In x (col_TASK_ID df).
Proof.
  intros df x. unfold format_func, values_0, col_TASK_ID, col_TASK_NAME, column.
  rewrite eq_mask_column, select_map.
  induction df as [|r df IH]; simpl; [tauto|].
  destruct (String.eqb_spec (TASK_ID (cells r)) x) as [E|E]; simpl.
  - split; [discriminate|]. intros H. exfalso. apply H. left. exact E.
  - rewrite IH. tauto.
Qed.
